(** * The standalone launcher [runtime/bin/main.cc]: a shallow embedding

    The launcher parses the command line into process-wide globals, reads or
    writes snapshots, drives the main isolate in a restart loop and inflates
    the bundled Observatory archive.  The engine (every [Dart_*] entry point),
    the file layer and zlib are external: they appear here as oracles whose
    answers are given, and whose calls are recorded in a trace of events.

    Conventions.
    - A C string is a [string]: the characters before the terminator.  A
      nullable [const char*] is an [option string].
    - [int] values are [Z].
    - [ASSERT] is modelled as in a checked build: a failing assertion aborts
      the process. *)

From Stdlib Require Import ZArith Lia List Ascii String Bool.
From Stdlib Require Import Strings.Byte.
From stdpp Require Import base option list strings gmap.

Local Open Scope Z_scope.
Local Open Scope string_scope.

(** ** C string helpers *)

Module CStr.

(** [p + n] on a C string of length at least [n]. *)
Fixpoint skip (n : nat) (s : string) : string :=
  match n, s with
  | O, _ => s
  | S n', String _ s' => skip n' s'
  | S _, EmptyString => EmptyString
  end.

(** [strncmp(a, b, n) == 0]: the first [n] characters agree, or both
    strings end together before that. *)
Fixpoint strncmp_eq (n : nat) (a b : string) : bool :=
  match n with
  | O => true
  | S n' =>
      match a, b with
      | EmptyString, EmptyString => true
      | String x a', String y b' => Ascii.eqb x y && strncmp_eq n' a' b'
      | _, _ => false
      end
  end.

(** [strcmp(a, b) == 0]. *)
Definition strcmp_eq (a b : string) : bool := String.eqb a b.

(** [strchr(s, c)]: the text before the first [c] and the text after it. *)
Fixpoint split_at (c : ascii) (s : string) : option (string * string) :=
  match s with
  | EmptyString => None
  | String a s' =>
      if Ascii.eqb a c then Some (EmptyString, s')
      else match split_at c s' with
           | Some (l, r) => Some (String a l, r)
           | None => None
           end
  end.

Definition isspace (c : ascii) : bool :=
  let n := nat_of_ascii c in
  Nat.eqb n 32 || (Nat.leb 9 n && Nat.leb n 13).

Definition isdigit (c : ascii) : bool :=
  let n := nat_of_ascii c in Nat.leb 48 n && Nat.leb n 57.

Definition digit_value (c : ascii) : Z := Z.of_nat (nat_of_ascii c) - 48.

Fixpoint skip_space (s : string) : string :=
  match s with
  | String c s' => if isspace c then skip_space s' else s
  | EmptyString => s
  end.

(** The digit run at the head of [s], accumulated in base ten. *)
Fixpoint scan_digits (acc : Z) (s : string) : Z * string :=
  match s with
  | String c s' =>
      if isdigit c then scan_digits (10 * acc + digit_value c) s' else (acc, s)
  | EmptyString => (acc, s)
  end.

Definition scan_sign (s : string) : bool * string :=
  match s with
  | String "-"%char s' => (true, s')
  | String "+"%char s' => (false, s')
  | _ => (false, s)
  end.

Definition starts_with_digit (s : string) : bool :=
  match s with String c _ => isdigit c | EmptyString => false end.

(** [atoi]: blanks, an optional sign, then digits; 0 when there is no digit.
    Values outside [int] are undefined in C and are left unbounded here. *)
Definition atoi (s : string) : Z :=
  let '(neg, s1) := scan_sign (skip_space s) in
  let v := fst (scan_digits 0 s1) in
  if neg then - v else v.

(** One [%d] conversion of [sscanf]. *)
Inductive conv := ConvOk (v : Z) (rest : string) | ConvMismatch | ConvEof.

Definition scan_d (s : string) : conv :=
  match skip_space s with
  | EmptyString => ConvEof
  | s0 =>
      let '(neg, s1) := scan_sign s0 in
      if starts_with_digit s1 then
        let '(v, rest) := scan_digits 0 s1 in
        ConvOk (if neg then - v else v) rest
      else ConvMismatch
  end.

(** A literal character of a [sscanf] format. *)
Definition scan_lit (c : ascii) (s : string) : option string :=
  match s with
  | String a s' => if Ascii.eqb a c then Some s' else None
  | EmptyString => None
  end.

End CStr.

Arguments CStr.isdigit : simpl never.
Arguments CStr.isspace : simpl never.

(** ** Build configuration and process-wide globals *)

(** The preprocessor symbols and link-time data the file is compiled against. *)
Record Build := {
  DART_PRECOMPILER : bool;
  DART_NO_SNAPSHOT : bool;
  DART_PRODUCT_BINARY : bool;
  (** [isolate_snapshot_buffer != NULL] at start-up: a snapshot is linked in. *)
  isolate_snapshot_linked : bool
}.

Definition is_noopt (b : Build) : bool :=
  DART_PRECOMPILER b && negb (DART_NO_SNAPSHOT b).

Definition DEFAULT_VM_SERVICE_SERVER_IP : string := "127.0.0.1".
Definition DEFAULT_VM_SERVICE_SERVER_PORT : Z := 8181.

Definition kApiErrorExitCode : Z := 253.
Definition kCompilationErrorExitCode : Z := 254.
Definition kErrorExitCode : Z := 255.
Definition kRestartRequestExitCode : Z := 1000.

Definition kPrecompiledVmIsolateName : string := "precompiled.vmisolate".
Definition kPrecompiledIsolateName : string := "precompiled.isolate".
Definition kPrecompiledInstructionsName : string := "precompiled.S".
Definition kVMIsolateSuffix : string := "vmisolate".
Definition kIsolateSuffix : string := "isolate".

(** The file-level statics written by the option processors. *)
Record Globals := mkGlobals {
  generate_script_snapshot : bool;
  generate_full_snapshot_after_run : bool;
  run_full_snapshot : bool;
  snapshot_filename : option string;
  commandline_package_root : option string;
  commandline_packages_file : option string;
  compile_all : bool;
  gen_precompiled_snapshot : bool;
  run_precompiled_snapshot : bool;
  precompiled_snapshot_directory : option string;
  trace_loading : bool;
  vm_service_server_ip : string;
  vm_service_server_port : Z;
  do_vm_shutdown : bool;
  version_option : bool;
  help_option : bool;
  verbose_option : bool;
  (** [dart::HashMap* environment], [None] while it is [NULL]. *)
  environment : option (gmap string string)
}.

Definition initial_globals : Globals := {|
  generate_script_snapshot := false;
  generate_full_snapshot_after_run := false;
  run_full_snapshot := false;
  snapshot_filename := None;
  commandline_package_root := None;
  commandline_packages_file := None;
  compile_all := false;
  gen_precompiled_snapshot := false;
  run_precompiled_snapshot := false;
  precompiled_snapshot_directory := None;
  trace_loading := false;
  vm_service_server_ip := DEFAULT_VM_SERVICE_SERVER_IP;
  vm_service_server_port := -1;
  do_vm_shutdown := true;
  version_option := false;
  help_option := false;
  verbose_option := false;
  environment := None
|}.

Module Set_.
Definition generate_script_snapshot v g :=
  let '(mkGlobals _ a2 a3 a4 a5 a6 a7 a8 a9 a10 a11 a12 a13 a14 a15 a16 a17 a18) := g in
  mkGlobals v a2 a3 a4 a5 a6 a7 a8 a9 a10 a11 a12 a13 a14 a15 a16 a17 a18.
Definition generate_full_snapshot_after_run v g :=
  let '(mkGlobals a1 _ a3 a4 a5 a6 a7 a8 a9 a10 a11 a12 a13 a14 a15 a16 a17 a18) := g in
  mkGlobals a1 v a3 a4 a5 a6 a7 a8 a9 a10 a11 a12 a13 a14 a15 a16 a17 a18.
Definition run_full_snapshot v g :=
  let '(mkGlobals a1 a2 _ a4 a5 a6 a7 a8 a9 a10 a11 a12 a13 a14 a15 a16 a17 a18) := g in
  mkGlobals a1 a2 v a4 a5 a6 a7 a8 a9 a10 a11 a12 a13 a14 a15 a16 a17 a18.
Definition snapshot_filename v g :=
  let '(mkGlobals a1 a2 a3 _ a5 a6 a7 a8 a9 a10 a11 a12 a13 a14 a15 a16 a17 a18) := g in
  mkGlobals a1 a2 a3 v a5 a6 a7 a8 a9 a10 a11 a12 a13 a14 a15 a16 a17 a18.
Definition commandline_package_root v g :=
  let '(mkGlobals a1 a2 a3 a4 _ a6 a7 a8 a9 a10 a11 a12 a13 a14 a15 a16 a17 a18) := g in
  mkGlobals a1 a2 a3 a4 v a6 a7 a8 a9 a10 a11 a12 a13 a14 a15 a16 a17 a18.
Definition commandline_packages_file v g :=
  let '(mkGlobals a1 a2 a3 a4 a5 _ a7 a8 a9 a10 a11 a12 a13 a14 a15 a16 a17 a18) := g in
  mkGlobals a1 a2 a3 a4 a5 v a7 a8 a9 a10 a11 a12 a13 a14 a15 a16 a17 a18.
Definition compile_all v g :=
  let '(mkGlobals a1 a2 a3 a4 a5 a6 _ a8 a9 a10 a11 a12 a13 a14 a15 a16 a17 a18) := g in
  mkGlobals a1 a2 a3 a4 a5 a6 v a8 a9 a10 a11 a12 a13 a14 a15 a16 a17 a18.
Definition gen_precompiled_snapshot v g :=
  let '(mkGlobals a1 a2 a3 a4 a5 a6 a7 _ a9 a10 a11 a12 a13 a14 a15 a16 a17 a18) := g in
  mkGlobals a1 a2 a3 a4 a5 a6 a7 v a9 a10 a11 a12 a13 a14 a15 a16 a17 a18.
Definition run_precompiled_snapshot v g :=
  let '(mkGlobals a1 a2 a3 a4 a5 a6 a7 a8 _ a10 a11 a12 a13 a14 a15 a16 a17 a18) := g in
  mkGlobals a1 a2 a3 a4 a5 a6 a7 a8 v a10 a11 a12 a13 a14 a15 a16 a17 a18.
Definition precompiled_snapshot_directory v g :=
  let '(mkGlobals a1 a2 a3 a4 a5 a6 a7 a8 a9 _ a11 a12 a13 a14 a15 a16 a17 a18) := g in
  mkGlobals a1 a2 a3 a4 a5 a6 a7 a8 a9 v a11 a12 a13 a14 a15 a16 a17 a18.
Definition trace_loading v g :=
  let '(mkGlobals a1 a2 a3 a4 a5 a6 a7 a8 a9 a10 _ a12 a13 a14 a15 a16 a17 a18) := g in
  mkGlobals a1 a2 a3 a4 a5 a6 a7 a8 a9 a10 v a12 a13 a14 a15 a16 a17 a18.
Definition vm_service_server (ip : string) (port : Z) g :=
  let '(mkGlobals a1 a2 a3 a4 a5 a6 a7 a8 a9 a10 a11 _ _ a14 a15 a16 a17 a18) := g in
  mkGlobals a1 a2 a3 a4 a5 a6 a7 a8 a9 a10 a11 ip port a14 a15 a16 a17 a18.
Definition do_vm_shutdown v g :=
  let '(mkGlobals a1 a2 a3 a4 a5 a6 a7 a8 a9 a10 a11 a12 a13 _ a15 a16 a17 a18) := g in
  mkGlobals a1 a2 a3 a4 a5 a6 a7 a8 a9 a10 a11 a12 a13 v a15 a16 a17 a18.
Definition version_option v g :=
  let '(mkGlobals a1 a2 a3 a4 a5 a6 a7 a8 a9 a10 a11 a12 a13 a14 _ a16 a17 a18) := g in
  mkGlobals a1 a2 a3 a4 a5 a6 a7 a8 a9 a10 a11 a12 a13 a14 v a16 a17 a18.
Definition help_option v g :=
  let '(mkGlobals a1 a2 a3 a4 a5 a6 a7 a8 a9 a10 a11 a12 a13 a14 a15 _ a17 a18) := g in
  mkGlobals a1 a2 a3 a4 a5 a6 a7 a8 a9 a10 a11 a12 a13 a14 a15 v a17 a18.
Definition verbose_option v g :=
  let '(mkGlobals a1 a2 a3 a4 a5 a6 a7 a8 a9 a10 a11 a12 a13 a14 a15 a16 _ a18) := g in
  mkGlobals a1 a2 a3 a4 a5 a6 a7 a8 a9 a10 a11 a12 a13 a14 a15 a16 v a18.
Definition environment v g :=
  let '(mkGlobals a1 a2 a3 a4 a5 a6 a7 a8 a9 a10 a11 a12 a13 a14 a15 a16 a17 _) := g in
  mkGlobals a1 a2 a3 a4 a5 a6 a7 a8 a9 a10 a11 a12 a13 a14 a15 a16 a17 v.
End Set_.

(** ** Outcomes of code that can leave the process *)

(** A call returns, or the process leaves through [Platform::Exit], or a
    failing [ASSERT] aborts it, or the code reads a variable that was never
    written, after which C promises nothing. *)
Inductive Outcome (A : Type) : Type :=
  | Ret (a : A)
  | Exited (code : Z)
  | AssertFailed
  | Undefined.
Arguments Ret {A} a.
Arguments Exited {A} code.
Arguments AssertFailed {A}.
Arguments Undefined {A}.

Definition obind {A B} (m : Outcome A) (k : A -> Outcome B) : Outcome B :=
  match m with
  | Ret a => k a
  | Exited c => Exited c
  | AssertFailed => AssertFailed
  | Undefined => Undefined
  end.

Definition ASSERT (cond : bool) : Outcome unit :=
  if cond then Ret tt else AssertFailed.

Notation "'do' x <- m ; k" := (obind m (fun x => k))
  (at level 10, x pattern, m at level 100, k at level 200,
   format "'[v' 'do'  x  <-  m ; '/' k ']'").

(** ** Option processors *)

(** What a processor may touch: the globals and the [vm_options] list
    ([CommandLineOptions] is an ordered sequence of flags; [AddArgument]
    appends). *)
Definition PState : Type := Globals * list string.

Definition AddArgument (a : string) (vm : list string) : list string :=
  vm ++ [a].

Definition is_empty (s : string) : bool :=
  match s with EmptyString => true | _ => false end.

(** [*arg == c]. *)
Definition first_is (c : ascii) (s : string) : bool :=
  match s with String a _ => Ascii.eqb a c | EmptyString => false end.

Definition IsValidFlag (name prefix : string) (prefix_length : nat) : bool :=
  Nat.ltb prefix_length (String.length name)
  && CStr.strncmp_eq prefix_length name prefix.

Definition ProcessVersionOption (arg : string) (st : PState)
  : Outcome (bool * PState) :=
  if negb (is_empty arg) then Ret (false, st)
  else Ret (true, (Set_.version_option true st.1, st.2)).

Definition ProcessHelpOption (arg : string) (st : PState)
  : Outcome (bool * PState) :=
  if negb (is_empty arg) then Ret (false, st)
  else Ret (true, (Set_.help_option true st.1, st.2)).

Definition ProcessVerboseOption (arg : string) (st : PState)
  : Outcome (bool * PState) :=
  if negb (is_empty arg) then Ret (false, st)
  else Ret (true, (Set_.verbose_option true st.1, st.2)).

Definition ProcessPackageRootOption (arg : string) (st : PState)
  : Outcome (bool * PState) :=
  if is_empty arg || first_is "-" arg then Ret (false, st)
  else Ret (true, (Set_.commandline_package_root (Some arg) st.1, st.2)).

Definition ProcessPackagesOption (arg : string) (st : PState)
  : Outcome (bool * PState) :=
  if is_empty arg || first_is "-" arg then Ret (false, st)
  else Ret (true, (Set_.commandline_packages_file (Some arg) st.1, st.2)).

(** The [sscanf] call of [ExtractPortAndIP] on the format
    [%d/%d.%d.%d.%d%n]: the returned count ([-1] is [EOF]) and the value
    stored in [n], which stays unset unless the whole format matched. *)
Definition sscanf_port_ip (s : string) : Z * option nat :=
  match CStr.scan_d s with
  | CStr.ConvEof => (-1, None)
  | CStr.ConvMismatch => (0, None)
  | CStr.ConvOk _ r1 =>
  match CStr.scan_lit "/" r1 with None => (1, None) | Some r1' =>
  match CStr.scan_d r1' with CStr.ConvOk _ r2 =>
  match CStr.scan_lit "." r2 with None => (2, None) | Some r2' =>
  match CStr.scan_d r2' with CStr.ConvOk _ r3 =>
  match CStr.scan_lit "." r3 with None => (3, None) | Some r3' =>
  match CStr.scan_d r3' with CStr.ConvOk _ r4 =>
  match CStr.scan_lit "." r4 with None => (4, None) | Some r4' =>
  match CStr.scan_d r4' with CStr.ConvOk _ r5 =>
    (5, Some (String.length s - String.length r5)%nat)
  | _ => (4, None) end end
  | _ => (3, None) end end
  | _ => (2, None) end end
  | _ => (1, None) end end
  end.

(** The three ways [ExtractPortAndIP] ends: it stores a port and an ip and
    returns true, it returns false, or it reads [n] although [sscanf] never
    stored it. *)
Inductive Extracted :=
  | PortAndIP (port : Z) (ip : string)
  | NoMatch
  | ReadsUnsetLength.

Definition ExtractPortAndIP (option_value : string)
    (default_port : Z) (default_ip : string) : Extracted :=
  if is_empty option_value then PortAndIP default_port default_ip
  else if negb (first_is "=" option_value) && negb (first_is ":" option_value)
  then NoMatch
  else
    let port := CStr.atoi (CStr.skip 1 option_value) in
    match CStr.split_at "/" option_value with
    | None => PortAndIP port default_ip
    | Some (_, after_slash) =>
        let '(count, n) := sscanf_port_ip (CStr.skip 1 option_value) in
        if Z.eqb count 0 then NoMatch
        else match n with
             | None => ReadsUnsetLength
             | Some n =>
                 if is_empty (CStr.skip (1 + n) option_value)
                 then PortAndIP port after_slash
                 else NoMatch
             end
    end.

(** [-D<name>=<value>]: the environment table is allocated on the first
    non-empty argument, before the argument is checked. *)
Definition ProcessEnvironmentOption (arg : string) (st : PState)
  : Outcome (bool * PState) :=
  if is_empty arg then Ret (true, st)
  else
    let env := default ∅ (environment st.1) in
    let g := Set_.environment (Some env) st.1 in
    match CStr.split_at "=" arg with
    | None => Ret (false, (g, st.2))
    | Some (name, value) =>
        if Nat.eqb (String.length name) 0 then Ret (false, (g, st.2))
        else Ret (true, (Set_.environment (Some (<[name := value]> env)) st.1,
                         st.2))
    end.

Definition ProcessCompileAllOption (arg : string) (st : PState)
  : Outcome (bool * PState) :=
  if negb (is_empty arg) then Ret (false, st)
  else Ret (true, (Set_.compile_all true st.1, st.2)).

Section Processors.
Variable b : Build.

Definition ProcessGenPrecompiledSnapshotOption (arg : string) (st : PState)
  : Outcome (bool * PState) :=
  if negb (DART_PRECOMPILER b) then Ret (false, st)
  else
    let dir := if first_is "=" arg || first_is ":" arg
               then CStr.skip 1 arg else arg in
    Ret (true,
         (Set_.gen_precompiled_snapshot true
            (Set_.precompiled_snapshot_directory (Some dir) st.1),
          AddArgument "--precompilation" st.2)).

Definition ProcessRunPrecompiledSnapshotOption (arg : string) (st : PState)
  : Outcome (bool * PState) :=
  let dir := if first_is "=" arg || first_is ":" arg
             then CStr.skip 1 arg else arg in
  Ret (true,
       (Set_.run_precompiled_snapshot true
          (Set_.precompiled_snapshot_directory (Some dir) st.1),
        AddArgument "--precompilation" st.2)).

(** [snapshot_option] is the pointer argument: the setter of the flag it
    points to. *)
Definition ProcessSnapshotOptionHelper (filename : string)
    (snapshot_option : bool -> Globals -> Globals) (g : Globals)
  : Outcome (bool * Globals) :=
  do _ <- ASSERT (negb (Nat.eqb (String.length filename) 0));
  let g1 := snapshot_option true (Set_.snapshot_filename (Some filename) g) in
  if generate_script_snapshot g1 && generate_full_snapshot_after_run g1
  then Ret (false, snapshot_option false g1)
  else Ret (true, g1).

Definition ProcessScriptSnapshotOption (filename : string) (st : PState)
  : Outcome (bool * PState) :=
  if Nat.eqb (String.length filename) 0 then Ret (false, st)
  else if negb (isolate_snapshot_linked b) then Ret (false, st)
  else
    do r <- ProcessSnapshotOptionHelper filename
              Set_.generate_script_snapshot st.1;
    Ret (r.1, (r.2, st.2)).

Definition ProcessFullSnapshotAfterRunOption (filename : string) (st : PState)
  : Outcome (bool * PState) :=
  if Nat.eqb (String.length filename) 0 then Ret (false, st)
  else if isolate_snapshot_linked b then Ret (false, st)
  else
    do r <- ProcessSnapshotOptionHelper filename
              Set_.generate_full_snapshot_after_run st.1;
    Ret (r.1, (r.2, st.2)).

Definition ProcessRunFullSnapshotOption (filename : string) (st : PState)
  : Outcome (bool * PState) :=
  if negb (DART_PRODUCT_BINARY b) then Ret (false, st)
  else
    do r <- ProcessSnapshotOptionHelper filename Set_.run_full_snapshot st.1;
    Ret (r.1, (r.2, st.2)).

Definition ProcessEnableVmServiceOption (option_value : string) (st : PState)
  : Outcome (bool * PState) :=
  match ExtractPortAndIP option_value DEFAULT_VM_SERVICE_SERVER_PORT
          DEFAULT_VM_SERVICE_SERVER_IP with
  | PortAndIP port ip => Ret (true, (Set_.vm_service_server ip port st.1, st.2))
  | NoMatch => Ret (false, st)
  | ReadsUnsetLength => Undefined
  end.

Definition ProcessObserveOption (option_value : string) (st : PState)
  : Outcome (bool * PState) :=
  match ExtractPortAndIP option_value DEFAULT_VM_SERVICE_SERVER_PORT
          DEFAULT_VM_SERVICE_SERVER_IP with
  | PortAndIP port ip =>
      Ret (true,
           (Set_.vm_service_server ip port st.1,
            AddArgument "--warn-on-pause-with-no-debugger"
              (AddArgument "--pause-isolates-on-unhandled-exceptions"
                 (AddArgument "--pause-isolates-on-exit" st.2))))
  | NoMatch => Ret (false, st)
  | ReadsUnsetLength => Undefined
  end.

Definition ProcessTraceLoadingOption (arg : string) (st : PState)
  : Outcome (bool * PState) :=
  if negb (is_empty arg) then Ret (false, st)
  else Ret (true, (Set_.trace_loading true st.1, st.2)).

Definition ProcessShutdownOption (arg : string) (st : PState)
  : Outcome (bool * PState) :=
  if is_empty arg then
    Ret (true, (Set_.do_vm_shutdown true st.1, AddArgument "--shutdown" st.2))
  else if negb (first_is "=" arg) && negb (first_is ":" arg) then
    Ret (false, st)
  else if CStr.strcmp_eq (CStr.skip 1 arg) "true" then
    Ret (true, (Set_.do_vm_shutdown true st.1, AddArgument "--shutdown" st.2))
  else if CStr.strcmp_eq (CStr.skip 1 arg) "false" then
    Ret (true,
         (Set_.do_vm_shutdown false st.1, AddArgument "--no-shutdown" st.2))
  else Ret (false, st).

Definition main_options
  : list (string * (string -> PState -> Outcome (bool * PState))) :=
  [ ("-D", ProcessEnvironmentOption);
    ("-h", ProcessHelpOption);
    ("--help", ProcessHelpOption);
    ("--packages=", ProcessPackagesOption);
    ("--package-root=", ProcessPackageRootOption);
    ("-v", ProcessVerboseOption);
    ("--verbose", ProcessVerboseOption);
    ("--version", ProcessVersionOption);
    ("--compile_all", ProcessCompileAllOption);
    ("--enable-vm-service", ProcessEnableVmServiceOption);
    ("--gen-precompiled-snapshot", ProcessGenPrecompiledSnapshotOption);
    ("--observe", ProcessObserveOption);
    ("--run-precompiled-snapshot", ProcessRunPrecompiledSnapshotOption);
    ("--shutdown", ProcessShutdownOption);
    ("--snapshot=", ProcessScriptSnapshotOption);
    ("--full-snapshot-after-run=", ProcessFullSnapshotAfterRunOption);
    ("--run-full-snapshot=", ProcessRunFullSnapshotOption);
    ("--trace-loading", ProcessTraceLoadingOption) ].

(** The table walk of [ProcessMainOptions], from entry [table] on: the first
    matching entry whose processor accepts wins; a processor that refuses
    keeps what it wrote and the walk goes on. *)
Fixpoint ProcessMainOptions_from
    (table : list (string * (string -> PState -> Outcome (bool * PState))))
    (option : string) (st : PState) : Outcome (bool * PState) :=
  match table with
  | [] => Ret (false, st)
  | (name, process) :: table' =>
      let length := String.length name in
      if Nat.leb length (String.length option)
         && CStr.strncmp_eq length option name
      then
        do r <- process (CStr.skip length option) st;
        if r.1 then Ret (true, r.2)
        else ProcessMainOptions_from table' option r.2
      else ProcessMainOptions_from table' option st
  end.

Definition ProcessMainOptions (option : string) (st : PState)
  : Outcome (bool * PState) :=
  ProcessMainOptions_from main_options option st.

(** ** ParseArguments *)

Record ParseResult := {
  result : Z;
  script_name : option string;
  vm_options : list string;
  dart_options : list string;
  print_flags_seen : bool;
  verbose_debug_seen : bool;
  globals : Globals
}.

Definition has_prefix (p s : string) : bool :=
  CStr.strncmp_eq (String.length p) s p.

(** The first loop of [ParseArguments], with [args] the arguments from
    index [i] on.  It returns the arguments left when the loop ends: the
    script name and what follows it. *)
Fixpoint parse_vm_options (args : list string) (st : PState)
    (print_flags verbose_debug : bool)
  : Outcome (list string * PState * bool * bool) :=
  match args with
  | [] => Ret ([], st, print_flags, verbose_debug)
  | a :: rest =>
      do r <- ProcessMainOptions a st;
      if r.1 then parse_vm_options rest r.2 print_flags verbose_debug
      else if has_prefix "-p" a then
        do r1 <- ProcessPackageRootOption (CStr.skip 2 a) r.2;
        if r1.1 then parse_vm_options rest r1.2 print_flags verbose_debug
        else
          match rest with
          | [] => Ret ([], r1.2, print_flags, verbose_debug)
          | a' :: rest' =>
              do r2 <- ProcessPackageRootOption a' r1.2;
              if r2.1
              then parse_vm_options rest' r2.2 print_flags verbose_debug
              else Ret (rest', r2.2, print_flags, verbose_debug)
          end
      else if has_prefix "-c" a then
        parse_vm_options rest (r.2.1, AddArgument "--checked" r.2.2)
          print_flags verbose_debug
      else if negb (IsValidFlag a "--" 2) then
        Ret (a :: rest, r.2, print_flags, verbose_debug)
      else
        let pf := has_prefix "--print-flags" a || has_prefix "--print_flags" a in
        let vd := has_prefix "--verbose_debug" a
                  || has_prefix "--verbose-debug" a in
        parse_vm_options rest (r.2.1, AddArgument a r.2.2)
          (print_flags || pf) (verbose_debug || (negb pf && vd))
  end.

(** The checks after the script name has been taken. *)
Definition consistent_arguments (g : Globals) : bool :=
  if bool_decide (commandline_package_root g <> None)
     && bool_decide (commandline_packages_file g <> None) then false
  else if is_noopt b && gen_precompiled_snapshot g then false
  else if is_noopt b && run_precompiled_snapshot g then false
  else if run_full_snapshot g && run_precompiled_snapshot g then false
  else if (generate_full_snapshot_after_run g || gen_precompiled_snapshot g)
          && (run_full_snapshot g || run_precompiled_snapshot g) then false
  else true.

(** [ParseArguments] from a given parser state; [args] is [argv] without the
    executable name. *)
Definition ParseArguments_from (st : PState) (args : list string)
  : Outcome ParseResult :=
  do r <- parse_vm_options args st false false;
  let '(rest, st', pf, vd) := r in
  match rest with
  | [] =>
      Ret {| result := -1; script_name := None; vm_options := st'.2;
             dart_options := []; print_flags_seen := pf;
             verbose_debug_seen := vd; globals := st'.1 |}
  | script :: script_args =>
      Ret {| result := if consistent_arguments st'.1 then 0 else -1;
             script_name := Some script; vm_options := st'.2;
             dart_options := script_args; print_flags_seen := pf;
             verbose_debug_seen := vd; globals := st'.1 |}
  end.

(** [main] calls the parser once, on the initial globals and with
    [--no_write_protect_code] already among the VM options. *)
Definition ParseArguments (argv : list string) : Outcome ParseResult :=
  ParseArguments_from (initial_globals, ["--no_write_protect_code"])
    (tail argv).

End Processors.

(** ** The environment callback *)

(** The name handle the engine passes: [Dart_StringToUTF8] fails on it, or
    yields the bytes copied into [name_chars]. *)
Inductive NameHandle := NotAString | NameChars (name_chars : string).

Inductive EnvAnswer :=
  | ThrowsArgumentError
  | DartNull
  | DartString (value : string).

Definition EnvironmentCallback (g : Globals) (name : NameHandle) : EnvAnswer :=
  match name with
  | NotAString => ThrowsArgumentError
  | NameChars name_chars =>
      let value :=
        match environment g with
        | Some env => env !! name_chars
        | None => None
        end in
      match value with
      | Some v => DartString v
      | None => DartNull
      end
  end.

(** ** The engine and the host as oracles *)

Inductive ErrorKind :=
  | CompilationError | ApiError | VMRestartRequest | UnhandledError.

(** A [Dart_Handle] as far as the launcher looks at it: a value, or an error
    of one kind with its message. *)
Inductive Dart_Handle := Value | Error (kind : ErrorKind) (msg : string).

Definition Dart_IsError (h : Dart_Handle) : bool :=
  match h with Value => false | Error _ _ => true end.
Definition Dart_IsCompilationError (h : Dart_Handle) : bool :=
  match h with Error CompilationError _ => true | _ => false end.
Definition Dart_IsApiError (h : Dart_Handle) : bool :=
  match h with Error ApiError _ => true | _ => false end.
Definition Dart_IsVMRestartRequest (h : Dart_Handle) : bool :=
  match h with Error VMRestartRequest _ => true | _ => false end.
Definition Dart_GetError (h : Dart_Handle) : string :=
  match h with Value => "" | Error _ msg => msg end.

(** The answers of the engine during one bootstrap of the main isolate, one
    field per call site. *)
Record Engine := {
  Dart_CreateIsolate : option string;  (** [Some error] when it returns NULL *)
  Dart_SetLibraryTagHandler : Dart_Handle;
  Dart_IsServiceIsolate : bool;
  VmService_Setup : option string;     (** [Some message] when it fails *)
  service_Dart_CompileAll : Dart_Handle;
  PrepareForScriptLoading : Dart_Handle;
  SetupServiceLoadPort : Dart_Handle;
  SetupPackageRoot : Dart_Handle;
  Dart_SetEnvironmentCallback : Dart_Handle;
  LoadScript : Dart_Handle;
  loading_Dart_RunLoop : Dart_Handle;
  SetupIOLibrary : Dart_Handle;
  Dart_IsolateMakeRunnable : bool;
  Dart_CreateScriptSnapshot : Dart_Handle * list byte;
  VmService_LoadForGenPrecompiled : bool;
  Dart_CompileAll : Dart_Handle;
  Dart_Precompile : Dart_Handle;
  Dart_CreatePrecompiledSnapshot
    : Dart_Handle * (list byte * list byte * list byte);
  root_lib_is_null : bool;
  getMainClosure : Dart_Handle;
  startMainIsolate : Dart_Handle;
  Dart_RunLoop : Dart_Handle;
  Dart_CreateSnapshot : Dart_Handle * (list byte * list byte)
}.

(** The file layer, the extension loader and the rest of the process. *)
Record Host := {
  File_Open : string -> bool;          (** [File::Open(name, kWriteTruncate)] *)
  WriteFully : string -> bool;
  OpenFile : string -> bool;           (** [DartUtils::OpenFile(name, false)] *)
  ReadFile : string -> option (list byte) * Z;   (** [*buffer] and [len] *)
  LoadExtensionLibrary : string -> bool;
  ResolveSymbol : string -> string -> option (list byte);
  kPrecompiledLibraryName : string;
  kPrecompiledInstructionsSymbolName : string;
  kPrecompiledDataSymbolName : string;
  DART_VM_SERVICE_ISOLATE_NAME : string;
  DART_FLAGS_CURRENT_VERSION : Z;
  SetOriginalWorkingDirectory : bool;
  Dart_Initialize : option string;     (** [Some error] when it fails *)
  (** [Process::GlobalExitCode()] when the restart loop is left. *)
  GlobalExitCode : Z
}.

(** Modelled from the spec: [DartUtils::WriteMagicNumber] lives in
    bin/dartutils; the script snapshot carries a 4-byte magic-number
    prefix. *)
Definition magic_number : list byte := [xf5; xf5; xdc; xdc].

(** What the launcher does to the outside, in order. *)
Inductive Event :=
  | EvPrintErr (msg : string)
  | EvIsolateCreated (script_uri : string)
  | EvLoadScript (script_uri : string)
  | EvStartMain
  | EvShutdownIsolate
  | EvFileWritten (name : string) (contents : list byte)
  | EvShortWrite (name : string)
  | EvFileRead (name : string)
  | EvCleanup
  | EvEventHandlerStop.

(** A computation: the events so far and how it ended. *)
Definition M (A : Type) : Type := list Event * Outcome A.

Definition mret {A} (a : A) : M A := ([], Ret a).
Definition emit (e : Event) : M unit := ([e], Ret tt).
Definition stop {A} (o : Outcome A) : M A := ([], o).
Definition mbind_ {A B} (m : M A) (k : A -> M B) : M B :=
  match m.2 with
  | Ret a => ((m.1 ++ (k a).1)%list, (k a).2)
  | Exited c => (m.1, Exited c)
  | AssertFailed => (m.1, AssertFailed)
  | Undefined => (m.1, Undefined)
  end.

Notation "'run' x <- m ; k" := (mbind_ m (fun x => k))
  (at level 10, x pattern, m at level 100, k at level 200,
   format "'[v' 'run'  x  <-  m ; '/' k ']'").
Notation "m >> k" := (mbind_ m (fun _ => k))
  (at level 65, right associativity).

(** ** Snapshot files *)

Section Launcher.
Variable b : Build.
Variable h : Host.
Variable g : Globals.

Definition ErrorExit {A} (exit_code : Z) (msg : string) : M A :=
  emit (EvPrintErr msg) >>
  emit EvShutdownIsolate >>
  emit EvCleanup >>
  (if do_vm_shutdown g then emit EvEventHandlerStop else mret tt) >>
  stop (Exited exit_code).

(** The name built by the [snprintf] calls on [%s/%s]. *)
Definition qualified (snapshot_directory : option string) (filename : string)
  : string :=
  match snapshot_directory with
  | Some d => if Nat.ltb 0 (String.length d) then d ++ "/" ++ filename
              else filename
  | None => filename
  end.

Definition WriteSnapshotFile (snapshot_directory : option string)
    (filename : string) (write_magic_number : bool) (buffer : list byte)
  : M unit :=
  let qualified_filename := qualified snapshot_directory filename in
  run _ <- stop (ASSERT (File_Open h qualified_filename));
  let written := if write_magic_number then magic_number else [] in
  if negb (WriteFully h qualified_filename) then
    emit (EvShortWrite qualified_filename) >>
    ErrorExit kErrorExitCode
      ("Unable to open file " ++ qualified_filename ++ " for writing snapshot")
  else emit (EvFileWritten qualified_filename (written ++ buffer)%list).

Definition ReadSnapshotFile (snapshot_directory : option string)
    (filename : string) : M (list byte) :=
  let qualified_filename := qualified snapshot_directory filename in
  if negb (OpenFile h qualified_filename) then
    emit (EvPrintErr ("Error: Unable to open file " ++ qualified_filename
                      ++ " for reading snapshot")) >>
    stop (Exited kErrorExitCode)
  else
    match ReadFile h qualified_filename with
    | (Some buffer, len) =>
        if Z.eqb len (-1) then
          emit (EvPrintErr ("Error: Unable to read snapshot file "
                            ++ qualified_filename)) >>
          stop (Exited kErrorExitCode)
        else emit (EvFileRead qualified_filename) >> mret buffer
    | (None, _) =>
        emit (EvPrintErr ("Error: Unable to read snapshot file "
                          ++ qualified_filename)) >>
        stop (Exited kErrorExitCode)
    end.

Definition LoadLibrarySymbol (snapshot_directory : option string)
    (libname symname : string) : M (list byte) :=
  let qualified_libname := qualified snapshot_directory libname in
  if negb (LoadExtensionLibrary h qualified_libname) then
    emit (EvPrintErr ("Error: Failed to load library '" ++ qualified_libname
                      ++ "'")) >>
    stop (Exited kErrorExitCode)
  else
    match ResolveSymbol h qualified_libname symname with
    | None =>
        emit (EvPrintErr ("Error: Failed to load symbol '" ++ symname ++ "'"))
        >> stop (Exited kErrorExitCode)
    | Some symbol => mret symbol
    end.

(** A [const char*] global handed to [snprintf] or [File::Open]: a NULL one
    is outside what C defines. *)
Definition deref {A} (p : option A) : M A :=
  match p with Some a => mret a | None => stop Undefined end.

Definition GenerateScriptSnapshot (e : Engine) : M unit :=
  let '(result, buffer) := Dart_CreateScriptSnapshot e in
  (if Dart_IsError result
   then ErrorExit kErrorExitCode (Dart_GetError result) else mret tt) >>
  run filename <- deref (snapshot_filename g);
  WriteSnapshotFile None filename true buffer.

Definition ComputeSnapshotFilenames (filename : string) : string * string :=
  (filename ++ "." ++ kVMIsolateSuffix, filename ++ "." ++ kIsolateSuffix).

Definition GenerateFullSnapshot (e : Engine) : M unit :=
  let '(result, (vm_isolate_buffer, isolate_buffer)) := Dart_CreateSnapshot e in
  (if Dart_IsError result
   then ErrorExit kErrorExitCode (Dart_GetError result) else mret tt) >>
  run filename <- deref (snapshot_filename g);
  let '(vm_snapshot_fname, isolate_snapshot_fname) :=
    ComputeSnapshotFilenames filename in
  WriteSnapshotFile None vm_snapshot_fname false vm_isolate_buffer >>
  WriteSnapshotFile None isolate_snapshot_fname false isolate_buffer.

(** ** Creating and setting up an isolate *)

(** What [CreateIsolateAndSetupHelper] hands back: the isolate, or NULL with
    the value left in [*exit_code] and the message left in [*error]. *)
Inductive HelperResult :=
  | IsolateReady
  | NoIsolate (exit_code : Z) (error : option string).

(** The first [CHECK_RESULT] macro, with the code after it as [k]. *)
Definition CHECK_RESULT_setup (result : Dart_Handle) (k : M HelperResult)
  : M HelperResult :=
  if Dart_IsError result then
    let exit_code :=
      if Dart_IsCompilationError result then kCompilationErrorExitCode
      else if Dart_IsApiError result then kApiErrorExitCode
      else if Dart_IsVMRestartRequest result then kRestartRequestExitCode
      else kErrorExitCode in
    emit EvShutdownIsolate >>
    mret (NoIsolate exit_code (Some (Dart_GetError result)))
  else k.

Definition CreateIsolateAndSetupHelper (e : Engine) (script_uri : string)
    (package_root packages_config : option string) : M HelperResult :=
  if DART_PRODUCT_BINARY b
     && CStr.strcmp_eq script_uri (DART_VM_SERVICE_ISOLATE_NAME h)
  then mret (NoIsolate 0 None)
  else if run_full_snapshot g
          && CStr.strcmp_eq script_uri (DART_VM_SERVICE_ISOLATE_NAME h)
  then mret (NoIsolate 0 None)
  else
    match Dart_CreateIsolate e with
    | Some error => mret (NoIsolate 0 (Some error))
    | None =>
    emit (EvIsolateCreated script_uri) >>
    CHECK_RESULT_setup (Dart_SetLibraryTagHandler e) (
    let main_isolate_setup :=
      CHECK_RESULT_setup (PrepareForScriptLoading e) (
      (if negb (run_full_snapshot g)
       then CHECK_RESULT_setup (SetupServiceLoadPort e)
       else fun k => k) (
      CHECK_RESULT_setup (SetupPackageRoot e) (
      CHECK_RESULT_setup (Dart_SetEnvironmentCallback e) (
      let make_runnable :=
        if negb (Dart_IsolateMakeRunnable e) then
          emit EvShutdownIsolate >>
          mret (NoIsolate 0
            (Some "Invalid isolate state - Unable to make it runnable"))
        else mret IsolateReady in
      if negb (run_precompiled_snapshot g) && negb (run_full_snapshot g) then
        emit (EvLoadScript script_uri) >>
        CHECK_RESULT_setup (LoadScript e) (
        CHECK_RESULT_setup (loading_Dart_RunLoop e) (
        CHECK_RESULT_setup (SetupIOLibrary e) make_runnable))
      else if run_full_snapshot g then
        CHECK_RESULT_setup (SetupIOLibrary e) make_runnable
      else make_runnable)))) in
    if DART_PRODUCT_BINARY b then
      run _ <- stop (ASSERT (negb (Dart_IsServiceIsolate e)));
      main_isolate_setup
    else if Dart_IsServiceIsolate e then
      match VmService_Setup e with
      | Some msg => mret (NoIsolate 0 (Some msg))
      | None =>
          (if compile_all g
           then CHECK_RESULT_setup (service_Dart_CompileAll e)
           else fun k => k) (mret IsolateReady)
      end
    else main_isolate_setup)
    end.

(** The isolate-creation callback registered with the engine.  [flags] is
    the version field of the flags the engine passes, [None] for NULL. *)
Definition CreateIsolateAndSetup (e : Engine) (script_uri : string)
    (package_root package_config : option string) (flags : option Z)
  : M HelperResult :=
  run _ <- stop (ASSERT (bool_decide (flags <> None)));
  run _ <- stop (ASSERT (bool_decide
                           (flags = Some (DART_FLAGS_CURRENT_VERSION h))));
  if bool_decide (package_root <> None) && bool_decide (package_config <> None)
  then mret (NoIsolate 0
         (Some ("Invalid arguments - Cannot simultaneously specify "
                ++ "package root and package map.")))
  else CreateIsolateAndSetupHelper e script_uri package_root package_config.

(** ** Running the main isolate *)

(** The second [CHECK_RESULT] macro, with the code after it as [k]; the
    function it sits in returns [true] to ask for a restart. *)
Definition CHECK_RESULT_run (result : Dart_Handle) (k : M bool) : M bool :=
  if Dart_IsError result then
    if Dart_IsVMRestartRequest result then
      emit EvShutdownIsolate >> mret true
    else
      let exit_code := if Dart_IsCompilationError result
                       then kCompilationErrorExitCode else kErrorExitCode in
      ErrorExit exit_code (Dart_GetError result)
  else k.

Definition RunMainIsolate (e : Engine) (script_name : string) : M bool :=
  run isolate <- CreateIsolateAndSetupHelper e script_name
                   (commandline_package_root g) (commandline_packages_file g);
  match isolate with
  | NoIsolate exit_code error =>
      if Z.eqb exit_code kRestartRequestExitCode then mret true
      else
        emit (EvPrintErr (default "" error)) >>
        emit EvCleanup >>
        (if do_vm_shutdown g then emit EvEventHandlerStop else mret tt) >>
        stop (Exited (if negb (Z.eqb exit_code 0) then exit_code
                      else kErrorExitCode))
  | IsolateReady =>
      let finish := emit EvShutdownIsolate >> mret false in
      if generate_script_snapshot g then
        GenerateScriptSnapshot e >> finish
      else
        (if negb (DART_PRODUCT_BINARY b)
            && (is_noopt b || gen_precompiled_snapshot g)
            && negb (VmService_LoadForGenPrecompiled e)
         then emit (EvPrintErr "VM service loading failed") >>
              stop (Exited kErrorExitCode)
         else mret tt) >>
        (if compile_all g then CHECK_RESULT_run (Dart_CompileAll e)
         else fun k => k) (
        (if is_noopt b || gen_precompiled_snapshot g
         then CHECK_RESULT_run (Dart_Precompile e) else fun k => k) (
        if gen_precompiled_snapshot g then
          let '(result, (vm_isolate_buffer, isolate_buffer,
                         instructions_buffer)) :=
            Dart_CreatePrecompiledSnapshot e in
          CHECK_RESULT_run result (
            WriteSnapshotFile (precompiled_snapshot_directory g)
              kPrecompiledVmIsolateName false vm_isolate_buffer >>
            WriteSnapshotFile (precompiled_snapshot_directory g)
              kPrecompiledIsolateName false isolate_buffer >>
            WriteSnapshotFile (precompiled_snapshot_directory g)
              kPrecompiledInstructionsName false instructions_buffer >>
            finish)
        else
          (if root_lib_is_null e
           then ErrorExit kErrorExitCode
                  ("Unable to find root library for '" ++ script_name ++ "'")
           else mret tt) >>
          CHECK_RESULT_run (getMainClosure e) (
          emit EvStartMain >>
          CHECK_RESULT_run (startMainIsolate e) (
          let result := Dart_RunLoop e in
          (if generate_full_snapshot_after_run g
              && negb (Dart_IsCompilationError result)
              && negb (Dart_IsVMRestartRequest result)
           then GenerateFullSnapshot e else mret tt) >>
          CHECK_RESULT_run result finish))))
  end.

(** ** The bootstrap driver *)

(** The [while (RunMainIsolate(...))] loop, one recorded engine per turn.
    [true]: the loop was left; [false]: the record of engine answers ended
    while a restart was still pending. *)
Fixpoint restart_loop (engines : list Engine) (script_name : string) : M bool :=
  match engines with
  | [] => mret false
  | e :: engines' =>
      run again <- RunMainIsolate e script_name;
      if again then
        emit (EvPrintErr "Restarting VM") >> restart_loop engines' script_name
      else mret true
  end.

End Launcher.

(** The snapshot loading of [main], done before [Dart_Initialize]: the
    block under [if (run_precompiled_snapshot) ... else if
    (run_full_snapshot)]. *)
Definition read_snapshots (h : Host) (g : Globals) : M unit :=
  if run_precompiled_snapshot g then
    LoadLibrarySymbol h (precompiled_snapshot_directory g)
      (kPrecompiledLibraryName h) (kPrecompiledInstructionsSymbolName h) >>
    LoadLibrarySymbol h (precompiled_snapshot_directory g)
      (kPrecompiledLibraryName h) (kPrecompiledDataSymbolName h) >>
    ReadSnapshotFile h (precompiled_snapshot_directory g)
      kPrecompiledVmIsolateName >>
    ReadSnapshotFile h (precompiled_snapshot_directory g)
      kPrecompiledIsolateName >>
    mret tt
  else if run_full_snapshot g then
    run filename <- deref (snapshot_filename g);
    let '(vm_snapshot_fname, isolate_snapshot_fname) :=
      ComputeSnapshotFilenames filename in
    ReadSnapshotFile h None vm_snapshot_fname >>
    ReadSnapshotFile h None isolate_snapshot_fname >>
    mret tt
  else mret tt.

(** [main], from argument parsing to [Platform::Exit].  The engine flags it
    adds after parsing are not recorded.  A result of [Ret tt] means that the
    record [engines] ended before the restart loop did. *)
Definition main (b : Build) (h : Host) (engines : list Engine)
    (argv : list string) : M unit :=
  run r <- stop (ParseArguments b argv);
  let g := globals r in
  if Z.ltb (result r) 0 then
    if help_option g then stop (Exited 0)
    else if version_option g then stop (Exited 0)
    else if print_flags_seen r then stop (Exited 0)
    else stop (Exited kErrorExitCode)
  else if negb (SetOriginalWorkingDirectory h) then
    stop (Exited kErrorExitCode)
  else
    run _ <- stop (ASSERT (negb (is_noopt b)
                           || (negb (gen_precompiled_snapshot g)
                               && negb (run_precompiled_snapshot g))));
    read_snapshots h g >>
    match Dart_Initialize h with
    | Some error =>
        (if do_vm_shutdown g then emit EvEventHandlerStop else mret tt) >>
        emit (EvPrintErr ("VM initialization failed: " ++ error)) >>
        stop (Exited kErrorExitCode)
    | None =>
        run script <- deref (script_name r);
        run finished <- restart_loop b h g engines script;
        if finished then
          emit EvCleanup >>
          (if do_vm_shutdown g then emit EvEventHandlerStop else mret tt) >>
          stop (Exited (GlobalExitCode h))
        else mret tt
    end.

(** ** The asset decompressor *)

Definition Z_OK : Z := 0.
Definition Z_STREAM_END : Z := 1.
Definition kChunkSize : N := 256 * 1024.

Section Decompressor.
(** zlib is outside the repository: its stream state is a type [zstate],
    [inflateInit2] gives a return code and a fresh state, and [inflate] maps
    the stream it is handed to a return code, the bytes it stored at
    [next_out] and the stream it leaves. *)
Variable zstate : Type.

Record z_stream := {
  avail_in : N;
  next_in : list byte;    (** the input from [next_in] to its end *)
  avail_out : N;
  internal : zstate
}.

Variable inflateInit2 : Z * zstate.
Variable inflate : z_stream -> Z * list byte * z_stream.

Definition N_min (a c : N) : N := if N.ltb c a then c else a.

(** Both [do ... while] loops of [Decompress], one [inflate] call per unit
    of [fuel]; [None] when the fuel runs out first. *)
Fixpoint inflate_loop (fuel : nat) (input : list byte) (strm : z_stream)
    (size_in input_cursor : N) (output : list byte)
  : option (Outcome (list byte)) :=
  match fuel with
  | O => None
  | S fuel' =>
      let '(ret, chunk_out, strm1) :=
        inflate {| avail_in := avail_in strm; next_in := next_in strm;
                   avail_out := kChunkSize; internal := internal strm |} in
      if negb (Z.eqb ret Z_STREAM_END || Z.eqb ret Z_OK) then Some AssertFailed
      else
        let size_out := (kChunkSize - avail_out strm1)%N in
        let output1 := (output ++ take (N.to_nat size_out) chunk_out)%list in
        if N.eqb (avail_out strm1) 0 then
          inflate_loop fuel' input strm1 size_in input_cursor output1
        else
          let input_cursor1 := (input_cursor + size_in)%N in
          if negb (Z.eqb ret Z_STREAM_END) then
            let size_in1 :=
              N_min (N.of_nat (List.length input) - input_cursor1)%N
                kChunkSize in
            inflate_loop fuel' input
              {| avail_in := size_in1;
                 next_in := drop (N.to_nat input_cursor1) input;
                 avail_out := avail_out strm1; internal := internal strm1 |}
              size_in1 input_cursor1 output1
          else Some (Ret output1)
  end.

Definition Decompress (fuel : nat) (input : list byte)
  : option (Outcome (list byte)) :=
  match ASSERT (N.ltb 0 (N.of_nat (List.length input))) with
  | Ret _ =>
      let '(ret, st) := inflateInit2 in
      match ASSERT (Z.eqb ret Z_OK) with
      | Ret _ =>
          let size_in := N_min (N.of_nat (List.length input)) kChunkSize in
          inflate_loop fuel input
            {| avail_in := size_in; next_in := input; avail_out := 0;
               internal := st |}
            size_in 0%N []
      | _ => Some AssertFailed
      end
  | _ => Some AssertFailed
  end.

End Decompressor.

(** ** Vocabulary of the statements *)

(** The ordinary [dart] binary: a linked-in snapshot, no precompiler. *)
Definition dart_binary : Build :=
  {| DART_PRECOMPILER := false; DART_NO_SNAPSHOT := false;
     DART_PRODUCT_BINARY := false; isolate_snapshot_linked := true |}.

(** [dart_bootstrap]: the precompiler, no linked-in snapshot. *)
Definition dart_bootstrap : Build :=
  {| DART_PRECOMPILER := true; DART_NO_SNAPSHOT := true;
     DART_PRODUCT_BINARY := false; isolate_snapshot_linked := false |}.

(** A non-empty run of decimal digits. *)
Fixpoint all_digits (s : string) : bool :=
  match s with
  | EmptyString => true
  | String c s' => CStr.isdigit c && all_digits s'
  end.

Definition is_number (s : string) : bool :=
  negb (is_empty s) && all_digits s.

Definition decimal (s : string) : Z := fst (CStr.scan_digits 0 s).

(** The largest [int]: [atoi] is defined up to it. *)
Definition INT_MAX : Z := 2147483647.

(** The globals after [-D] has allocated the table, if it was not yet. *)
Definition env_allocated (g : Globals) : Globals :=
  Set_.environment (Some (default ∅ (environment g))) g.

(** The value of the last definition of [name] in a list of definitions. *)
Fixpoint last_define (defines : list (string * string)) (name : string)
  : option string :=
  match defines with
  | [] => None
  | (n, v) :: defines' =>
      match last_define defines' name with
      | Some v' => Some v'
      | None => if String.eqb n name then Some v else None
      end
  end.

Definition define_flag (d : string * string) : string :=
  "-D" ++ d.1 ++ "=" ++ d.2.

(** A name [-D] accepts: not empty and without an equals sign. *)
Definition is_define_name (n : string) : bool :=
  negb (is_empty n) && bool_decide (CStr.split_at "=" n = None).

(** What an accepted [-D<name>=<value>] does to the parser state. *)
Definition define (d : string * string) (st : PState) : PState :=
  (Set_.environment
     (Some (<[d.1 := d.2]> (default ∅ (environment st.1)))) st.1, st.2).

(** A value [--package-root=] and [--packages=] accept. *)
Definition is_path (v : string) : bool :=
  negb (is_empty v || first_is "-" v).

(** No processor clears a package setting once it is made. *)
Definition keeps_packages (st st' : PState) : Prop :=
  (commandline_package_root st.1 <> None ->
   commandline_package_root st'.1 <> None)
  /\ (commandline_packages_file st.1 <> None ->
      commandline_packages_file st'.1 <> None).

(** The run-mode flags that are on. *)
Definition active_modes (g : Globals) : list bool :=
  filter (fun x => x = true)
    [ generate_script_snapshot g; generate_full_snapshot_after_run g;
      run_full_snapshot g; gen_precompiled_snapshot g;
      run_precompiled_snapshot g ].

(** At most one run-mode flag is on (none of them is the normal run). *)
Definition one_run_mode (g : Globals) : Prop :=
  (List.length (active_modes g) <= 1)%nat.

(** The flag combinations [ParseArguments] refuses. *)
Definition exclusive_modes (g : Globals) : bool :=
  (run_full_snapshot g && run_precompiled_snapshot g)
  || ((generate_full_snapshot_after_run g || gen_precompiled_snapshot g)
      && (run_full_snapshot g || run_precompiled_snapshot g)).

Definition count_events (p : Event -> bool) (t : list Event) : nat :=
  List.length (List.filter p t).

Definition is_created (e : Event) : bool :=
  match e with EvIsolateCreated _ => true | _ => false end.
Definition is_shutdown (e : Event) : bool :=
  match e with EvShutdownIsolate => true | _ => false end.
Definition is_file_written (e : Event) : bool :=
  match e with EvFileWritten _ _ => true | _ => false end.

Definition files_written (t : list Event) : list (string * list byte) :=
  omap (fun e => match e with
                 | EvFileWritten n c => Some (n, c)
                 | _ => None
                 end) t.

(** A computation that completes no file. *)
Definition no_files {A} (m : M A) : Prop := files_written m.1 = [].

(** What a computation does to isolates: when it returns [a], [Q a c s]
    holds of the number [c] of isolates it created and the number [s] of
    isolates it shut down; when it exits, the code is not the restart
    sentinel. *)
Definition lifecycle {A} (m : M A) (Q : A -> nat -> nat -> Prop) : Prop :=
  (forall a, m.2 = Ret a ->
             Q a (count_events is_created m.1) (count_events is_shutdown m.1))
  /\ (forall c, m.2 = Exited c -> c <> kRestartRequestExitCode).

(** ** Sample hosts and engines *)

(** A host on which every file and library operation succeeds. *)
Definition host_ok : Host := {|
  File_Open := fun _ => true;
  WriteFully := fun _ => true;
  OpenFile := fun _ => true;
  ReadFile := fun _ => (Some [x00], 1);
  LoadExtensionLibrary := fun _ => true;
  ResolveSymbol := fun _ _ => Some [x00];
  kPrecompiledLibraryName := "libprecompiled.so";
  kPrecompiledInstructionsSymbolName := "kInstructionsSnapshot";
  kPrecompiledDataSymbolName := "kDataSnapshot";
  DART_VM_SERVICE_ISOLATE_NAME := "vm-service";
  DART_FLAGS_CURRENT_VERSION := 2;
  SetOriginalWorkingDirectory := true;
  Dart_Initialize := None;
  GlobalExitCode := 0
|}.

(** A host on which files open for writing but every write falls short. *)
Definition host_short_writes : Host := {|
  File_Open := fun _ => true;
  WriteFully := fun _ => false;
  OpenFile := fun _ => true;
  ReadFile := fun _ => (None, -1);
  LoadExtensionLibrary := fun _ => true;
  ResolveSymbol := fun _ _ => None;
  kPrecompiledLibraryName := "libprecompiled.so";
  kPrecompiledInstructionsSymbolName := "kInstructionsSnapshot";
  kPrecompiledDataSymbolName := "kDataSnapshot";
  DART_VM_SERVICE_ISOLATE_NAME := "vm-service";
  DART_FLAGS_CURRENT_VERSION := 2;
  SetOriginalWorkingDirectory := true;
  Dart_Initialize := None;
  GlobalExitCode := 0
|}.

(** A host on which nothing can be opened. *)
Definition host_refusing : Host := {|
  File_Open := fun _ => false;
  WriteFully := fun _ => false;
  OpenFile := fun _ => false;
  ReadFile := fun _ => (None, -1);
  LoadExtensionLibrary := fun _ => false;
  ResolveSymbol := fun _ _ => None;
  kPrecompiledLibraryName := "libprecompiled.so";
  kPrecompiledInstructionsSymbolName := "kInstructionsSnapshot";
  kPrecompiledDataSymbolName := "kDataSnapshot";
  DART_VM_SERVICE_ISOLATE_NAME := "vm-service";
  DART_FLAGS_CURRENT_VERSION := 2;
  SetOriginalWorkingDirectory := true;
  Dart_Initialize := None;
  GlobalExitCode := 0
|}.

(** An engine whose every call succeeds, with the given result of the main
    message loop. *)
Definition engine_with (run_loop : Dart_Handle) : Engine := {|
  Dart_CreateIsolate := None;
  Dart_SetLibraryTagHandler := Value;
  Dart_IsServiceIsolate := false;
  VmService_Setup := None;
  service_Dart_CompileAll := Value;
  PrepareForScriptLoading := Value;
  SetupServiceLoadPort := Value;
  SetupPackageRoot := Value;
  Dart_SetEnvironmentCallback := Value;
  LoadScript := Value;
  loading_Dart_RunLoop := Value;
  SetupIOLibrary := Value;
  Dart_IsolateMakeRunnable := true;
  Dart_CreateScriptSnapshot := (Value, [x01; x02]);
  VmService_LoadForGenPrecompiled := true;
  Dart_CompileAll := Value;
  Dart_Precompile := Value;
  Dart_CreatePrecompiledSnapshot := (Value, ([x01], [x02], [x03]));
  root_lib_is_null := false;
  getMainClosure := Value;
  startMainIsolate := Value;
  Dart_RunLoop := run_loop;
  Dart_CreateSnapshot := (Value, ([x0a], [x0b]))
|}.

Definition engine_ok : Engine := engine_with Value.
Definition engine_restart : Engine :=
  engine_with (Error VMRestartRequest "restart").

(** The stream as [inflate] is handed it: with a fresh output chunk. *)
Definition with_chunk {zstate} (strm : z_stream zstate) : z_stream zstate :=
  {| avail_in := avail_in _ strm; next_in := next_in _ strm;
     avail_out := kChunkSize; internal := internal _ strm |}.

(** The progress property of [inflate], against a measure [work] of what
    the stream still holds: a call returns [Z_OK] or [Z_STREAM_END], and a
    call that returns [Z_OK] or fills the chunk has consumed input or
    delivered output. *)
Definition progress_property {zstate}
    (inflate : z_stream zstate -> Z * list byte * z_stream zstate)
    (work : zstate -> nat) : Prop :=
  forall strm,
    avail_out _ strm = kChunkSize ->
    let '(ret, _, strm1) := inflate strm in
    (ret = Z_OK \/ ret = Z_STREAM_END)
    /\ (ret = Z_OK \/ avail_out _ strm1 = 0%N ->
        (work (internal _ strm1) + N.to_nat (avail_in _ strm1)
         < work (internal _ strm) + N.to_nat (avail_in _ strm))%nat).

(** ** A sample decoder *)

(** A stand-in for zlib that copies its input: the state is the bytes taken
    in and not yet delivered, and the stream ends once nothing is left to
    deliver. *)
Definition copy_inflate (strm : z_stream (list byte))
  : Z * list byte * z_stream (list byte) :=
  let avail := (internal _ strm
                ++ take (N.to_nat (avail_in _ strm)) (next_in _ strm))%list in
  let n := N.min (avail_out _ strm) (N.of_nat (List.length avail)) in
  let left := drop (N.to_nat n) avail in
  (if Nat.eqb (List.length left) 0 then Z_STREAM_END else Z_OK,
   take (N.to_nat n) avail,
   {| avail_in := 0;
      next_in := drop (N.to_nat (avail_in _ strm)) (next_in _ strm);
      avail_out := avail_out _ strm - n;
      internal := left |}).

(** ** Isolate names and service streams *)

(** [strrchr(s, c) + 1]: the text after the last [c], if there is one. *)
Fixpoint after_last (c : ascii) (s : string) : option string :=
  match s with
  | EmptyString => None
  | String a s' =>
      match after_last c s' with
      | Some r => Some r
      | None => if Ascii.eqb a c then Some s' else None
      end
  end.

(** The first [n] characters of a string. *)
Fixpoint truncate (n : nat) (s : string) : string :=
  match n, s with
  | S n', String a s' => String a (truncate n' s')
  | _, _ => EmptyString
  end.

(** [snprintf(buffer, len, "%s/%s", a, b)]: at most [len - 1] characters
    are stored before the terminator. *)
Definition snprintf_slash (len : nat) (a b : string) : string :=
  truncate (len - 1) (a ++ "/" ++ b).

Definition BuildIsolateName (script_name func_name : string) : string :=
  let script_name :=
    match after_last "/" script_name with
    | Some base => base
    | None => script_name
    end in
  let len := (String.length script_name + String.length func_name + 2)%nat in
  snprintf_slash len script_name func_name.

Definition kStdoutStreamId : string := "Stdout".
Definition kStderrStreamId : string := "Stderr".

(** The two capture switches behind [SetCaptureStdout] and
    [SetCaptureStderr]. *)
Record Capture := { capture_stdout : bool; capture_stderr : bool }.

Definition ServiceStreamListenCallback (stream_id : string) (c : Capture)
  : bool * Capture :=
  if CStr.strcmp_eq stream_id kStdoutStreamId then
    (true, {| capture_stdout := true; capture_stderr := capture_stderr c |})
  else if CStr.strcmp_eq stream_id kStderrStreamId then
    (true, {| capture_stdout := capture_stdout c; capture_stderr := true |})
  else (false, c).

Definition ServiceStreamCancelCallback (stream_id : string) (c : Capture)
  : Capture :=
  if CStr.strcmp_eq stream_id kStdoutStreamId then
    {| capture_stdout := false; capture_stderr := capture_stderr c |}
  else if CStr.strcmp_eq stream_id kStderrStreamId then
    {| capture_stdout := capture_stdout c; capture_stderr := false |}
  else c.

(** ** Further vocabulary *)

(** A computation whose trace has no event of the kind [p]. *)
Definition silent {A} (p : Event -> bool) (m : M A) : Prop :=
  List.filter p m.1 = [].

Definition is_start_main (e : Event) : bool :=
  match e with EvStartMain => true | _ => false end.
Definition is_load_script (e : Event) : bool :=
  match e with EvLoadScript _ => true | _ => false end.
Definition is_file_read (e : Event) : bool :=
  match e with EvFileRead _ => true | _ => false end.

Definition files_read (t : list Event) : list string :=
  omap (fun e => match e with EvFileRead n => Some n | _ => None end) t.

(** What a computation returns and how it exits: [Q] holds of a returned
    value, [S] of an exit code. *)
Definition ends_within {A} (m : M A) (Q : A -> Prop) (S : Z -> Prop) : Prop :=
  (forall a, m.2 = Ret a -> Q a) /\ (forall c, m.2 = Exited c -> S c).

(** The exit codes the launcher itself produces on an error. *)
Definition error_exit_code (c : Z) : Prop :=
  c = kApiErrorExitCode \/ c = kCompilationErrorExitCode \/ c = kErrorExitCode.

(** The snapshot settings the generators and the reader rely on: script
    snapshot and full snapshot after run are not both requested, and a
    requested snapshot mode comes with a non-empty file name. *)
Definition snapshot_settings_ok (g : Globals) : Prop :=
  generate_script_snapshot g && generate_full_snapshot_after_run g = false
  /\ (generate_script_snapshot g || generate_full_snapshot_after_run g
      || run_full_snapshot g = true ->
      exists f, snapshot_filename g = Some f /\ f <> "").

(** Every name in the environment table is one [-D] accepts. *)
Definition environment_names_ok (g : Globals) : Prop :=
  forall env k v,
    environment g = Some env -> env !! k = Some v -> is_define_name k = true.

(** An argument none of whose prefixes is a name of the option table. *)
Definition no_main_option (b : Build) (a : string) : Prop :=
  Forall (fun e => has_prefix e.1 a = false) (main_options b).

(** The exit codes left once the isolate is set up. *)
Definition write_exit_code (c : Z) : Prop :=
  c = kCompilationErrorExitCode \/ c = kErrorExitCode.

(** An engine that reports an API error while the script is loaded. *)
Definition engine_api_error_in_setup : Engine := {|
  Dart_CreateIsolate := None;
  Dart_SetLibraryTagHandler := Value;
  Dart_IsServiceIsolate := false;
  VmService_Setup := None;
  service_Dart_CompileAll := Value;
  PrepareForScriptLoading := Value;
  SetupServiceLoadPort := Value;
  SetupPackageRoot := Value;
  Dart_SetEnvironmentCallback := Value;
  LoadScript := Error ApiError "bad state";
  loading_Dart_RunLoop := Value;
  SetupIOLibrary := Value;
  Dart_IsolateMakeRunnable := true;
  Dart_CreateScriptSnapshot := (Value, []);
  VmService_LoadForGenPrecompiled := true;
  Dart_CompileAll := Value;
  Dart_Precompile := Value;
  Dart_CreatePrecompiledSnapshot := (Value, ([], [], []));
  root_lib_is_null := false;
  getMainClosure := Value;
  startMainIsolate := Value;
  Dart_RunLoop := Value;
  Dart_CreateSnapshot := (Value, ([], []))
|}.

(** * Properties *)

(** ** Characters and scanning *)


Lemma isdigit_not_space c : CStr.isdigit c = true -> CStr.isspace c = false.
Proof.
  unfold CStr.isdigit, CStr.isspace.
  destruct (Nat.leb_spec 48 (nat_of_ascii c)); simpl; [intros _|discriminate].
  destruct (Nat.eqb_spec (nat_of_ascii c) 32); [lia|].
  destruct (Nat.leb_spec (nat_of_ascii c) 13); [lia|].
  now rewrite andb_false_r.
Qed.

Lemma isdigit_eqb_false c d :
  CStr.isdigit c = true -> CStr.isdigit d = false -> Ascii.eqb c d = false.
Proof.
  intros Hc Hd. destruct (Ascii.eqb_spec c d); [congruence|reflexivity].
Qed.

Lemma scan_sign_digit c s :
  CStr.isdigit c = true -> CStr.scan_sign (String c s) = (false, String c s).
Proof.
  intros Hc. unfold CStr.scan_sign.
  destruct c as [[] [] [] [] [] [] [] []]; try reflexivity; discriminate.
Qed.

Lemma scan_digits_app p rest acc :
  all_digits p = true -> CStr.starts_with_digit rest = false ->
  CStr.scan_digits acc (p ++ rest) = (fst (CStr.scan_digits acc p), rest).
Proof.
  revert acc. induction p as [|c p IH]; simpl; intros acc Hp Hr.
  - destruct rest as [|d rest]; [reflexivity|]. simpl in *. now rewrite Hr.
  - apply andb_prop in Hp as [Hc Hp]. rewrite Hc. now apply IH.
Qed.

Lemma scan_d_number p rest :
  is_number p = true -> CStr.starts_with_digit rest = false ->
  CStr.scan_d (p ++ rest) = CStr.ConvOk (decimal p) rest.
Proof.
  unfold is_number. intros Hp Hr.
  destruct p as [|c p]; [discriminate|]. simpl in Hp.
  apply andb_prop in Hp as [Hc Hp].
  unfold CStr.scan_d. simpl CStr.skip_space.
  rewrite (isdigit_not_space c Hc).
  change (String c p ++ rest) with (String c (p ++ rest)).
  rewrite scan_sign_digit by exact Hc.
  cbn [CStr.starts_with_digit]. rewrite Hc.
  change (String c (p ++ rest)) with (String c p ++ rest).
  rewrite scan_digits_app; [reflexivity| |exact Hr].
  simpl. now rewrite Hc.
Qed.

Lemma atoi_number p rest :
  is_number p = true -> CStr.starts_with_digit rest = false ->
  CStr.atoi (p ++ rest) = decimal p.
Proof.
  unfold is_number. intros Hp Hr.
  destruct p as [|c p]; [discriminate|]. simpl in Hp.
  apply andb_prop in Hp as [Hc Hp].
  unfold CStr.atoi. simpl CStr.skip_space.
  rewrite (isdigit_not_space c Hc).
  change (String c p ++ rest) with (String c (p ++ rest)).
  rewrite scan_sign_digit by exact Hc.
  change (String c (p ++ rest)) with (String c p ++ rest).
  rewrite scan_digits_app; [reflexivity| |exact Hr].
  simpl. now rewrite Hc.
Qed.

Lemma split_at_digits c p rest :
  all_digits p = true -> CStr.isdigit c = false ->
  CStr.split_at c (p ++ String c rest) = Some (p, rest).
Proof.
  intros Hp Hc. induction p as [|d p IH]; simpl.
  - now rewrite Ascii.eqb_refl.
  - simpl in Hp. apply andb_prop in Hp as [Hd Hp].
    rewrite (isdigit_eqb_false d c Hd Hc). now rewrite IH.
Qed.

Lemma skip_length s : CStr.skip (String.length s) s = "".
Proof. induction s; simpl; auto. Qed.

Lemma length_app_string (s t : string) :
  String.length (s ++ t) = (String.length s + String.length t)%nat.
Proof. induction s; simpl; auto. Qed.

Lemma append_cons c (s t : string) : String c s ++ t = String c (s ++ t).
Proof. reflexivity. Qed.

Lemma append_nil (t : string) : "" ++ t = t.
Proof. reflexivity. Qed.

Lemma app_empty_r (s : string) : s ++ "" = s.
Proof. induction s; rewrite ?append_nil, ?append_cons; congruence. Qed.

Ltac norm_append := rewrite ?append_cons, ?append_nil.

Lemma scan_d_number_end p :
  is_number p = true -> CStr.scan_d p = CStr.ConvOk (decimal p) "".
Proof.
  intros Hp. rewrite <- (app_empty_r p) at 1. now apply scan_d_number.
Qed.

(** ** The introspection-server flag *)

Lemma sscanf_port_ip_full p a1 a2 a3 a4 :
  is_number p = true -> is_number a1 = true -> is_number a2 = true ->
  is_number a3 = true -> is_number a4 = true ->
  let s := p ++ "/" ++ a1 ++ "." ++ a2 ++ "." ++ a3 ++ "." ++ a4 in
  sscanf_port_ip s = (5, Some (String.length s)).
Proof.
  intros Hp H1 H2 H3 H4 s. subst s. unfold sscanf_port_ip.
  rewrite (scan_d_number p) by (auto; reflexivity). norm_append; cbn [CStr.scan_lit].
  rewrite Ascii.eqb_refl.
  rewrite (scan_d_number a1) by (auto; reflexivity). norm_append; cbn [CStr.scan_lit].
  rewrite Ascii.eqb_refl.
  rewrite (scan_d_number a2) by (auto; reflexivity). norm_append; cbn [CStr.scan_lit].
  rewrite Ascii.eqb_refl.
  rewrite (scan_d_number a3) by (auto; reflexivity). norm_append; cbn [CStr.scan_lit].
  rewrite Ascii.eqb_refl.
  rewrite (scan_d_number_end a4) by auto.
  cbn [String.length]. now rewrite Nat.sub_0_r.
Qed.



(** ** Walking the option table *)

Lemma ProcessMainOptions_from_nomatch table option st :
  Forall (fun e => has_prefix e.1 option = false) table ->
  ProcessMainOptions_from table option st = Ret (false, st).
Proof.
  induction 1 as [|[name process] table Hn _ IH]; [reflexivity|].
  cbn [ProcessMainOptions_from]. unfold has_prefix in Hn. cbn [fst] in Hn.
  now rewrite Hn, andb_false_r.
Qed.

Lemma strncmp_eq_length name option :
  CStr.strncmp_eq (String.length name) option name = true ->
  Nat.leb (String.length name) (String.length option) = true.
Proof.
  revert option. induction name as [|c name IH]; intros option; [reflexivity|].
  destruct option as [|d option]; cbn [String.length CStr.strncmp_eq Nat.leb];
    [discriminate|].
  intros H. apply andb_prop in H as [_ H]. now apply IH.
Qed.

Lemma ProcessMainOptions_from_hit name process table option st :
  has_prefix name option = true ->
  ProcessMainOptions_from ((name, process) :: table) option st
  = do r <- process (CStr.skip (String.length name) option) st;
    if r.1 then Ret (true, r.2) else ProcessMainOptions_from table option r.2.
Proof.
  intros H. cbn [ProcessMainOptions_from]. unfold has_prefix in H.
  now rewrite H, (strncmp_eq_length _ _ H).
Qed.

Lemma ProcessMainOptions_from_miss name process table option st :
  has_prefix name option = false ->
  ProcessMainOptions_from ((name, process) :: table) option st
  = ProcessMainOptions_from table option st.
Proof.
  intros H. cbn [ProcessMainOptions_from]. unfold has_prefix in H.
  now rewrite H, andb_false_r.
Qed.

(** Decides [has_prefix] on the entries of a table whose names are
    literals, for an option whose first characters are literals. *)
Ltac no_entry_matches :=
  repeat (constructor; [reflexivity|]); constructor.

Lemma globals_eta g :
  g = mkGlobals (generate_script_snapshot g)
        (generate_full_snapshot_after_run g) (run_full_snapshot g)
        (snapshot_filename g) (commandline_package_root g)
        (commandline_packages_file g) (compile_all g)
        (gen_precompiled_snapshot g) (run_precompiled_snapshot g)
        (precompiled_snapshot_directory g) (trace_loading g)
        (vm_service_server_ip g) (vm_service_server_port g) (do_vm_shutdown g)
        (version_option g) (help_option g) (verbose_option g) (environment g).
Proof. now destruct g. Qed.

(** ** The [-D] flag *)

Lemma ProcessEnvironmentOption_no_equals name st :
  name <> "" -> CStr.split_at "=" name = None ->
  ProcessEnvironmentOption name st = Ret (false, (env_allocated st.1, st.2)).
Proof.
  intros Hne Hsplit. unfold ProcessEnvironmentOption.
  destruct name; [congruence|]. cbn [is_empty]. now rewrite Hsplit.
Qed.

Lemma ProcessEnvironmentOption_no_name value st :
  ProcessEnvironmentOption ("=" ++ value) st
  = Ret (false, (env_allocated st.1, st.2)).
Proof. reflexivity. Qed.

Lemma ProcessMainOptions_rejected_define b arg st :
  (exists name, arg = "-D" ++ name /\ name <> ""
                /\ CStr.split_at "=" name = None)
  \/ (exists value, arg = "-D=" ++ value) ->
  ProcessMainOptions b arg st = Ret (false, (env_allocated st.1, st.2)).
Proof.
  intros [(name & -> & Hne & Hsplit)|(value & ->)];
    unfold ProcessMainOptions, main_options; norm_append;
    rewrite ProcessMainOptions_from_hit by reflexivity;
    cbn [String.length CStr.skip].
  - rewrite ProcessEnvironmentOption_no_equals by assumption.
    cbn [obind fst snd]. apply ProcessMainOptions_from_nomatch.
    no_entry_matches.
  - rewrite <- (append_nil value), <- append_cons.
    rewrite (ProcessEnvironmentOption_no_name value).
    cbn [obind fst snd]. apply ProcessMainOptions_from_nomatch.
    no_entry_matches.
Qed.

(** C10, as the code has it.  A bare [-D] is accepted and ignored: nothing
    is defined and parsing goes on with the next argument.  [-D<name>]
    without an equals sign and [-D=<value>] are refused by the option
    processor, which defines nothing; the flag loop stops there and
    [ParseArguments] takes that argument as the script name and what follows
    as the script's arguments, returning 0 unless the consistency checks
    fail. *)
Theorem C10_define_edge_cases (b : Build) (st : PState) (rest : list string) :
  ProcessMainOptions b "-D" st = Ret (true, st)
  /\ ParseArguments_from b st ("-D" :: rest) = ParseArguments_from b st rest
  /\ forall arg,
       (exists name, arg = "-D" ++ name /\ name <> ""
                     /\ CStr.split_at "=" name = None)
       \/ (exists value, arg = "-D=" ++ value) ->
       ProcessMainOptions b arg st = Ret (false, (env_allocated st.1, st.2))
       /\ ParseArguments_from b st (arg :: rest)
          = Ret {| result := if consistent_arguments b (env_allocated st.1)
                             then 0 else -1;
                   script_name := Some arg;
                   vm_options := st.2;
                   dart_options := rest;
                   print_flags_seen := false;
                   verbose_debug_seen := false;
                   globals := env_allocated st.1 |}.
Proof.
  split; [reflexivity|]. split; [reflexivity|].
  intros arg Harg.
  pose proof (ProcessMainOptions_rejected_define b arg st Harg) as Hp.
  split; [exact Hp|].
  unfold ParseArguments_from. cbn [parse_vm_options]. rewrite Hp.
  cbn [obind fst snd].
  assert (Hflags : has_prefix "-p" arg = false /\ has_prefix "-c" arg = false
                   /\ IsValidFlag arg "--" 2 = false).
  { destruct Harg as [(name & -> & _)|(value & ->)]; norm_append;
      (repeat split; try reflexivity); unfold IsValidFlag;
      apply andb_false_r. }
  destruct Hflags as (-> & -> & ->). reflexivity.
Qed.

Lemma C10_witness :
  ParseArguments dart_binary ["dart"; "-Dfoo"; "script.dart"]
  = Ret {| result := 0; script_name := Some "-Dfoo";
           vm_options := ["--no_write_protect_code"];
           dart_options := ["script.dart"];
           print_flags_seen := false; verbose_debug_seen := false;
           globals := env_allocated initial_globals |}.
Proof.
  refine (proj2 (proj2 (proj2 (C10_define_edge_cases dart_binary
            (initial_globals, ["--no_write_protect_code"]) ["script.dart"]))
            "-Dfoo" _)).
  left. exists "foo". repeat split. discriminate.
Defined.

(** C10, as stated, fails: [-Dfoo] and [-D=bar] do not make parsing fail;
    it returns 0 with the refused flag as the script name. *)
Lemma C10_counterexample :
  (exists r, ParseArguments dart_binary ["dart"; "-Dfoo"; "script.dart"] = Ret r
             /\ result r = 0 /\ script_name r = Some "-Dfoo")
  /\ (exists r, ParseArguments dart_binary ["dart"; "-D=bar"; "script.dart"]
                = Ret r
                /\ result r = 0 /\ script_name r = Some "-D=bar").
Proof. split; eexists; (split; [reflexivity|]); split; reflexivity. Qed.

(** ** Arguments that are not flags *)

Lemma has_prefix_dash name s :
  first_is "-" name = true -> first_is "-" s = false ->
  has_prefix name s = false.
Proof.
  unfold has_prefix. destruct name as [|c name]; [discriminate|].
  destruct s as [|d s]; [reflexivity|]. cbn [first_is String.length
  CStr.strncmp_eq]. intros Hc Hd.
  apply Ascii.eqb_eq in Hc. subst c. now rewrite Hd.
Qed.

Lemma main_options_dashed b :
  Forall (fun e => first_is "-" e.1 = true) (main_options b).
Proof. repeat (constructor; [reflexivity|]); constructor. Qed.

Lemma ProcessMainOptions_not_a_flag b s st :
  first_is "-" s = false -> ProcessMainOptions b s st = Ret (false, st).
Proof.
  intros Hs. apply ProcessMainOptions_from_nomatch.
  eapply Forall_impl; [apply main_options_dashed|].
  intros e He. now apply has_prefix_dash.
Qed.

(** The flag loop stops at an argument that does not start with a dash. *)
Lemma parse_vm_options_script b script script_args st pf vd :
  first_is "-" script = false ->
  parse_vm_options b (script :: script_args) st pf vd
  = Ret (script :: script_args, st, pf, vd).
Proof.
  intros Hs. cbn [parse_vm_options].
  rewrite ProcessMainOptions_not_a_flag by exact Hs. cbn [obind fst snd].
  rewrite !(has_prefix_dash _ script) by (auto; reflexivity).
  unfold IsValidFlag.
  change (CStr.strncmp_eq 2 script "--") with (has_prefix "--" script).
  rewrite (has_prefix_dash "--" script) by (auto; reflexivity).
  now rewrite andb_false_r.
Qed.

(** ** The environment table *)

Lemma split_at_app c n v :
  CStr.split_at c n = None -> CStr.split_at c (n ++ String c v) = Some (n, v).
Proof.
  induction n as [|a n IH]; norm_append; cbn [CStr.split_at].
  - now rewrite Ascii.eqb_refl.
  - destruct (Ascii.eqb a c); [discriminate|].
    destruct (CStr.split_at c n) as [[]|]; [discriminate|].
    intros _. now rewrite IH.
Qed.

Lemma ProcessMainOptions_define b d st :
  is_define_name d.1 = true ->
  ProcessMainOptions b (define_flag d) st = Ret (true, define d st).
Proof.
  destruct d as [n v]. unfold is_define_name. cbn [fst snd].
  intros H. apply andb_prop in H as [Hne Hsplit].
  apply bool_decide_eq_true in Hsplit.
  unfold ProcessMainOptions, main_options, define_flag. cbn [fst snd].
  norm_append. rewrite ProcessMainOptions_from_hit by reflexivity.
  cbn [String.length CStr.skip]. unfold ProcessEnvironmentOption.
  destruct n as [|c n]; [discriminate|].
  change ("=" ++ v) with (String "=" v).
  rewrite split_at_app by exact Hsplit. reflexivity.
Qed.

Lemma parse_vm_options_defines b defines rest st pf vd :
  Forall (fun d => is_define_name d.1 = true) defines ->
  parse_vm_options b (map define_flag defines ++ rest)%list st pf vd
  = parse_vm_options b rest (foldl (fun s d => define d s) st defines) pf vd.
Proof.
  intros H. revert st. induction H as [|d defines Hd _ IH]; intros st;
    [reflexivity|].
  cbn [map app parse_vm_options foldl].
  rewrite ProcessMainOptions_define by exact Hd. cbn [obind fst snd].
  apply IH.
Qed.

Lemma environment_set v g : environment (Set_.environment v g) = v.
Proof. now destruct g. Qed.

Lemma consistent_arguments_set_environment b v g :
  consistent_arguments b (Set_.environment v g) = consistent_arguments b g.
Proof. now destruct g. Qed.

Lemma lookup_after_defines defines st name :
  (environment (foldl (fun s d => define d s) st defines).1)
    ≫= (fun env : gmap string string => env !! name)
  = match last_define defines name with
    | Some v => Some v
    | None => environment st.1 ≫= (fun env : gmap string string => env !! name)
    end.
Proof.
  revert st. induction defines as [|[n v] defines IH]; intros st;
    [reflexivity|].
  cbn [foldl last_define]. rewrite IH.
  destruct (last_define defines name); [reflexivity|].
  unfold define. cbn [fst snd]. rewrite environment_set. cbn.
  destruct (String.eqb_spec n name) as [->|Hn].
  - now rewrite lookup_insert_eq.
  - rewrite lookup_insert_ne by exact Hn.
    destruct (environment st.1); [reflexivity|]. cbn. apply lookup_empty.
Qed.

Lemma consistent_after_defines b defines st :
  consistent_arguments b (foldl (fun s d => define d s) st defines).1
  = consistent_arguments b st.1.
Proof.
  revert st. induction defines as [|d defines IH]; intros st; [reflexivity|].
  cbn [foldl]. rewrite IH. apply consistent_arguments_set_environment.
Qed.

(** C8.  After the defines of the command line have been parsed, the
    environment callback answers every name with the value of the last
    [-D<name>=<value>] given for it and with null for a name that was never
    defined; while the table is still unallocated it answers null for every
    name. *)
Theorem C8_environment_lookup (b : Build) (defines : list (string * string))
    (script : string) (script_args : list string) (name : string) :
  Forall (fun d => is_define_name d.1 = true) defines ->
  first_is "-" script = false ->
  (exists r,
     ParseArguments b
       ("dart" :: map define_flag defines ++ script :: script_args)%list
     = Ret r
     /\ result r = 0
     /\ script_name r = Some script
     /\ EnvironmentCallback (globals r) (NameChars name)
        = match last_define defines name with
          | Some v => DartString v
          | None => DartNull
          end)
  /\ (forall g, environment g = None ->
                EnvironmentCallback g (NameChars name) = DartNull).
Proof.
  intros Hd Hs. split.
  - unfold ParseArguments, ParseArguments_from. cbn [tail].
    rewrite parse_vm_options_defines by exact Hd.
    rewrite parse_vm_options_script by exact Hs. cbn [obind].
    eexists. split; [reflexivity|]. cbn [result script_name globals].
    split; [|split; [reflexivity|]].
    + rewrite consistent_after_defines. cbn [fst].
      unfold consistent_arguments. cbn. now rewrite !andb_false_r.
    + unfold EnvironmentCallback.
      pose proof (lookup_after_defines defines
                    (initial_globals, ["--no_write_protect_code"]) name) as Hl.
      cbn [fst snd] in Hl. unfold mbind, option_bind in Hl.
      destruct (environment _) as [env|].
      * rewrite Hl. now destruct (last_define defines name).
      * destruct (last_define defines name); [discriminate|reflexivity].
  - intros g Hg. unfold EnvironmentCallback. now rewrite Hg.
Qed.

Lemma C8_witness :
  (exists r,
     ParseArguments dart_binary ["dart"; "-Dfoo=bar"; "script.dart"] = Ret r
     /\ result r = 0
     /\ script_name r = Some "script.dart"
     /\ EnvironmentCallback (globals r) (NameChars "foo") = DartString "bar")
  /\ (forall g, environment g = None ->
                EnvironmentCallback g (NameChars "foo") = DartNull).
Proof.
  refine (C8_environment_lookup dart_binary [("foo", "bar")] "script.dart" []
            "foo" _ _).
  - repeat constructor.
  - reflexivity.
Defined.

(** ** The consistency checks *)

Lemma consistent_arguments_packages b g :
  commandline_package_root g <> None -> commandline_packages_file g <> None ->
  consistent_arguments b g = false.
Proof.
  intros Hr Hf. unfold consistent_arguments.
  now rewrite !bool_decide_eq_true_2 by assumption.
Qed.

Lemma consistent_arguments_exclusive b g :
  exclusive_modes g = true -> consistent_arguments b g = false.
Proof.
  unfold exclusive_modes, consistent_arguments. intros H.
  repeat match goal with |- context [if ?c then _ else _] => destruct c end;
    try reflexivity.
  destruct (run_full_snapshot g), (run_precompiled_snapshot g),
    (generate_full_snapshot_after_run g), (gen_precompiled_snapshot g);
    discriminate.
Qed.

Lemma ParseArguments_from_result b st args r :
  ParseArguments_from b st args = Ret r ->
  result r = -1
  \/ (result r = 0 /\ consistent_arguments b (globals r) = true).
Proof.
  unfold ParseArguments_from.
  destruct (parse_vm_options b args st false false)
    as [[[[rest st'] pf] vd]| | |]; cbn [obind]; try discriminate.
  destruct rest as [|script script_args]; intros [= <-]; cbn [result globals].
  - now left.
  - destruct (consistent_arguments b st'.1) eqn:Hc; [right|left]; auto.
Qed.




(** ** Package root and packages file *)

Lemma keeps_packages_refl st : keeps_packages st st.
Proof. split; auto. Qed.

Lemma keeps_packages_trans st1 st2 st3 :
  keeps_packages st1 st2 -> keeps_packages st2 st3 -> keeps_packages st1 st3.
Proof. intros [] []; split; auto. Qed.

Ltac keeps_by_cases :=
  intros arg [g vm] r; destruct g;
  repeat match goal with
         | |- context [if ?c then _ else _] => destruct c
         | |- context [match ?c with _ => _ end] => destruct c eqn:?
         end;
  cbn; intros; simplify_eq; split; cbn; auto; discriminate.

Lemma processors_keep_packages b :
  Forall (fun e => forall arg st r,
            e.2 arg st = Ret r -> keeps_packages st r.2) (main_options b).
Proof.
  unfold main_options.
  repeat (constructor;
          [cbn [snd];
           unfold ProcessEnvironmentOption, ProcessHelpOption,
             ProcessPackagesOption, ProcessPackageRootOption,
             ProcessVerboseOption, ProcessVersionOption,
             ProcessCompileAllOption, ProcessEnableVmServiceOption,
             ProcessGenPrecompiledSnapshotOption, ProcessObserveOption,
             ProcessRunPrecompiledSnapshotOption, ProcessShutdownOption,
             ProcessScriptSnapshotOption, ProcessFullSnapshotAfterRunOption,
             ProcessRunFullSnapshotOption, ProcessTraceLoadingOption,
             ProcessSnapshotOptionHelper, ASSERT;
           keeps_by_cases|]).
  constructor.
Qed.

Lemma ProcessMainOptions_from_keeps table option st r :
  Forall (fun e => forall arg st r,
            e.2 arg st = Ret r -> keeps_packages st r.2) table ->
  ProcessMainOptions_from table option st = Ret r -> keeps_packages st r.2.
Proof.
  intros H. revert st. induction H as [|[name process] table Hp _ IH];
    intros st; cbn [ProcessMainOptions_from].
  - intros [= <-]. apply keeps_packages_refl.
  - destruct (_ && _); [|apply IH].
    destruct (process _ st) as [r1| | |] eqn:H1; cbn [obind]; try discriminate.
    pose proof (Hp _ _ _ H1) as Hk. destruct r1.1.
    + intros [= <-]. exact Hk.
    + intros H2. eapply keeps_packages_trans; [exact Hk|]. now apply IH.
Qed.

Lemma ProcessMainOptions_keeps b option st r :
  ProcessMainOptions b option st = Ret r -> keeps_packages st r.2.
Proof. apply ProcessMainOptions_from_keeps, processors_keep_packages. Qed.

Lemma ProcessPackageRootOption_keeps arg st r :
  ProcessPackageRootOption arg st = Ret r -> keeps_packages st r.2.
Proof.
  unfold ProcessPackageRootOption. destruct st as [g vm]. destruct g.
  destruct (_ || _); intros [= <-]; split; cbn; auto; discriminate.
Qed.

Lemma parse_vm_options_keeps b n :
  forall args st pf vd rest st' pf' vd',
    (List.length args <= n)%nat ->
    parse_vm_options b args st pf vd = Ret (rest, st', pf', vd') ->
    keeps_packages st st'.
Proof.
  induction n as [|n IH]; intros args st pf vd rest st' pf' vd' Hn;
    destruct args as [|a args]; cbn [List.length] in Hn; try lia;
    cbn [parse_vm_options]; try (intros [= <- <- <- <-]; apply keeps_packages_refl).
  destruct (ProcessMainOptions b a st) as [r| | |] eqn:Hm; cbn [obind];
    try discriminate.
  pose proof (ProcessMainOptions_keeps _ _ _ _ Hm) as Hk.
  destruct r.1.
  { intros H. eapply keeps_packages_trans; [exact Hk|].
    eapply IH; [|exact H]. lia. }
  destruct (has_prefix "-p" a).
  { destruct (ProcessPackageRootOption _ r.2) as [r1| | |] eqn:H1;
      cbn [obind]; try discriminate.
    pose proof (ProcessPackageRootOption_keeps _ _ _ H1) as Hk1.
    destruct r1.1.
    { intros H. eapply keeps_packages_trans; [exact Hk|].
      eapply keeps_packages_trans; [exact Hk1|].
      eapply IH; [|exact H]. lia. }
    destruct args as [|a' args'].
    { intros [= <- <- <- <-].
      eapply keeps_packages_trans; [exact Hk|exact Hk1]. }
    destruct (ProcessPackageRootOption a' r1.2) as [r2| | |] eqn:H2;
      cbn [obind]; try discriminate.
    pose proof (ProcessPackageRootOption_keeps _ _ _ H2) as Hk2.
    assert (Hk012 : keeps_packages st r2.2)
      by (eapply keeps_packages_trans;
          [eapply keeps_packages_trans; [exact Hk|exact Hk1]|exact Hk2]).
    destruct r2.1.
    - intros H. eapply keeps_packages_trans; [exact Hk012|].
      eapply IH; [|exact H]. cbn [List.length] in Hn. lia.
    - intros [= <- <- <- <-]. exact Hk012. }
  destruct (has_prefix "-c" a).
  { intros H. eapply keeps_packages_trans; [exact Hk|].
    assert (Hk' : keeps_packages (r.2.1, AddArgument "--checked" r.2.2) st')
      by (eapply IH; [|exact H]; lia).
    exact Hk'. }
  destruct (negb _).
  { intros [= <- <- <- <-]. exact Hk. }
  intros H. eapply keeps_packages_trans; [exact Hk|].
  assert (Hk' : keeps_packages (r.2.1, AddArgument a r.2.2) st')
    by (eapply IH; [|exact H]; lia).
  exact Hk'.
Qed.

(** Once both settings are made, [ParseArguments] cannot return 0. *)
Lemma ParseArguments_from_both_set b st args r :
  commandline_package_root st.1 <> None ->
  commandline_packages_file st.1 <> None ->
  ParseArguments_from b st args = Ret r -> result r = -1.
Proof.
  intros Hr Hf. unfold ParseArguments_from.
  destruct (parse_vm_options b args st false false)
    as [[[[rest st'] pf] vd]| | |] eqn:Hp; cbn [obind]; try discriminate.
  destruct (parse_vm_options_keeps b _ _ _ _ _ _ _ _ _ (le_n _) Hp) as [Kr Kf].
  destruct rest; intros [= <-]; cbn [result]; [reflexivity|].
  now rewrite consistent_arguments_packages by auto.
Qed.

Lemma is_path_inv v :
  is_path v = true -> is_empty v || first_is "-" v = false.
Proof. unfold is_path. now destruct (_ || _). Qed.

Lemma ProcessMainOptions_package_root b v st :
  is_path v = true ->
  ProcessMainOptions b ("--package-root=" ++ v) st
  = Ret (true, (Set_.commandline_package_root (Some v) st.1, st.2)).
Proof.
  intros Hv. unfold ProcessMainOptions, main_options. norm_append.
  rewrite !ProcessMainOptions_from_miss by reflexivity.
  rewrite ProcessMainOptions_from_hit by reflexivity.
  cbn [String.length CStr.skip]. unfold ProcessPackageRootOption.
  now rewrite (is_path_inv v Hv).
Qed.

Lemma ProcessMainOptions_packages b v st :
  is_path v = true ->
  ProcessMainOptions b ("--packages=" ++ v) st
  = Ret (true, (Set_.commandline_packages_file (Some v) st.1, st.2)).
Proof.
  intros Hv. unfold ProcessMainOptions, main_options. norm_append.
  rewrite !ProcessMainOptions_from_miss by reflexivity.
  rewrite ProcessMainOptions_from_hit by reflexivity.
  cbn [String.length CStr.skip]. unfold ProcessPackagesOption.
  now rewrite (is_path_inv v Hv).
Qed.

Lemma parse_vm_options_accept b a rest st st' pf vd :
  ProcessMainOptions b a st = Ret (true, st') ->
  parse_vm_options b (a :: rest) st pf vd = parse_vm_options b rest st' pf vd.
Proof. intros H. cbn [parse_vm_options]. now rewrite H. Qed.

(** C3.  With an accepted [--package-root=] and an accepted [--packages=]
    next to each other, in either order and after any earlier flags,
    [ParseArguments] cannot return success whatever follows, and returns -1
    when a script name follows; in general it returns -1 whenever both
    settings are recorded when it returns.  The isolate-creation callback
    checks again: handed both a package root and a package config it returns
    NULL with an error message without creating an isolate. *)
Theorem C3_package_root_and_packages (b : Build) (st : PState)
    (root pkgs : string) :
  is_path root = true -> is_path pkgs = true ->
  (forall rest r,
     ParseArguments_from b st
       (("--package-root=" ++ root) :: ("--packages=" ++ pkgs) :: rest) = Ret r
     \/ ParseArguments_from b st
          (("--packages=" ++ pkgs) :: ("--package-root=" ++ root) :: rest) = Ret r ->
     result r = -1)
  /\ (forall script script_args,
        first_is "-" script = false ->
        (exists r,
           ParseArguments_from b st
             (("--package-root=" ++ root) :: ("--packages=" ++ pkgs)
              :: script :: script_args) = Ret r
           /\ result r = -1)
        /\ (exists r,
              ParseArguments_from b st
                (("--packages=" ++ pkgs) :: ("--package-root=" ++ root)
                 :: script :: script_args) = Ret r
              /\ result r = -1))
  /\ (forall args r,
        ParseArguments_from b st args = Ret r ->
        commandline_package_root (globals r) <> None ->
        commandline_packages_file (globals r) <> None ->
        result r = -1)
  /\ (forall h g e script_uri,
        CreateIsolateAndSetup b h g e script_uri (Some root) (Some pkgs)
          (Some (DART_FLAGS_CURRENT_VERSION h))
        = ([], Ret (NoIsolate 0
                      (Some ("Invalid arguments - Cannot simultaneously specify "
                             ++ "package root and package map."))))).
Proof.
  intros Hroot Hpkgs.
  pose proof (fun s => ProcessMainOptions_package_root b root s Hroot) as Pr.
  pose proof (fun s => ProcessMainOptions_packages b pkgs s Hpkgs) as Pp.
  assert (Hset : forall g,
            commandline_package_root
              (Set_.commandline_packages_file (Some pkgs)
                 (Set_.commandline_package_root (Some root) g)) <> None
            /\ commandline_packages_file
                 (Set_.commandline_packages_file (Some pkgs)
                    (Set_.commandline_package_root (Some root) g)) <> None
            /\ commandline_package_root
                 (Set_.commandline_package_root (Some root)
                    (Set_.commandline_packages_file (Some pkgs) g)) <> None
            /\ commandline_packages_file
                 (Set_.commandline_package_root (Some root)
                    (Set_.commandline_packages_file (Some pkgs) g)) <> None)
    by (intros g; destruct g; cbn; repeat split; discriminate).
  split; [|split; [|split]].
  - intros rest r. unfold ParseArguments_from.
    rewrite (parse_vm_options_accept b _ _ _ _ _ _ (Pr st)),
      (parse_vm_options_accept b _ _ _ _ _ _ (Pp _)),
      (parse_vm_options_accept b _ _ _ _ _ _ (Pp st)),
      (parse_vm_options_accept b _ _ _ _ _ _ (Pr _)).
    cbn [fst snd]. destruct (Hset st.1) as (S1 & S2 & S3 & S4).
    intros [H|H]; revert H;
      apply (ParseArguments_from_both_set b (_, st.2)); cbn [fst]; assumption.
  - intros script script_args Hs. destruct (Hset st.1) as (S1 & S2 & S3 & S4).
    split; eexists; (split; [unfold ParseArguments_from;
      rewrite ?(parse_vm_options_accept b _ _ _ _ _ _ (Pr st)),
        ?(parse_vm_options_accept b _ _ _ _ _ _ (Pp st));
      rewrite ?(parse_vm_options_accept b _ _ _ _ _ _ (Pp _)),
        ?(parse_vm_options_accept b _ _ _ _ _ _ (Pr _));
      rewrite (parse_vm_options_script b script script_args) by exact Hs;
      reflexivity|]); cbn [result fst snd];
      now rewrite consistent_arguments_packages by assumption.
  - intros args r H Hr Hf.
    destruct (ParseArguments_from_result b st args r H) as [|[_ Hc]]; [auto|].
    rewrite consistent_arguments_packages in Hc by assumption. discriminate.
  - intros h g e script_uri. unfold CreateIsolateAndSetup.
    rewrite !bool_decide_eq_true_2 by (auto; discriminate). reflexivity.
Qed.

Lemma C3_witness :
  (exists r,
     ParseArguments dart_binary
       ["dart"; "--package-root=pkgs/"; "--packages=.packages"; "script.dart"]
     = Ret r /\ result r = -1)
  /\ (exists r,
        ParseArguments dart_binary
          ["dart"; "--packages=.packages"; "--package-root=pkgs/";
           "script.dart"]
        = Ret r /\ result r = -1).
Proof.
  exact (proj1 (proj2 (C3_package_root_and_packages dart_binary
                         (initial_globals, ["--no_write_protect_code"])
                         "pkgs/" ".packages" eq_refl eq_refl))
           "script.dart" [] eq_refl).
Defined.

(** ** Traces and outcomes of sequenced computations *)

Lemma mbind_ret {A B} (t : list Event) (a : A) (k : A -> M B) :
  mbind_ (t, Ret a) k = ((t ++ (k a).1)%list, (k a).2).
Proof. reflexivity. Qed.

Lemma mbind_exited {A B} (t : list Event) c (k : A -> M B) :
  mbind_ (t, Exited c) k = (t, Exited c).
Proof. reflexivity. Qed.

Lemma mbind_stopped {A B} (m : M A) (k : A -> M B) :
  (forall a, m.2 <> Ret a) ->
  (mbind_ m k).1 = m.1
  /\ match m.2 with
     | Ret _ => False
     | Exited c => (mbind_ m k).2 = Exited c
     | AssertFailed => (mbind_ m k).2 = AssertFailed
     | Undefined => (mbind_ m k).2 = Undefined
     end.
Proof.
  destruct m as [t [a|c| |]]; intros H; cbn; auto. now destruct (H a).
Qed.

Lemma ErrorExit_outcome g {A} code msg :
  (@ErrorExit g A code msg).2 = Exited code
  /\ files_written (@ErrorExit g A code msg).1 = [].
Proof. unfold ErrorExit. destruct (do_vm_shutdown g); split; reflexivity. Qed.

(** ** Snapshot files are written and read or the process ends *)



(** ** Which files a snapshot goes to *)

Lemma WriteSnapshotFile_ok h g dir filename magic buffer :
  File_Open h (qualified dir filename) = true ->
  WriteFully h (qualified dir filename) = true ->
  WriteSnapshotFile h g dir filename magic buffer
  = ([EvFileWritten (qualified dir filename)
        ((if magic then magic_number else []) ++ buffer)%list], Ret tt).
Proof. intros Ho Hw. unfold WriteSnapshotFile. now rewrite Ho, Hw. Qed.

Lemma qualified_cases dir filename :
  qualified None filename = filename
  /\ qualified (Some "") filename = filename
  /\ (dir <> "" -> qualified (Some dir) filename = dir ++ "/" ++ filename).
Proof.
  repeat split. intros Hd. unfold qualified. destruct dir; [congruence|].
  reflexivity.
Qed.

(** C6.  A script snapshot goes to the file named on the command line as
    one buffer behind the 4-byte magic number.  A full snapshot goes, without
    magic number, to [<base>.vmisolate] and [<base>.isolate].  A precompiled
    snapshot goes, without magic number, to [precompiled.vmisolate],
    [precompiled.isolate] and [precompiled.S], inside the snapshot directory
    when one was given. *)
Theorem C6_snapshot_file_layout (b : Build) (h : Host) (g : Globals)
    (e : Engine) (script : string) :
  (forall n, File_Open h n = true) -> (forall n, WriteFully h n = true) ->
  (forall base buffer,
     snapshot_filename g = Some base ->
     Dart_CreateScriptSnapshot e = (Value, buffer) ->
     GenerateScriptSnapshot h g e
     = ([EvFileWritten base (magic_number ++ buffer)%list], Ret tt)
     /\ List.length magic_number = 4%nat)
  /\ (forall base vm iso,
        snapshot_filename g = Some base ->
        Dart_CreateSnapshot e = (Value, (vm, iso)) ->
        GenerateFullSnapshot h g e
        = ([EvFileWritten (base ++ ".vmisolate") vm;
            EvFileWritten (base ++ ".isolate") iso], Ret tt))
  /\ (forall t vm iso ins,
        CreateIsolateAndSetupHelper b h g e script
          (commandline_package_root g) (commandline_packages_file g)
        = (t, Ret IsolateReady) ->
        generate_script_snapshot g = false ->
        gen_precompiled_snapshot g = true ->
        VmService_LoadForGenPrecompiled e = true ->
        Dart_CompileAll e = Value ->
        Dart_Precompile e = Value ->
        Dart_CreatePrecompiledSnapshot e = (Value, (vm, iso, ins)) ->
        let dir := precompiled_snapshot_directory g in
        RunMainIsolate b h g e script
        = ((t ++ [EvFileWritten (qualified dir "precompiled.vmisolate") vm;
                  EvFileWritten (qualified dir "precompiled.isolate") iso;
                  EvFileWritten (qualified dir "precompiled.S") ins;
                  EvShutdownIsolate])%list, Ret false)
        /\ qualified None "precompiled.S" = "precompiled.S"
        /\ qualified (Some "out") "precompiled.S" = "out/precompiled.S").
Proof.
  intros Ho Hw. split; [|split].
  - intros base buffer Hf He. split; [|reflexivity].
    unfold GenerateScriptSnapshot. rewrite He, Hf.
    cbn [Dart_IsError mret deref mbind_ fst snd app].
    rewrite !WriteSnapshotFile_ok by auto. reflexivity.
  - intros base vm iso Hf He. unfold GenerateFullSnapshot.
    rewrite He, Hf.
    cbn [Dart_IsError mret deref mbind_ fst snd app ComputeSnapshotFilenames].
    rewrite !WriteSnapshotFile_ok by auto. reflexivity.
  - intros t vm iso ins Hh Hs Hg Hl Hc Hp Hcp dir. split; [|split; reflexivity].
    unfold RunMainIsolate. rewrite Hh, Hs, Hg, Hl, Hc, Hp, Hcp.
    rewrite mbind_ret. rewrite orb_true_r, andb_false_r.
    rewrite !WriteSnapshotFile_ok by auto.
    destruct (compile_all g); cbn; now rewrite ?app_nil_r.
Qed.

Lemma C6_witness :
  RunMainIsolate dart_bootstrap host_ok
    (Set_.gen_precompiled_snapshot true
       (Set_.precompiled_snapshot_directory (Some "out") initial_globals))
    engine_ok "script.dart"
  = ([EvIsolateCreated "script.dart"; EvLoadScript "script.dart";
      EvFileWritten "out/precompiled.vmisolate" [x01];
      EvFileWritten "out/precompiled.isolate" [x02];
      EvFileWritten "out/precompiled.S" [x03];
      EvShutdownIsolate], Ret false)
  /\ GenerateScriptSnapshot host_ok
    (Set_.snapshot_filename (Some "app.snapshot") initial_globals) engine_ok
  = ([EvFileWritten "app.snapshot" [xf5; xf5; xdc; xdc; x01; x02]], Ret tt)
  /\ GenerateFullSnapshot host_ok
       (Set_.snapshot_filename (Some "app") initial_globals) engine_ok
     = ([EvFileWritten "app.vmisolate" [x0a];
         EvFileWritten "app.isolate" [x0b]], Ret tt).
Proof.
  split; [|split].
  - exact (proj1 (proj2 (proj2 (C6_snapshot_file_layout dart_bootstrap host_ok
             (Set_.gen_precompiled_snapshot true
                (Set_.precompiled_snapshot_directory (Some "out")
                   initial_globals))
             engine_ok "script.dart" (fun _ => eq_refl) (fun _ => eq_refl)))
             [EvIsolateCreated "script.dart"; EvLoadScript "script.dart"]
             [x01] [x02] [x03] eq_refl eq_refl eq_refl eq_refl eq_refl eq_refl
             eq_refl)).
  - exact (proj1 (proj1 (C6_snapshot_file_layout dart_binary host_ok
             (Set_.snapshot_filename (Some "app.snapshot") initial_globals)
             engine_ok "script.dart" (fun _ => eq_refl) (fun _ => eq_refl))
             "app.snapshot" [x01; x02] eq_refl eq_refl)).
  - exact (proj1 (proj2 (C6_snapshot_file_layout dart_binary host_ok
             (Set_.snapshot_filename (Some "app") initial_globals)
             engine_ok "script.dart" (fun _ => eq_refl) (fun _ => eq_refl)))
             "app" [x0a] [x0b] eq_refl eq_refl).
Defined.

(** ** Setting up an isolate writes no file *)

Lemma files_written_app t1 t2 :
  files_written (t1 ++ t2) = (files_written t1 ++ files_written t2)%list.
Proof. apply omap_app. Qed.

Lemma no_files_bind {A B} (m : M A) (k : A -> M B) :
  no_files m -> (forall a, no_files (k a)) -> no_files (mbind_ m k).
Proof.
  unfold no_files, mbind_. destruct m as [t [a| | |]]; cbn [fst snd]; auto.
  intros Hm Hk. rewrite files_written_app, Hm, (Hk a). reflexivity.
Qed.

Lemma no_files_CHECK_RESULT_setup result k :
  no_files k -> no_files (CHECK_RESULT_setup result k).
Proof.
  unfold CHECK_RESULT_setup. destruct (Dart_IsError result); [reflexivity|auto].
Qed.

Ltac no_files_step :=
  match goal with
  | |- no_files (mbind_ _ _) => apply no_files_bind; [|intros ?]
  | |- no_files (CHECK_RESULT_setup _ _) => apply no_files_CHECK_RESULT_setup
  | |- no_files (if ?c then _ else _) => destruct c
  | |- no_files (match ?c with _ => _ end) => destruct c
  | |- no_files ((if ?c then _ else _) _) => destruct c
  | |- no_files _ => reflexivity
  end.

Lemma CreateIsolateAndSetupHelper_no_files b h g e script_uri root config :
  no_files (CreateIsolateAndSetupHelper b h g e script_uri root config).
Proof.
  unfold CreateIsolateAndSetupHelper. cbv zeta. repeat no_files_step.
Qed.

Lemma CHECK_RESULT_run_finish_no_files g result :
  no_files (CHECK_RESULT_run g result (emit EvShutdownIsolate >> mret false)).
Proof.
  unfold CHECK_RESULT_run, ErrorExit.
  destruct result as [|[] msg]; cbn; destruct (do_vm_shutdown g); reflexivity.
Qed.

(** ** The full snapshot after the run *)

(** [RunMainIsolate] in full-snapshot-after-run mode, from the point where
    the main message loop has returned [result]. *)
Lemma RunMainIsolate_full_snapshot_after_run b h g e script t :
  CreateIsolateAndSetupHelper b h g e script
    (commandline_package_root g) (commandline_packages_file g)
  = (t, Ret IsolateReady) ->
  generate_full_snapshot_after_run g = true ->
  generate_script_snapshot g = false ->
  gen_precompiled_snapshot g = false ->
  is_noopt b = false ->
  Dart_CompileAll e = Value ->
  root_lib_is_null e = false ->
  getMainClosure e = Value ->
  startMainIsolate e = Value ->
  RunMainIsolate b h g e script
  = mbind_ (t ++ [EvStartMain], Ret tt)%list (fun _ =>
      (if negb (Dart_IsCompilationError (Dart_RunLoop e))
          && negb (Dart_IsVMRestartRequest (Dart_RunLoop e))
       then GenerateFullSnapshot h g e else mret tt) >>
      CHECK_RESULT_run g (Dart_RunLoop e)
        (emit EvShutdownIsolate >> mret false)).
Proof.
  intros Hh Hf Hs Hg Hn Hc Hr Hm Hst. unfold RunMainIsolate.
  rewrite Hh, Hf, Hs, Hg, Hn, Hc, Hr, Hm, Hst.
  rewrite andb_false_r. destruct (compile_all g); cbn -[GenerateFullSnapshot];
    rewrite ?app_nil_r, <- ?app_assoc; reflexivity.
Qed.

(** C5.  In full-snapshot-after-run mode, once the main message loop has
    returned: if its result is a compilation error or a restart request no
    snapshot file is written; otherwise [GenerateFullSnapshot] runs, also
    when the result is another error, and the files written are those it
    writes: the vm-isolate and the isolate snapshot when serialization and
    both writes succeed. *)
Theorem C5_full_snapshot_after_run (b : Build) (h : Host) (g : Globals)
    (e : Engine) (script : string) (t : list Event) :
  CreateIsolateAndSetupHelper b h g e script
    (commandline_package_root g) (commandline_packages_file g)
  = (t, Ret IsolateReady) ->
  generate_full_snapshot_after_run g = true ->
  generate_script_snapshot g = false ->
  gen_precompiled_snapshot g = false ->
  is_noopt b = false ->
  Dart_CompileAll e = Value ->
  root_lib_is_null e = false ->
  getMainClosure e = Value ->
  startMainIsolate e = Value ->
  let result := Dart_RunLoop e in
  let m := RunMainIsolate b h g e script in
  (Dart_IsCompilationError result || Dart_IsVMRestartRequest result = true ->
   files_written m.1 = [])
  /\ (Dart_IsCompilationError result || Dart_IsVMRestartRequest result = false ->
      files_written m.1 = files_written (GenerateFullSnapshot h g e).1
      /\ exists t', m.1 = (t ++ EvStartMain
                             :: (GenerateFullSnapshot h g e).1 ++ t')%list)
  /\ (Dart_IsCompilationError result || Dart_IsVMRestartRequest result = false ->
      forall base vm iso,
        snapshot_filename g = Some base ->
        Dart_CreateSnapshot e = (Value, (vm, iso)) ->
        (forall n, File_Open h n = true) -> (forall n, WriteFully h n = true) ->
        files_written m.1
        = [(base ++ ".vmisolate", vm); (base ++ ".isolate", iso)]).
Proof.
  intros Hh Hf Hs Hg Hn Hc Hr Hm Hst result m.
  pose proof (CreateIsolateAndSetupHelper_no_files b h g e script
                (commandline_package_root g) (commandline_packages_file g))
    as Ht. unfold no_files in Ht. rewrite Hh in Ht. cbn [fst] in Ht.
  assert (Em : m = mbind_ (t ++ [EvStartMain], Ret tt)%list (fun _ =>
      (if negb (Dart_IsCompilationError result)
          && negb (Dart_IsVMRestartRequest result)
       then GenerateFullSnapshot h g e else mret tt) >>
      CHECK_RESULT_run g result (emit EvShutdownIsolate >> mret false)))
    by (apply RunMainIsolate_full_snapshot_after_run; assumption).
  pose proof (CHECK_RESULT_run_finish_no_files g result) as Hk.
  unfold no_files in Hk.
  assert (Hno : Dart_IsCompilationError result || Dart_IsVMRestartRequest result
                = true -> files_written m.1 = []).
  { intros Hres. rewrite Em.
    replace (negb (Dart_IsCompilationError result)
             && negb (Dart_IsVMRestartRequest result)) with false
      by (destruct (Dart_IsCompilationError result),
            (Dart_IsVMRestartRequest result); (reflexivity || discriminate)).
    rewrite mbind_ret. cbn [fst snd mret mbind_ app].
    rewrite !files_written_app, Ht, Hk. reflexivity. }
  assert (Hyes : Dart_IsCompilationError result || Dart_IsVMRestartRequest result
                 = false ->
                 files_written m.1 = files_written (GenerateFullSnapshot h g e).1
                 /\ exists t', m.1 = (t ++ EvStartMain
                                      :: (GenerateFullSnapshot h g e).1 ++ t')%list).
  { intros Hres. rewrite Em.
    replace (negb (Dart_IsCompilationError result)
             && negb (Dart_IsVMRestartRequest result)) with true
      by (destruct (Dart_IsCompilationError result),
            (Dart_IsVMRestartRequest result); (reflexivity || discriminate)).
    rewrite mbind_ret. cbn [fst snd].
    destruct (GenerateFullSnapshot h g e) as [tg [[]| | |]]; cbn [mbind_ fst snd].
    - split.
      + rewrite !files_written_app, Ht, Hk. cbn. now rewrite ?app_nil_r.
      + eexists. rewrite <- app_assoc. reflexivity.
    - split.
      + rewrite !files_written_app, Ht. cbn. now rewrite ?app_nil_r.
      + exists []. now rewrite app_nil_r, <- app_assoc.
    - split.
      + rewrite !files_written_app, Ht. cbn. now rewrite ?app_nil_r.
      + exists []. now rewrite app_nil_r, <- app_assoc.
    - split.
      + rewrite !files_written_app, Ht. cbn. now rewrite ?app_nil_r.
      + exists []. now rewrite app_nil_r, <- app_assoc. }
  split; [exact Hno|]. split; [exact Hyes|].
  intros Hres base vm iso Hb He Ho Hw.
  rewrite (proj1 (Hyes Hres)).
  unfold GenerateFullSnapshot. rewrite He, Hb.
  cbn [Dart_IsError mret deref mbind_ fst snd app ComputeSnapshotFilenames].
  rewrite !WriteSnapshotFile_ok by auto. reflexivity.
Qed.

Lemma C5_witness :
  files_written
    (RunMainIsolate dart_bootstrap host_ok
       (Set_.generate_full_snapshot_after_run true
          (Set_.snapshot_filename (Some "app") initial_globals))
       engine_restart "script.dart").1 = []
  /\ files_written
       (RunMainIsolate dart_bootstrap host_ok
          (Set_.generate_full_snapshot_after_run true
             (Set_.snapshot_filename (Some "app") initial_globals))
          engine_ok "script.dart").1
     = [("app.vmisolate", [x0a]); ("app.isolate", [x0b])].
Proof.
  split.
  - exact (proj1 (C5_full_snapshot_after_run dart_bootstrap host_ok
             (Set_.generate_full_snapshot_after_run true
                (Set_.snapshot_filename (Some "app") initial_globals))
             engine_restart "script.dart"
             [EvIsolateCreated "script.dart"; EvLoadScript "script.dart"]
             eq_refl eq_refl eq_refl eq_refl eq_refl eq_refl eq_refl eq_refl
             eq_refl) eq_refl).
  - exact (proj2 (proj2 (C5_full_snapshot_after_run dart_bootstrap host_ok
             (Set_.generate_full_snapshot_after_run true
                (Set_.snapshot_filename (Some "app") initial_globals))
             engine_ok "script.dart"
             [EvIsolateCreated "script.dart"; EvLoadScript "script.dart"]
             eq_refl eq_refl eq_refl eq_refl eq_refl eq_refl eq_refl eq_refl
             eq_refl)) eq_refl "app" [x0a] [x0b] eq_refl eq_refl
             (fun _ => eq_refl) (fun _ => eq_refl)).
Defined.

(** ** Isolates created and shut down *)

Lemma count_events_app p t1 t2 :
  count_events p (t1 ++ t2) = (count_events p t1 + count_events p t2)%nat.
Proof. unfold count_events. now rewrite List.filter_app, List.length_app. Qed.

Lemma lifecycle_bind {A B} (m : M A) (k : A -> M B) Q :
  lifecycle m (fun a c s =>
    lifecycle (k a) (fun b c' s' => Q b (c + c')%nat (s + s')%nat)) ->
  lifecycle (mbind_ m k) Q.
Proof.
  unfold lifecycle. destruct m as [t [a|c| |]]; cbn [mbind_ fst snd];
    intros [Hr He]; split; try discriminate.
  - intros x Hx. destruct (Hr a eq_refl) as [Hk _].
    rewrite !count_events_app. now apply Hk.
  - intros c Hc. destruct (Hr a eq_refl) as [_ Hk]. now apply Hk.
  - intros c' [= <-]. now apply He.
Qed.

Lemma lifecycle_weaken {A} (m : M A) (Q Q' : A -> nat -> nat -> Prop) :
  lifecycle m Q -> (forall a c s, Q a c s -> Q' a c s) -> lifecycle m Q'.
Proof. unfold lifecycle. intros [Hr He] HQ. split; auto. Qed.

Lemma lifecycle_mret {A} (a : A) Q : Q a 0%nat 0%nat -> lifecycle (mret a) Q.
Proof. intros H. split; [intros x [= <-]; exact H|discriminate]. Qed.

Lemma lifecycle_emit e Q :
  Q tt (if is_created e then 1 else 0)%nat (if is_shutdown e then 1 else 0)%nat ->
  lifecycle (emit e) Q.
Proof.
  intros H. split; [|discriminate]. intros [] _. unfold count_events. cbn.
  now destruct (is_created e), (is_shutdown e).
Qed.

Lemma lifecycle_stop {A} (o : Outcome A) Q :
  match o with
  | Ret a => Q a 0%nat 0%nat
  | Exited c => c <> kRestartRequestExitCode
  | _ => True
  end -> lifecycle (stop o) Q.
Proof.
  destruct o; intros H; split; cbn; try discriminate.
  - now intros x [= <-].
  - now intros x [= <-].
Qed.

Lemma lifecycle_ErrorExit g {A} code msg Q :
  code <> kRestartRequestExitCode -> lifecycle (@ErrorExit g A code msg) Q.
Proof.
  intros H. unfold ErrorExit.
  destruct (do_vm_shutdown g); split; cbn; try discriminate;
    now intros c [= <-].
Qed.

Ltac lifecycle_leaf :=
  solve [ cbn in *; intuition (try discriminate; try lia; auto)
        | unfold kErrorExitCode, kCompilationErrorExitCode,
            kRestartRequestExitCode; lia ].

Ltac lifecycle_step :=
  cbn beta;
  match goal with
  | |- lifecycle (mbind_ _ _) _ => apply lifecycle_bind
  | |- lifecycle (emit _) _ => apply lifecycle_emit
  | |- lifecycle (mret _) _ => apply lifecycle_mret
  | |- lifecycle (stop _) _ => apply lifecycle_stop
  | |- lifecycle (ErrorExit _ _ _) _ => apply lifecycle_ErrorExit
  | |- lifecycle (CHECK_RESULT_setup ?r _) _ =>
      unfold CHECK_RESULT_setup at 1; destruct r as [|[] ?];
      cbn [Dart_IsError Dart_IsCompilationError Dart_IsApiError
           Dart_IsVMRestartRequest]
  | |- lifecycle (CHECK_RESULT_run _ ?r _) _ =>
      unfold CHECK_RESULT_run at 1; destruct r as [|[] ?];
      cbn [Dart_IsError Dart_IsCompilationError Dart_IsApiError
           Dart_IsVMRestartRequest]
  | |- lifecycle (if ?c then _ else _) _ => destruct c
  | |- lifecycle ((if ?c then _ else _) _) _ => destruct c
  | |- lifecycle (match ?c with _ => _ end) _ => destruct c
  | |- lifecycle (let '(_, _) := ?c in _) _ => destruct c
  | |- match (if ?c then _ else _) with Ret _ => _ | _ => _ end => destruct c
  | |- match ?o with Ret _ => _ | _ => _ end => destruct o
  end.

Lemma CreateIsolateAndSetupHelper_lifecycle b h g e script_uri root config :
  lifecycle (CreateIsolateAndSetupHelper b h g e script_uri root config)
    (fun r c s =>
       match r with
       | IsolateReady => c = 1%nat /\ s = 0%nat
       | NoIsolate code _ =>
           code = kRestartRequestExitCode -> c = 1%nat /\ s = 1%nat
       end).
Proof.
  unfold CreateIsolateAndSetupHelper, ASSERT. cbv zeta.
  repeat first [lifecycle_step | lifecycle_leaf].
Qed.

Ltac lifecycle_auto := repeat first [lifecycle_step | lifecycle_leaf].

Lemma WriteSnapshotFile_lifecycle h g dir filename magic buffer :
  lifecycle (WriteSnapshotFile h g dir filename magic buffer)
    (fun _ c s => c = 0%nat /\ s = 0%nat).
Proof. unfold WriteSnapshotFile, ASSERT. cbv zeta. lifecycle_auto. Qed.

Lemma deref_lifecycle {A} (p : option A) :
  lifecycle (deref p) (fun _ c s => c = 0%nat /\ s = 0%nat).
Proof. unfold deref. lifecycle_auto. Qed.

Ltac lifecycle_call lem :=
  apply lifecycle_bind; eapply lifecycle_weaken; [apply lem|];
  cbn beta; intros ? ? ? [-> ->].

Lemma GenerateScriptSnapshot_lifecycle h g e :
  lifecycle (GenerateScriptSnapshot h g e) (fun _ c s => c = 0%nat /\ s = 0%nat).
Proof.
  unfold GenerateScriptSnapshot.
  destruct (Dart_CreateScriptSnapshot e) as [result buffer].
  apply lifecycle_bind.
  destruct (Dart_IsError result); [lifecycle_auto|].
  apply lifecycle_mret. lifecycle_call (@deref_lifecycle string).
  eapply lifecycle_weaken; [apply WriteSnapshotFile_lifecycle|].
  cbn beta. intros ? ? ? [-> ->]. auto.
Qed.

Lemma GenerateFullSnapshot_lifecycle h g e :
  lifecycle (GenerateFullSnapshot h g e) (fun _ c s => c = 0%nat /\ s = 0%nat).
Proof.
  unfold GenerateFullSnapshot.
  destruct (Dart_CreateSnapshot e) as [result [vm iso]].
  apply lifecycle_bind.
  destruct (Dart_IsError result); [lifecycle_auto|].
  apply lifecycle_mret. lifecycle_call (@deref_lifecycle string).
  cbn [ComputeSnapshotFilenames].
  lifecycle_call WriteSnapshotFile_lifecycle.
  eapply lifecycle_weaken; [apply WriteSnapshotFile_lifecycle|].
  cbn beta. intros ? ? ? [-> ->]. auto.
Qed.

Ltac lifecycle_known :=
  cbn beta;
  match goal with
  | |- lifecycle (WriteSnapshotFile _ _ _ _ _ _) _ =>
      eapply lifecycle_weaken; [apply WriteSnapshotFile_lifecycle|]
  | |- lifecycle (GenerateScriptSnapshot _ _ _) _ =>
      eapply lifecycle_weaken; [apply GenerateScriptSnapshot_lifecycle|]
  | |- lifecycle (GenerateFullSnapshot _ _ _) _ =>
      eapply lifecycle_weaken; [apply GenerateFullSnapshot_lifecycle|]
  end; cbn beta; intros ? ? ? [-> ->].

(** One bootstrap that returns, with a restart request or without, has
    created one isolate and shut one down; one that exits does not exit
    with the restart sentinel. *)
Lemma RunMainIsolate_lifecycle b h g e script :
  lifecycle (RunMainIsolate b h g e script)
    (fun _ c s => c = 1%nat /\ s = 1%nat).
Proof.
  unfold RunMainIsolate. apply lifecycle_bind.
  eapply lifecycle_weaken; [apply CreateIsolateAndSetupHelper_lifecycle|].
  cbn beta. intros [|code error] c s HQ.
  - destruct HQ as [-> ->]. cbv zeta.
    destruct (Dart_CreatePrecompiledSnapshot e) as [pre [[vm iso] ins]].
    repeat first [lifecycle_known | lifecycle_step | lifecycle_leaf].
  - destruct (Z.eqb_spec code kRestartRequestExitCode) as [Hc|Hc].
    + destruct (HQ Hc) as [-> ->]. lifecycle_auto.
    + apply lifecycle_bind, lifecycle_emit. cbn beta.
      apply lifecycle_bind, lifecycle_emit. cbn beta.
      apply lifecycle_bind.
      destruct (do_vm_shutdown g); [apply lifecycle_emit|apply lifecycle_mret];
        cbn beta; apply lifecycle_stop;
        (destruct (Z.eqb_spec code 0); cbn [negb];
         [unfold kErrorExitCode, kRestartRequestExitCode; lia|exact Hc]).
Qed.

Lemma read_snapshots_lifecycle h g :
  lifecycle (read_snapshots h g) (fun _ c s => c = 0%nat /\ s = 0%nat).
Proof.
  unfold read_snapshots, LoadLibrarySymbol, ReadSnapshotFile, deref.
  cbv zeta. cbn [ComputeSnapshotFilenames]. lifecycle_auto.
Qed.

(** ** The restart loop *)

Lemma restart_loop_restarts b h g script restarts final :
  Forall (fun e => (RunMainIsolate b h g e script).2 = Ret true) restarts ->
  (RunMainIsolate b h g final script).2 = Ret false ->
  let m := restart_loop b h g (restarts ++ [final]) script in
  m.2 = Ret true
  /\ count_events is_created m.1 = S (List.length restarts)
  /\ count_events is_shutdown m.1 = S (List.length restarts).
Proof.
  intros Hr Hf. induction Hr as [|e restarts He _ IH]; cbn [app restart_loop].
  - destruct (RunMainIsolate_lifecycle b h g final script) as [Hl _].
    specialize (Hl false Hf).
    destruct (RunMainIsolate b h g final script) as [t o]. cbn [snd] in Hf.
    subst o. cbn [mbind_ fst snd mret app List.length]. rewrite app_nil_r.
    auto.
  - destruct (RunMainIsolate_lifecycle b h g e script) as [Hl _].
    specialize (Hl true He).
    destruct (RunMainIsolate b h g e script) as [t o]. cbn [snd] in He.
    subst o. cbn [fst] in Hl. destruct IH as (I1 & I2 & I3).
    destruct (restart_loop b h g (restarts ++ [final]) script) as [t' o'].
    cbn [fst snd] in *. subst o'. cbn [mbind_ fst snd emit mret app].
    change (EvPrintErr "Restarting VM" :: t')
      with ([EvPrintErr "Restarting VM"] ++ t')%list.
    rewrite !count_events_app, I2, I3. cbn [List.length].
    destruct Hl as [-> ->]. repeat split.
Qed.

(** C1.  When the bootstrap of the main isolate asks for a restart N times
    and then completes, the restart loop runs N+1 bootstraps, each creating
    one isolate and shutting it down, and is then left; [main] goes on to
    exit with the process's global exit code, which is 0 unless the script
    set another one.  The restart code 1000 only travels from
    [CreateIsolateAndSetupHelper] to [RunMainIsolate]: no bootstrap exits
    the process with it. *)
Theorem C1_restart_then_success (b : Build) (h : Host) (argv : list string)
    (r : ParseResult) (script : string) (restarts : list Engine)
    (final : Engine) :
  ParseArguments b argv = Ret r ->
  result r = 0 ->
  script_name r = Some script ->
  SetOriginalWorkingDirectory h = true ->
  (read_snapshots h (globals r)).2 = Ret tt ->
  Dart_Initialize h = None ->
  GlobalExitCode h = 0 ->
  Forall (fun e => (RunMainIsolate b h (globals r) e script).2 = Ret true)
    restarts ->
  (RunMainIsolate b h (globals r) final script).2 = Ret false ->
  let loop := restart_loop b h (globals r) (restarts ++ [final]) script in
  let process := main b h (restarts ++ [final]) argv in
  loop.2 = Ret true
  /\ count_events is_created loop.1 = S (List.length restarts)
  /\ count_events is_shutdown loop.1 = S (List.length restarts)
  /\ process.2 = Exited 0
  /\ count_events is_created process.1 = S (List.length restarts)
  /\ count_events is_shutdown process.1 = S (List.length restarts)
  /\ (forall e c, (RunMainIsolate b h (globals r) e script).2 = Exited c ->
                  c <> kRestartRequestExitCode).
Proof.
  intros Hp Hres Hscript Hwd Hread Hinit Hexit Hrestarts Hfinal loop process.
  destruct (restart_loop_restarts b h (globals r) script restarts final
              Hrestarts Hfinal) as (L1 & L2 & L3).
  fold loop in L1, L2, L3.
  split; [exact L1|]. split; [exact L2|]. split; [exact L3|].
  assert (Hassert : negb (is_noopt b)
                    || (negb (gen_precompiled_snapshot (globals r))
                        && negb (run_precompiled_snapshot (globals r))) = true).
  { destruct (ParseArguments_from_result b _ _ r Hp) as [Hr|[_ Hc]];
      [rewrite Hres in Hr; discriminate|].
    unfold consistent_arguments in Hc.
    destruct (is_noopt b), (gen_precompiled_snapshot (globals r)),
      (run_precompiled_snapshot (globals r)); try reflexivity;
      destruct (_ && _); discriminate. }
  destruct (read_snapshots_lifecycle h (globals r)) as [Hrl _].
  specialize (Hrl tt Hread). destruct Hrl as [Hrc Hrs].
  assert (Hmain : process.2 = Exited 0
                  /\ exists t1 t2, process.1 = (t1 ++ loop.1 ++ t2)%list
                     /\ count_events is_created t1 = 0%nat
                     /\ count_events is_shutdown t1 = 0%nat
                     /\ count_events is_created t2 = 0%nat
                     /\ count_events is_shutdown t2 = 0%nat).
  { unfold process, main. rewrite Hp. cbn [stop mbind_ fst snd app].
    rewrite Hres, Hwd, Hassert, Hinit, Hscript.
    cbn [Z.ltb Z.compare negb ASSERT stop mbind_ fst snd app deref mret].
    destruct (read_snapshots h (globals r)) as [tr or_]. cbn [fst snd] in *.
    subst or_. cbn [mbind_ fst snd].
    fold loop. destruct loop as [tl ol]. cbn [fst snd] in *. subst ol.
    cbn [mbind_ fst snd]. rewrite Hexit.
    destruct (do_vm_shutdown (globals r)); cbn; (split; [reflexivity|]);
      eexists tr, _; (split; [reflexivity|]); repeat split; auto. }
  destruct Hmain as (M1 & t1 & t2 & M2 & K1 & K2 & K3 & K4).
  split; [exact M1|].
  rewrite M2, !count_events_app, K1, K2, K3, K4, L2, L3.
  split; [lia|]. split; [lia|].
  intros e c. apply (RunMainIsolate_lifecycle b h (globals r) e script).
Qed.

Lemma C1_witness :
  (main dart_binary host_ok [engine_restart; engine_restart; engine_ok]
     ["dart"; "script.dart"]).2 = Exited 0
  /\ count_events is_created
       (main dart_binary host_ok [engine_restart; engine_restart; engine_ok]
          ["dart"; "script.dart"]).1 = 3%nat
  /\ count_events is_shutdown
       (main dart_binary host_ok [engine_restart; engine_restart; engine_ok]
          ["dart"; "script.dart"]).1 = 3%nat.
Proof.
  assert (Hrestarts :
    Forall (fun e => (RunMainIsolate dart_binary host_ok initial_globals e
                        "script.dart").2 = Ret true)
      [engine_restart; engine_restart])
    by (repeat constructor).
  destruct (C1_restart_then_success dart_binary host_ok ["dart"; "script.dart"]
              {| result := 0; script_name := Some "script.dart";
                 vm_options := ["--no_write_protect_code"];
                 dart_options := []; print_flags_seen := false;
                 verbose_debug_seen := false; globals := initial_globals |}
              "script.dart" [engine_restart; engine_restart] engine_ok
              eq_refl eq_refl eq_refl eq_refl eq_refl eq_refl eq_refl
              Hrestarts eq_refl)
    as (_ & _ & _ & Hexit & Hcreated & Hshutdown & _).
  exact (conj Hexit (conj Hcreated Hshutdown)).
Defined.

(** ** The decompression loop *)

Section DecompressorProperties.
Context {zstate : Type}.
Variable inflateInit2 : Z * zstate.
Variable inflate : z_stream zstate -> Z * list byte * z_stream zstate.

Lemma inflate_loop_asserts fuel input strm size_in input_cursor output :
  (inflate (with_chunk strm)).1.1 <> Z_OK ->
  (inflate (with_chunk strm)).1.1 <> Z_STREAM_END ->
  inflate_loop zstate inflate (S fuel) input strm size_in input_cursor output
  = Some AssertFailed.
Proof.
  intros Hok Hend. cbn [inflate_loop]. fold (with_chunk strm).
  destruct (inflate (with_chunk strm)) as [[ret chunk_out] strm1].
  cbn [fst] in *.
  destruct (Z.eqb_spec ret Z_STREAM_END); [congruence|].
  destruct (Z.eqb_spec ret Z_OK); [congruence|]. reflexivity.
Qed.

Variable work : zstate -> nat.
Hypothesis progress : progress_property inflate work.

Lemma inflate_loop_terminates n :
  forall input strm size_in input_cursor output,
    (input_cursor + size_in <= N.of_nat (List.length input))%N ->
    (work (internal _ strm) + N.to_nat (avail_in _ strm)
     + (List.length input - N.to_nat (input_cursor + size_in)) <= n)%nat ->
    exists out,
      inflate_loop zstate inflate (S n) input strm size_in input_cursor output
      = Some (Ret out).
Proof.
  induction n as [|n IH]; intros input strm size_in input_cursor output Hin Hn;
    cbn [inflate_loop]; fold (with_chunk strm);
    pose proof (progress (with_chunk strm) eq_refl) as Hp;
    destruct (inflate (with_chunk strm)) as [[ret chunk_out] strm1];
    destruct Hp as [Hret Hdec]; cbn [with_chunk internal avail_in] in Hdec;
    assert (Hassert : Z.eqb ret Z_STREAM_END || Z.eqb ret Z_OK = true)
      by (destruct Hret as [-> | ->]; reflexivity);
    rewrite Hassert; cbn [negb].
  - destruct (N.eqb_spec (avail_out _ strm1) 0) as [H0|H0];
      [specialize (Hdec (or_intror H0)); lia|].
    destruct (Z.eqb_spec ret Z_STREAM_END) as [He|He]; cbn [negb];
      [eexists; reflexivity|].
    assert (ret = Z_OK) by (destruct Hret; congruence).
    specialize (Hdec (or_introl H)). lia.
  - destruct (N.eqb_spec (avail_out _ strm1) 0) as [H0|H0].
    + apply IH; [exact Hin|]. specialize (Hdec (or_intror H0)). lia.
    + destruct (Z.eqb_spec ret Z_STREAM_END) as [He|He]; cbn [negb];
        [eexists; reflexivity|].
      assert (ret = Z_OK) by (destruct Hret; congruence).
      specialize (Hdec (or_introl H)).
      apply IH; cbn [internal avail_in]; unfold N_min;
        destruct (N.ltb_spec kChunkSize
                    (N.of_nat (List.length input) - (input_cursor + size_in)));
        lia.
Qed.

End DecompressorProperties.

Lemma copy_inflate_progress :
  progress_property copy_inflate (fun pending => List.length pending).
Proof.
  intros strm Hout. unfold copy_inflate. rewrite Hout. cbn [internal avail_in].
  set (avail := (internal _ strm
                 ++ take (N.to_nat (avail_in _ strm)) (next_in _ strm))%list).
  assert (Ha : (List.length avail
                <= List.length (internal _ strm) + N.to_nat (avail_in _ strm))%nat)
    by (unfold avail; rewrite length_app, length_take; lia).
  rewrite length_drop. cbn [avail_out]. unfold kChunkSize.
  split.
  - destruct (Nat.eqb _ 0); auto.
  - destruct (Nat.eqb_spec
                (List.length avail
                 - N.to_nat (N.min (256 * 1024) (N.of_nat (List.length avail))))
                0) as [He|He]; intros [H|H]; try discriminate; lia.
Qed.



Example Decompress_copies_a_short_input :
  Decompress (list byte) (Z_OK, []) copy_inflate 1 [x01; x02; x03]
  = Some (Ret [x01; x02; x03]).
Proof. vm_compute. reflexivity. Qed.

Example Decompress_rejects_no_progress :
  Decompress unit (Z_OK, tt) (fun strm => (-5, [], strm)) 1 [x01]
  = Some AssertFailed.
Proof. reflexivity. Qed.

(** * Further properties of the launcher *)

(** ** Where flag parsing stops *)



Lemma parse_vm_options_suffix b n :
  forall args st pf vd rest st' pf' vd',
    (List.length args <= n)%nat ->
    parse_vm_options b args st pf vd = Ret (rest, st', pf', vd') ->
    exists flags, args = (flags ++ rest)%list.
Proof.
  induction n as [|n IH]; intros args st pf vd rest st' pf' vd' Hn;
    destruct args as [|a args]; cbn [List.length] in Hn; try lia;
    cbn [parse_vm_options];
    try (intros [= <- <- <- <-]; now exists []).
  destruct (ProcessMainOptions b a st) as [r| | |]; cbn [obind];
    try discriminate.
  assert (Hrec : forall st0 pf0 vd0,
            parse_vm_options b args st0 pf0 vd0 = Ret (rest, st', pf', vd') ->
            exists flags, a :: args = (flags ++ rest)%list).
  { intros st0 pf0 vd0 H. assert (Hl : (List.length args <= n)%nat) by lia.
    destruct (IH _ _ _ _ _ _ _ _ Hl H) as [fl ->].
    now exists (a :: fl). }
  destruct r.1; [apply Hrec|].
  destruct (has_prefix "-p" a).
  { destruct (ProcessPackageRootOption _ r.2) as [r1| | |]; cbn [obind];
      try discriminate.
    destruct r1.1; [apply Hrec|].
    destruct args as [|a' args'].
    { intros [= <- <- <- <-]. exists [a]. reflexivity. }
    destruct (ProcessPackageRootOption a' r1.2) as [r2| | |]; cbn [obind];
      try discriminate.
    destruct r2.1.
    - intros H. cbn [List.length] in Hn.
      assert (Hl : (List.length args' <= n)%nat) by lia.
      destruct (IH _ _ _ _ _ _ _ _ Hl H) as [fl ->].
      now exists (a :: a' :: fl).
    - intros [= <- <- <- <-]. now exists [a; a']. }
  destruct (has_prefix "-c" a); [apply Hrec|].
  destruct (negb _); [|apply Hrec].
  intros [= <- <- <- <-]. now exists [].
Qed.

(** X2.  What [ParseArguments] hands on is a suffix of the command line:
    when it finds a script name, the arguments are some flags, the script
    name and then exactly the script arguments; when it finds none it
    returns -1 with no script arguments.  It returns 0 only with a script
    name. *)
Theorem ParseArguments_splits_command_line (b : Build) (st : PState)
    (args : list string) (r : ParseResult) :
  ParseArguments_from b st args = Ret r ->
  match script_name r with
  | Some script =>
      exists flags, args = (flags ++ script :: dart_options r)%list
  | None => result r = -1 /\ dart_options r = []
  end.
Proof.
  unfold ParseArguments_from.
  destruct (parse_vm_options b args st false false)
    as [[[[rest st'] pf] vd]| | |] eqn:Hp; cbn [obind]; try discriminate.
  destruct (parse_vm_options_suffix b _ _ _ _ _ _ _ _ _ (le_n _) Hp)
    as [flags ->].
  destruct rest as [|script script_args]; intros [= <-];
    cbn [script_name result dart_options]; eauto.
Qed.

Lemma ParseArguments_splits_command_line_witness :
  exists flags,
    ["--trace-loading"; "-Da=b"; "script.dart"; "x"; "-y"]
    = (flags ++ "script.dart" :: ["x"; "-y"])%list.
Proof.
  exact (ParseArguments_splits_command_line dart_binary
           (initial_globals, ["--no_write_protect_code"])
           ["--trace-loading"; "-Da=b"; "script.dart"; "x"; "-y"]
           {| result := 0; script_name := Some "script.dart";
              vm_options := ["--no_write_protect_code"];
              dart_options := ["x"; "-y"];
              print_flags_seen := false; verbose_debug_seen := false;
              globals := Set_.environment (Some {[ "a" := "b" ]})
                           (Set_.trace_loading true initial_globals) |}
           eq_refl).
Defined.

(** ** Flags handed on to the engine *)

Lemma double_dash_prefix a :
  CStr.strncmp_eq 2 a "--" = true ->
  has_prefix "-p" a = false /\ has_prefix "-c" a = false.
Proof.
  destruct a as [|x [|y a]]; cbn [CStr.strncmp_eq]; try discriminate.
  - now rewrite andb_false_r.
  - intros H. apply andb_prop in H as [Hx H]. apply andb_prop in H as [Hy _].
    apply Ascii.eqb_eq in Hx, Hy. subst. split; reflexivity.
Qed.

Lemma parse_vm_options_passthrough b flags :
  forall rest st pf vd,
    Forall (fun a => IsValidFlag a "--" 2 = true /\ no_main_option b a) flags ->
    exists pf' vd',
      parse_vm_options b (flags ++ rest)%list st pf vd
      = parse_vm_options b rest (st.1, (st.2 ++ flags)%list) pf' vd'.
Proof.
  induction flags as [|a flags IH]; intros rest st pf vd Hf.
  - exists pf, vd. rewrite app_nil_r. now destruct st.
  - apply Forall_cons in Hf as [[Hv Hn] Hf]. cbn [app parse_vm_options].
    unfold ProcessMainOptions.
    rewrite (ProcessMainOptions_from_nomatch _ a st Hn). cbn [obind fst snd].
    unfold IsValidFlag in Hv. apply andb_prop in Hv as [Hl Hp].
    destruct (double_dash_prefix a Hp) as [-> ->].
    unfold IsValidFlag. rewrite Hl, Hp. cbn [andb negb].
    match goal with
    | |- context [parse_vm_options b (flags ++ rest) ?s ?p ?v] =>
        destruct (IH rest s p v Hf) as (pf' & vd' & ->)
    end.
    exists pf', vd'. cbn [fst snd]. unfold AddArgument.
    now rewrite <- app_assoc.
Qed.

(** X3.  Flags that start with two dashes and match no entry of the option
    table are handed on to the engine as they are and in their order, after
    the flags collected before them, and change no global. *)
Theorem ParseArguments_forwards_engine_flags (b : Build) (st : PState)
    (flags : list string) (script : string) (script_args : list string) :
  Forall (fun a => IsValidFlag a "--" 2 = true /\ no_main_option b a) flags ->
  first_is "-" script = false ->
  exists r,
    ParseArguments_from b st (flags ++ script :: script_args)%list = Ret r
    /\ vm_options r = (st.2 ++ flags)%list
    /\ globals r = st.1
    /\ script_name r = Some script
    /\ dart_options r = script_args.
Proof.
  intros Hf Hs. unfold ParseArguments_from.
  destruct (parse_vm_options_passthrough b flags (script :: script_args) st
              false false Hf) as (pf & vd & ->).
  rewrite parse_vm_options_script by exact Hs. cbn [obind].
  eexists. split; [reflexivity|]. repeat split.
Qed.

Lemma ParseArguments_forwards_engine_flags_witness :
  exists r,
    ParseArguments dart_binary
      ["dart"; "--enable_type_checks"; "--old_gen_heap_size=512"; "script.dart"]
    = Ret r
    /\ vm_options r
       = ["--no_write_protect_code"; "--enable_type_checks";
          "--old_gen_heap_size=512"]
    /\ globals r = initial_globals
    /\ script_name r = Some "script.dart"
    /\ dart_options r = [].
Proof.
  refine (ParseArguments_forwards_engine_flags dart_binary
            (initial_globals, ["--no_write_protect_code"])
            ["--enable_type_checks"; "--old_gen_heap_size=512"]
            "script.dart" [] _ eq_refl).
  repeat (constructor;
          [split; [reflexivity|repeat (constructor; [reflexivity|]); constructor]|]).
  constructor.
Defined.

(** ** The short package-root flag *)

Lemma ProcessMainOptions_short_p b v st :
  ProcessMainOptions b ("-p" ++ v) st = Ret (false, st).
Proof.
  unfold ProcessMainOptions, main_options. norm_append.
  apply ProcessMainOptions_from_nomatch. no_entry_matches.
Qed.

(** X4.  The package root can be spelled [--package-root=<path>],
    [-p<path>] or [-p <path>]: all three record the same root, add no
    engine flag and leave the rest of the command line to be parsed the same
    way.  A [-p] that ends the command line makes parsing return -1. *)
Theorem ParseArguments_package_root_spellings (b : Build) (st : PState)
    (path : string) (rest : list string) :
  is_path path = true ->
  let st' := (Set_.commandline_package_root (Some path) st.1, st.2) in
  ParseArguments_from b st (("--package-root=" ++ path) :: rest)
  = ParseArguments_from b st' rest
  /\ ParseArguments_from b st (("-p" ++ path) :: rest)
     = ParseArguments_from b st' rest
  /\ ParseArguments_from b st ("-p" :: path :: rest)
     = ParseArguments_from b st' rest
  /\ exists r, ParseArguments_from b st ["-p"] = Ret r /\ result r = -1.
Proof.
  intros Hp st'. pose proof (is_path_inv path Hp) as Hv.
  pose proof (ProcessMainOptions_short_p b "" st) as Hq.
  change ("-p" ++ "") with "-p" in Hq.
  split; [|split; [|split]].
  - unfold ParseArguments_from.
    now rewrite (parse_vm_options_accept b _ _ _ _ _ _
                   (ProcessMainOptions_package_root b path st Hp)).
  - unfold ParseArguments_from. cbn [parse_vm_options].
    rewrite ProcessMainOptions_short_p. cbn [obind fst snd]. norm_append.
    cbn [has_prefix String.length CStr.strncmp_eq Ascii.eqb Bool.eqb andb
         CStr.skip].
    unfold ProcessPackageRootOption at 1. rewrite Hv. reflexivity.
  - unfold ParseArguments_from. cbn [parse_vm_options].
    rewrite Hq. cbn [obind fst snd].
    cbn [has_prefix String.length CStr.strncmp_eq Ascii.eqb Bool.eqb andb
         CStr.skip].
    unfold ProcessPackageRootOption at 1. cbn [is_empty orb obind fst snd].
    unfold ProcessPackageRootOption at 1. rewrite Hv. reflexivity.
  - eexists. split.
    + unfold ParseArguments_from. cbn [parse_vm_options].
      rewrite Hq. reflexivity.
    + reflexivity.
Qed.

Lemma ParseArguments_package_root_spellings_witness :
  ParseArguments dart_binary ["dart"; "-ppkgs/"; "script.dart"]
  = ParseArguments dart_binary ["dart"; "--package-root=pkgs/"; "script.dart"]
  /\ ParseArguments dart_binary ["dart"; "-p"; "pkgs/"; "script.dart"]
     = ParseArguments dart_binary
         ["dart"; "--package-root=pkgs/"; "script.dart"].
Proof.
  destruct (ParseArguments_package_root_spellings dart_binary
              (initial_globals, ["--no_write_protect_code"]) "pkgs/"
              ["script.dart"] eq_refl) as (H1 & H2 & H3 & _).
  split.
  - exact (eq_trans H2 (eq_sym H1)).
  - exact (eq_trans H3 (eq_sym H1)).
Defined.

(** ** What every option processor preserves *)

Section ParserRelations.
Variable b : Build.
Variable R : PState -> PState -> Prop.
Hypothesis R_refl : forall st, R st st.
Hypothesis R_trans : forall s1 s2 s3, R s1 s2 -> R s2 s3 -> R s1 s3.
Hypothesis R_processors :
  Forall (fun e => forall arg st r, e.2 arg st = Ret r -> R st r.2)
    (main_options b).
Hypothesis R_package_root :
  forall arg st r, ProcessPackageRootOption arg st = Ret r -> R st r.2.
Hypothesis R_AddArgument : forall st a, R st (st.1, AddArgument a st.2).

Lemma ProcessMainOptions_from_rel table option st r :
  Forall (fun e => forall arg st r, e.2 arg st = Ret r -> R st r.2) table ->
  ProcessMainOptions_from table option st = Ret r -> R st r.2.
Proof.
  intros H. revert st. induction H as [|[name process] table Hp _ IH];
    intros st; cbn [ProcessMainOptions_from].
  - intros [= <-]. apply R_refl.
  - destruct (_ && _); [|apply IH].
    destruct (process _ st) as [r1| | |] eqn:H1; cbn [obind]; try discriminate.
    pose proof (Hp _ _ _ H1) as Hk. destruct r1.1.
    + intros [= <-]. exact Hk.
    + intros H2. eapply R_trans; [exact Hk|]. now apply IH.
Qed.

Lemma parse_vm_options_rel n :
  forall args st pf vd rest st' pf' vd',
    (List.length args <= n)%nat ->
    parse_vm_options b args st pf vd = Ret (rest, st', pf', vd') ->
    R st st'.
Proof.
  induction n as [|n IH]; intros args st pf vd rest st' pf' vd' Hn;
    destruct args as [|a args]; cbn [List.length] in Hn; try lia;
    cbn [parse_vm_options]; try (intros [= <- <- <- <-]; apply R_refl).
  destruct (ProcessMainOptions b a st) as [r| | |] eqn:Hm; cbn [obind];
    try discriminate.
  pose proof (ProcessMainOptions_from_rel _ _ _ _ R_processors Hm) as Hk.
  assert (Hrec : forall st0 pf0 vd0,
            R st st0 ->
            parse_vm_options b args st0 pf0 vd0 = Ret (rest, st', pf', vd') ->
            R st st').
  { intros st0 pf0 vd0 H0 H. eapply R_trans; [exact H0|].
    eapply IH; [|exact H]. lia. }
  destruct r.1; [now apply Hrec|].
  destruct (has_prefix "-p" a).
  { destruct (ProcessPackageRootOption _ r.2) as [r1| | |] eqn:H1;
      cbn [obind]; try discriminate.
    pose proof (R_trans _ _ _ Hk (R_package_root _ _ _ H1)) as Hk1.
    destruct r1.1; [now apply Hrec|].
    destruct args as [|a' args'].
    { now intros [= <- <- <- <-]. }
    destruct (ProcessPackageRootOption a' r1.2) as [r2| | |] eqn:H2;
      cbn [obind]; try discriminate.
    pose proof (R_trans _ _ _ Hk1 (R_package_root _ _ _ H2)) as Hk2.
    destruct r2.1.
    - intros H. eapply R_trans; [exact Hk2|].
      eapply IH; [|exact H]. cbn [List.length] in Hn. lia.
    - now intros [= <- <- <- <-]. }
  destruct (has_prefix "-c" a).
  { apply Hrec. eapply R_trans; [exact Hk|apply R_AddArgument]. }
  destruct (negb _).
  { now intros [= <- <- <- <-]. }
  apply Hrec. eapply R_trans; [exact Hk|apply R_AddArgument].
Qed.

Lemma ParseArguments_from_rel st args r :
  ParseArguments_from b st args = Ret r -> R st (globals r, vm_options r).
Proof.
  unfold ParseArguments_from.
  destruct (parse_vm_options b args st false false)
    as [[[[rest st'] pf] vd]| | |] eqn:Hp; cbn [obind]; try discriminate.
  pose proof (parse_vm_options_rel _ _ _ _ _ _ _ _ _ (le_n _) Hp) as H.
  destruct st' as [g' vm'].
  destruct rest; intros [= <-]; exact H.
Qed.

End ParserRelations.

Ltac unfold_processors :=
  unfold ProcessEnvironmentOption, ProcessHelpOption,
    ProcessPackagesOption, ProcessPackageRootOption,
    ProcessVerboseOption, ProcessVersionOption,
    ProcessCompileAllOption, ProcessEnableVmServiceOption,
    ProcessGenPrecompiledSnapshotOption, ProcessObserveOption,
    ProcessRunPrecompiledSnapshotOption, ProcessShutdownOption,
    ProcessScriptSnapshotOption, ProcessFullSnapshotAfterRunOption,
    ProcessRunFullSnapshotOption, ProcessTraceLoadingOption,
    ProcessSnapshotOptionHelper, ASSERT.

Ltac split_processor :=
  repeat match goal with
         | |- context [if ?c then _ else _] => destruct c eqn:?
         | |- context [match ?c with _ => _ end] => destruct c eqn:?
         end.

(** ** Snapshot settings *)

Lemma processors_keep_snapshot_settings b :
  Forall (fun e => forall arg st r,
            e.2 arg st = Ret r ->
            snapshot_settings_ok st.1 -> snapshot_settings_ok r.2.1)
    (main_options b).
Proof.
  unfold main_options, snapshot_settings_ok.
  repeat (constructor;
          [cbn [snd]; unfold_processors; intros arg [g vm] r; destruct g;
           split_processor; cbn in *; intros; simplify_eq; cbn in *;
           try solve [intuition (try discriminate; eauto)]|]);
    try constructor.
  all: try (split; [tauto|]).
  all: try (intros _; eexists; split; [reflexivity|];
            intros ->; discriminate).
  all: repeat match goal with H : _ /\ _ |- _ => destruct H end;
    rewrite ?andb_true_r, ?andb_false_r, ?orb_true_r in *;
    try reflexivity; try assumption; try congruence.
Qed.

Lemma ProcessPackageRootOption_touches_root arg st r :
  ProcessPackageRootOption arg st = Ret r ->
  r.2 = st \/ r.2 = (Set_.commandline_package_root (Some arg) st.1, st.2).
Proof.
  unfold ProcessPackageRootOption. destruct (_ || _); intros [= <-]; auto.
Qed.



(** ** The names in the environment table *)

Lemma split_at_left c s l r :
  CStr.split_at c s = Some (l, r) -> CStr.split_at c l = None.
Proof.
  revert l r. induction s as [|a s IH]; intros l r; cbn [CStr.split_at];
    [discriminate|].
  destruct (Ascii.eqb a c) eqn:Ha; [now intros [= <- <-]|].
  destruct (CStr.split_at c s) as [[l' r']|]; [|discriminate].
  intros [= <- <-]. cbn [CStr.split_at]. now rewrite Ha, (IH l' r').
Qed.

Lemma processors_keep_environment_names b :
  Forall (fun e => forall arg st r,
            e.2 arg st = Ret r ->
            environment_names_ok st.1 -> environment_names_ok r.2.1)
    (main_options b).
Proof.
  unfold main_options. constructor.
  - cbn [snd]. intros arg [g vm] r. unfold ProcessEnvironmentOption.
    cbn [fst snd]. destruct (is_empty arg); [now intros [= <-]|].
    assert (Hdef : environment_names_ok g ->
              forall k v, default ∅ (environment g) !! k = Some v ->
                          is_define_name k = true).
    { intros Hg k v. destruct (environment g) as [env|] eqn:He; cbn.
      - now apply Hg.
      - now rewrite lookup_empty. }
    destruct (CStr.split_at "=" arg) as [[name value]|] eqn:Hs.
    + destruct (Nat.eqb_spec (String.length name) 0) as [Hl|Hl];
        intros [= <-] Hg env k v; cbn [fst snd]; rewrite environment_set;
        intros [= <-]; [now apply Hdef|].
      destruct (decide (name = k)) as [<-|Hk].
      * intros _. unfold is_define_name.
        rewrite (split_at_left _ _ _ _ Hs), bool_decide_eq_true_2 by reflexivity.
        destruct name; [now destruct Hl|reflexivity].
      * rewrite lookup_insert_ne by exact Hk. now apply Hdef.
    + intros [= <-] Hg env k v. cbn [fst snd]. rewrite environment_set.
      intros [= <-]. now apply Hdef.
  - repeat (constructor;
            [cbn [snd]; unfold_processors; unfold environment_names_ok;
             intros arg [g vm] r; destruct g; split_processor; cbn in *;
             intros; simplify_eq; cbn in *; eauto|]).
    constructor.
Qed.

(** X6.  Parsing keeps the environment table well-formed: every name in it
    is non-empty and contains no equals sign, whatever the command line. *)
Theorem ParseArguments_environment_names (b : Build) (st : PState)
    (args : list string) (r : ParseResult) :
  environment_names_ok st.1 ->
  ParseArguments_from b st args = Ret r ->
  environment_names_ok (globals r).
Proof.
  intros Hst Hp.
  refine (ParseArguments_from_rel b
            (fun s s' => environment_names_ok s.1 -> environment_names_ok s'.1)
            _ _ _ _ _ st args r Hp Hst); cbn [fst]; auto.
  - apply processors_keep_environment_names.
  - intros arg s r' H.
    destruct (ProcessPackageRootOption_touches_root _ _ _ H) as [-> | ->];
      [auto|]. destruct s as [g vm]. now destruct g.
Qed.

Lemma ParseArguments_environment_names_witness :
  environment_names_ok
    (Set_.environment (Some {[ "a" := "b=c" ]}) initial_globals).
Proof.
  refine (ParseArguments_environment_names dart_binary
            (initial_globals, ["--no_write_protect_code"])
            ["-Da=b=c"; "script.dart"]
            {| result := 0; script_name := Some "script.dart";
               vm_options := ["--no_write_protect_code"];
               dart_options := []; print_flags_seen := false;
               verbose_debug_seen := false;
               globals := Set_.environment (Some {[ "a" := "b=c" ]})
                            initial_globals |} _ eq_refl).
  intros env k v [=].
Defined.

(** ** Engine flags are only ever added *)

Lemma processors_extend_vm_options b :
  Forall (fun e => forall arg st r,
            e.2 arg st = Ret r -> exists added, r.2.2 = (st.2 ++ added)%list)
    (main_options b).
Proof.
  unfold main_options.
  repeat (constructor;
          [cbn [snd]; unfold_processors; intros arg [g vm] r;
           split_processor; cbn; intros; simplify_eq; cbn;
           unfold AddArgument; rewrite <- ?app_assoc;
           first [now eexists | now exists []; rewrite app_nil_r]|]).
  constructor.
Qed.

(** X7.  Parsing only ever appends to the engine flags: the flags present
    before it, starting with [--no_write_protect_code], stay first and in
    their order. *)
Theorem ParseArguments_extends_vm_options (b : Build) (argv : list string)
    (r : ParseResult) :
  ParseArguments b argv = Ret r ->
  exists added, vm_options r = ("--no_write_protect_code" :: added)%list.
Proof.
  intros Hp.
  refine (ParseArguments_from_rel b
            (fun s s' => exists added, s'.2 = (s.2 ++ added)%list)
            _ _ _ _ _ _ _ r Hp); cbn [fst snd].
  - intros s. exists []. now rewrite app_nil_r.
  - intros s1 s2 s3 [a1 H1] [a2 H2]. exists (a1 ++ a2)%list.
    now rewrite H2, H1, app_assoc.
  - apply processors_extend_vm_options.
  - intros arg s r' H.
    destruct (ProcessPackageRootOption_touches_root _ _ _ H) as [-> | ->];
      exists []; now rewrite app_nil_r.
  - intros s a. now exists [a].
Qed.

Lemma ParseArguments_extends_vm_options_witness :
  exists added,
    ["--no_write_protect_code"; "--shutdown"; "--checked"]
    = ("--no_write_protect_code" :: added)%list.
Proof.
  exact (ParseArguments_extends_vm_options dart_binary
           ["dart"; "--shutdown"; "-c"; "script.dart"]
           {| result := 0; script_name := Some "script.dart";
              vm_options := ["--no_write_protect_code"; "--shutdown";
                             "--checked"];
              dart_options := []; print_flags_seen := false;
              verbose_debug_seen := false; globals := initial_globals |}
           eq_refl).
Defined.

(** ** When parsing returns *)

Lemma ProcessMainOptions_from_returns table a st :
  Forall (fun e => has_prefix e.1 a = true ->
                   forall st, exists r,
                     e.2 (CStr.skip (String.length e.1) a) st = Ret r) table ->
  exists r, ProcessMainOptions_from table a st = Ret r.
Proof.
  intros H. revert st. induction H as [|[name process] table Hp _ IH];
    intros st; cbn [ProcessMainOptions_from]; [eauto|].
  destruct (Nat.leb _ _ && CStr.strncmp_eq _ a name) eqn:Ht; [|apply IH].
  apply andb_prop in Ht as [_ Ht]. cbn [fst snd] in Hp.
  destruct (Hp Ht st) as [r ->]. cbn [obind]. destruct r.1; eauto.
Qed.

Lemma ProcessMainOptions_returns b a st :
  DART_PRODUCT_BINARY b = false ->
  has_prefix "--enable-vm-service" a = false ->
  has_prefix "--observe" a = false ->
  exists r, ProcessMainOptions b a st = Ret r.
Proof.
  intros Hb Hs Ho. apply ProcessMainOptions_from_returns.
  unfold main_options.
  repeat (constructor;
          [cbn [fst snd]; intros Hpre st';
           try congruence;
           unfold_processors; rewrite ?Hb; split_processor; eauto;
           discriminate|]).
  constructor.
Qed.

Lemma parse_vm_options_returns b n :
  DART_PRODUCT_BINARY b = false ->
  forall args st pf vd,
    (List.length args <= n)%nat ->
    Forall (fun a => has_prefix "--enable-vm-service" a = false
                     /\ has_prefix "--observe" a = false) args ->
    exists r, parse_vm_options b args st pf vd = Ret r.
Proof.
  intros Hb. induction n as [|n IH]; intros args st pf vd Hn Hargs;
    destruct args as [|a args]; cbn [List.length] in Hn; try lia;
    cbn [parse_vm_options]; eauto.
  apply Forall_cons in Hargs as [[Hs Ho] Hargs].
  destruct (ProcessMainOptions_returns b a st Hb Hs Ho) as [r ->].
  cbn [obind].
  assert (Hrec : forall st0 pf0 vd0,
            exists r0, parse_vm_options b args st0 pf0 vd0 = Ret r0)
    by (intros; apply IH; [lia|exact Hargs]).
  destruct r.1; [apply Hrec|].
  destruct (has_prefix "-p" a).
  { unfold ProcessPackageRootOption at 1.
    destruct (_ || _); cbn [obind fst snd]; [|apply Hrec].
    destruct args as [|a' args']; [eauto|].
    unfold ProcessPackageRootOption at 1.
    apply Forall_cons in Hargs as [_ Hargs]. cbn [List.length] in Hn.
    destruct (_ || _); cbn [obind fst snd]; [eauto|].
    apply IH; [lia|exact Hargs]. }
  destruct (has_prefix "-c" a); [apply Hrec|].
  destruct (negb _); [eauto|apply Hrec].
Qed.

(** X8.  In a binary that is not the product binary, [ParseArguments]
    returns a result for every command line that has no
    [--enable-vm-service] and no [--observe] argument: no assertion is
    tripped and no unset variable is read. *)
Theorem ParseArguments_returns (b : Build) (st : PState)
    (args : list string) :
  DART_PRODUCT_BINARY b = false ->
  Forall (fun a => has_prefix "--enable-vm-service" a = false
                   /\ has_prefix "--observe" a = false) args ->
  exists r, ParseArguments_from b st args = Ret r.
Proof.
  intros Hb Hargs. unfold ParseArguments_from.
  destruct (parse_vm_options_returns b _ Hb args st false false (le_n _) Hargs)
    as [[[[rest st'] pf] vd] ->].
  cbn [obind]. destruct rest; eauto.
Qed.

Lemma ParseArguments_returns_witness :
  exists r,
    ParseArguments dart_bootstrap
      ["dart"; "--snapshot="; "--run-full-snapshot="; "-p"; "-D"] = Ret r.
Proof.
  refine (ParseArguments_returns dart_bootstrap
            (initial_globals, ["--no_write_protect_code"])
            ["--snapshot="; "--run-full-snapshot="; "-p"; "-D"] eq_refl _).
  repeat (constructor; [split; reflexivity|]). constructor.
Defined.

(** What the two server flags can do instead: a value with a slash whose
    text after it is not four dotted numbers makes [ExtractPortAndIP] read
    the length [sscanf] never stored. *)
Example ExtractPortAndIP_reads_unset_length :
  ExtractPortAndIP ":8181/localhost" 8181 "127.0.0.1" = ReadsUnsetLength
  /\ ParseArguments dart_binary
       ["dart"; "--enable-vm-service:8181/localhost"; "script.dart"]
     = Undefined.
Proof. split; reflexivity. Qed.

(** ** More on the server address *)

(** X9.  When the port of the server flag parses but the text after the
    slash does not start a number, [sscanf] reports one conversion, which
    the code takes for success: [ExtractPortAndIP] then reads the length
    that was never stored instead of refusing the value. *)
Theorem ExtractPortAndIP_partial_match (p rest : string) (dp : Z)
    (dip : string) :
  is_number p = true ->
  CStr.scan_d rest = CStr.ConvMismatch \/ CStr.scan_d rest = CStr.ConvEof ->
  ExtractPortAndIP (":" ++ p ++ "/" ++ rest) dp dip = ReadsUnsetLength
  /\ ExtractPortAndIP ("=" ++ p ++ "/" ++ rest) dp dip = ReadsUnsetLength.
Proof.
  intros Hp Hrest.
  assert (Hd : all_digits p = true)
    by (unfold is_number in Hp; now apply andb_prop in Hp as [_ ?]).
  assert (Hs : sscanf_port_ip (p ++ String "/" rest) = (1, None)).
  { unfold sscanf_port_ip.
    rewrite (scan_d_number p) by (auto; reflexivity).
    cbn [CStr.scan_lit]. rewrite Ascii.eqb_refl.
    now destruct Hrest as [-> | ->]. }
  split; unfold ExtractPortAndIP; norm_append;
    cbn [is_empty first_is CStr.skip Ascii.eqb Bool.eqb negb andb];
    cbn [CStr.split_at Ascii.eqb Bool.eqb];
    rewrite (split_at_digits "/" p) by (auto; reflexivity);
    now rewrite Hs.
Qed.

Lemma ExtractPortAndIP_partial_match_witness :
  ExtractPortAndIP ":8181/localhost" 8181 "127.0.0.1" = ReadsUnsetLength
  /\ ExtractPortAndIP "=8181/localhost" 8181 "127.0.0.1" = ReadsUnsetLength.
Proof.
  exact (ExtractPortAndIP_partial_match "8181" "localhost" 8181 "127.0.0.1"
           eq_refl (or_introl eq_refl)).
Defined.

(** X10.  The separator after the flag name may be [:] or [=]: both give the
    same port and address, for every value. *)
Theorem ExtractPortAndIP_separators (v : string) (dp : Z) (dip : string) :
  ExtractPortAndIP (String ":" v) dp dip = ExtractPortAndIP (String "=" v) dp dip.
Proof.
  unfold ExtractPortAndIP.
  cbn [is_empty first_is CStr.skip Ascii.eqb Bool.eqb negb andb CStr.split_at].
  now destruct (CStr.split_at "/" v) as [[l r]|].
Qed.

(** ** The shutdown flag *)

(** X11.  [--shutdown] is accepted with no value and with the values [true]
    and [false] after [:] or [=], and with nothing else: an accepted value
    sets [do_vm_shutdown] and adds [--shutdown] or [--no-shutdown] to the
    engine flags, a refused one changes nothing. *)
Theorem ProcessShutdownOption_values (arg : string) (st : PState) :
  exists ok st',
    ProcessShutdownOption arg st = Ret (ok, st')
    /\ (ok = true <->
        In arg [""; ":true"; "=true"; ":false"; "=false"])
    /\ (ok = false -> st' = st)
    /\ (ok = true ->
        do_vm_shutdown st'.1
        = negb (bool_decide (arg = ":false") || bool_decide (arg = "=false"))
        /\ st'.2 = AddArgument (if do_vm_shutdown st'.1 then "--shutdown"
                                else "--no-shutdown") st.2).
Proof.
  destruct st as [g vm]. unfold ProcessShutdownOption.
  destruct arg as [|c rest].
  { eexists _, _. split; [reflexivity|]. cbn. destruct g.
    repeat split; auto; discriminate. }
  cbn [is_empty first_is CStr.skip].
  destruct (Ascii.eqb c "=") eqn:E1; [apply Ascii.eqb_eq in E1|];
    [|destruct (Ascii.eqb c ":") eqn:E2; [apply Ascii.eqb_eq in E2|]];
    cbn [negb andb].
  3: { apply Ascii.eqb_neq in E1, E2.
       eexists _, _. split; [reflexivity|]. split; [|split; [auto|discriminate]].
       split; [discriminate|]. cbn [In].
       intros [H|[H|[H|[H|[H|[]]]]]]; try discriminate;
         injection H as Hc Hr; congruence. }
  all: subst c; unfold CStr.strcmp_eq;
    destruct (String.eqb_spec rest "true") as [->|Ht];
    [|destruct (String.eqb_spec rest "false") as [->|Hf]];
    eexists _, _; (split; [reflexivity|]); destruct g; cbn;
    repeat split; auto; try discriminate.
  all: try (intros [H|[H|[H|[H|[H|[]]]]]]; try discriminate;
    injection H as <-; congruence).
  all: intros _; cbn [In]; tauto.
Qed.

Lemma ProcessShutdownOption_values_witness :
  exists ok st',
    ProcessShutdownOption ":false" (initial_globals, []) = Ret (ok, st')
    /\ (ok = true <->
        In ":false" [""; ":true"; "=true"; ":false"; "=false"])
    /\ (ok = false -> st' = (initial_globals, []))
    /\ (ok = true ->
        do_vm_shutdown st'.1
        = negb (bool_decide (":false" = ":false")
                || bool_decide (":false" = "=false"))
        /\ st'.2 = AddArgument (if do_vm_shutdown st'.1 then "--shutdown"
                                else "--no-shutdown") []).
Proof. exact (ProcessShutdownOption_values ":false" (initial_globals, [])). Defined.

(** ** Exit codes *)

Lemma ends_within_bind {A B} (m : M A) (k : A -> M B) Q S :
  ends_within m (fun a => ends_within (k a) Q S) S ->
  ends_within (mbind_ m k) Q S.
Proof.
  unfold ends_within. destruct m as [t [a|c| |]]; cbn [mbind_ fst snd];
    intros [Hr He]; split; try discriminate.
  - intros x Hx. now apply (Hr a eq_refl).
  - intros c Hc. now apply (Hr a eq_refl).
  - intros c' [= <-]. now apply He.
Qed.

Lemma ends_within_weaken {A} (m : M A) (Q Q' : A -> Prop) (S S' : Z -> Prop) :
  ends_within m Q S -> (forall a, Q a -> Q' a) -> (forall c, S c -> S' c) ->
  ends_within m Q' S'.
Proof. unfold ends_within. intros [Hr He] HQ HS. split; auto. Qed.

Lemma ends_within_mret {A} (a : A) Q S : Q a -> ends_within (mret a) Q S.
Proof. intros H. split; [intros x [= <-]; exact H|discriminate]. Qed.

Lemma ends_within_emit e Q S : Q tt -> ends_within (emit e) Q S.
Proof. intros H. split; [now intros []|discriminate]. Qed.

Lemma ends_within_stop {A} (o : Outcome A) Q S :
  match o with Ret a => Q a | Exited c => S c | _ => True end ->
  ends_within (stop o) Q S.
Proof.
  destruct o; intros H; split; cbn; try discriminate; now intros x [= <-].
Qed.

Lemma ends_within_ErrorExit g {A} code msg Q (S : Z -> Prop) :
  S code -> ends_within (@ErrorExit g A code msg) Q S.
Proof.
  intros H. unfold ErrorExit.
  destruct (do_vm_shutdown g); split; cbn; try discriminate;
    now intros c [= <-].
Qed.

Ltac ends_leaf :=
  solve [ exact I
        | unfold error_exit_code, kApiErrorExitCode, kCompilationErrorExitCode,
            kErrorExitCode, kRestartRequestExitCode in *;
          cbn in *; intuition (try discriminate; try lia; auto) ].

Ltac ends_step :=
  cbn beta;
  match goal with
  | |- ends_within (mbind_ _ _) _ _ => apply ends_within_bind
  | |- ends_within (emit _) _ _ => apply ends_within_emit
  | |- ends_within (mret _) _ _ => apply ends_within_mret
  | |- ends_within (stop _) _ _ => apply ends_within_stop
  | |- ends_within (ErrorExit _ _ _) _ _ => apply ends_within_ErrorExit
  | |- ends_within (CHECK_RESULT_setup ?r _) _ _ =>
      unfold CHECK_RESULT_setup at 1; destruct r as [|[] ?];
      cbn [Dart_IsError Dart_IsCompilationError Dart_IsApiError
           Dart_IsVMRestartRequest]
  | |- ends_within (CHECK_RESULT_run _ ?r _) _ _ =>
      unfold CHECK_RESULT_run at 1; destruct r as [|[] ?];
      cbn [Dart_IsError Dart_IsCompilationError Dart_IsApiError
           Dart_IsVMRestartRequest]
  | |- ends_within (if ?c then _ else _) _ _ => destruct c
  | |- ends_within ((if ?c then _ else _) _) _ _ => destruct c
  | |- ends_within (match ?c with _ => _ end) _ _ => destruct c
  | |- match (if ?c then _ else _) with Ret _ => _ | _ => _ end => destruct c
  | |- match ?o with Ret _ => _ | _ => _ end => destruct o
  end.

Ltac ends_auto := repeat first [ends_step | ends_leaf].

(** The codes [CreateIsolateAndSetupHelper] can leave in [*exit_code]; it
    never ends the process itself. *)
Lemma CreateIsolateAndSetupHelper_ends b h g e script_uri root config :
  ends_within (CreateIsolateAndSetupHelper b h g e script_uri root config)
    (fun r => match r with
              | IsolateReady => True
              | NoIsolate code _ =>
                  code = 0 \/ code = kRestartRequestExitCode
                  \/ error_exit_code code
              end)
    (fun _ => False).
Proof.
  unfold CreateIsolateAndSetupHelper, ASSERT. cbv zeta. ends_auto.
Qed.

Lemma WriteSnapshotFile_ends h g dir filename magic buffer :
  ends_within (WriteSnapshotFile h g dir filename magic buffer)
    (fun _ => True) write_exit_code.
Proof.
  unfold WriteSnapshotFile, ASSERT, write_exit_code. cbv zeta. ends_auto.
Qed.

Ltac ends_call lem :=
  cbn beta; eapply ends_within_weaken;
  [apply lem | cbn beta; intros ? _ | cbn beta; intros ? ?;
   unfold write_exit_code in *; ends_leaf].

Ltac ends_write :=
  match goal with
  | |- ends_within (WriteSnapshotFile _ _ _ _ _ _) _ _ =>
      ends_call WriteSnapshotFile_ends
  end.

Lemma GenerateScriptSnapshot_ends h g e :
  ends_within (GenerateScriptSnapshot h g e) (fun _ => True) write_exit_code.
Proof.
  unfold GenerateScriptSnapshot, deref, write_exit_code.
  destruct (Dart_CreateScriptSnapshot e) as [result buffer].
  repeat first [ends_write | ends_step | ends_leaf].
Qed.

Lemma GenerateFullSnapshot_ends h g e :
  ends_within (GenerateFullSnapshot h g e) (fun _ => True) write_exit_code.
Proof.
  unfold GenerateFullSnapshot, deref, write_exit_code.
  destruct (Dart_CreateSnapshot e) as [result [vm iso]].
  cbn [ComputeSnapshotFilenames].
  repeat first [ends_write | ends_step | ends_leaf].
Qed.

Ltac ends_known :=
  match goal with
  | |- ends_within (WriteSnapshotFile _ _ _ _ _ _) _ _ =>
      ends_call WriteSnapshotFile_ends
  | |- ends_within (GenerateScriptSnapshot _ _ _) _ _ =>
      ends_call GenerateScriptSnapshot_ends
  | |- ends_within (GenerateFullSnapshot _ _ _) _ _ =>
      ends_call GenerateFullSnapshot_ends
  end.

Lemma ends_within_returned {A} (t : list Event) (a : A) Q S :
  Q a -> ends_within ((t, Ret a) : M A) Q S.
Proof. intros H. split; cbn; [now intros x [= <-]|discriminate]. Qed.

Lemma RunMainIsolate_ends b h g e script :
  ends_within (RunMainIsolate b h g e script) (fun _ => True) error_exit_code
  /\ ((CreateIsolateAndSetupHelper b h g e script
         (commandline_package_root g) (commandline_packages_file g)).2
      = Ret IsolateReady ->
      ends_within (RunMainIsolate b h g e script) (fun _ => True)
        write_exit_code).
Proof.
  split.
  - unfold RunMainIsolate. apply ends_within_bind.
    eapply ends_within_weaken;
      [apply CreateIsolateAndSetupHelper_ends| |intros c []].
    cbn beta. intros [|code error] HQ.
    + cbv zeta.
      destruct (Dart_CreatePrecompiledSnapshot e) as [pre [[vm iso] ins]].
      repeat first [ends_known | ends_step | ends_leaf].
    + destruct (Z.eqb_spec code kRestartRequestExitCode); [ends_auto|].
      repeat first [ends_step | exact I].
      all: destruct (Z.eqb_spec code 0); cbn [negb]; ends_leaf.
  - intros Hh. unfold RunMainIsolate.
    destruct (CreateIsolateAndSetupHelper b h g e script _ _) as [t o].
    cbn [snd] in Hh. subst o. apply ends_within_bind.
    apply ends_within_returned. cbv zeta. unfold write_exit_code.
    destruct (Dart_CreatePrecompiledSnapshot e) as [pre [[vm iso] ins]].
    repeat first [ends_known | ends_step | ends_leaf].
Qed.

(** X12.  A bootstrap of the main isolate that ends the process does so
    with 253, 254 or 255, and with 254 or 255 once the isolate has been set
    up: an API error is reported as 253 only while the isolate is being
    created and set up, and as 255 afterwards. *)
Theorem RunMainIsolate_exit_codes (b : Build) (h : Host) (g : Globals)
    (e : Engine) (script : string) (c : Z) :
  (RunMainIsolate b h g e script).2 = Exited c ->
  (c = 253 \/ c = 254 \/ c = 255)
  /\ ((CreateIsolateAndSetupHelper b h g e script
         (commandline_package_root g) (commandline_packages_file g)).2
      = Ret IsolateReady -> c = 254 \/ c = 255).
Proof.
  intros Hc. destruct (RunMainIsolate_ends b h g e script) as [[_ H1] H2].
  split; [exact (H1 c Hc)|].
  intros Hh. destruct (H2 Hh) as [_ H3]. exact (H3 c Hc).
Qed.

Lemma RunMainIsolate_exit_codes_witness :
  (253 = 253 \/ 253 = 254 \/ 253 = 255)
  /\ ((255 = 253 \/ 255 = 254 \/ 255 = 255)
      /\ (255 = 254 \/ 255 = 255)).
Proof.
  split.
  - exact (proj1 (RunMainIsolate_exit_codes dart_binary host_ok initial_globals
             engine_api_error_in_setup "script.dart" 253 eq_refl)).
  - pose proof (RunMainIsolate_exit_codes dart_binary host_ok initial_globals
                  (engine_with (Error ApiError "bad state")) "script.dart" 255
                  eq_refl) as [H1 H2].
    exact (conj H1 (H2 eq_refl)).
Defined.

Lemma read_snapshots_ends h g :
  ends_within (read_snapshots h g) (fun _ => True) (fun c => c = kErrorExitCode).
Proof.
  unfold read_snapshots, LoadLibrarySymbol, ReadSnapshotFile, deref.
  cbv zeta. cbn [ComputeSnapshotFilenames]. ends_auto.
Qed.

Lemma restart_loop_ends b h g engines script :
  ends_within (restart_loop b h g engines script) (fun _ => True)
    error_exit_code.
Proof.
  induction engines as [|e engines IH]; cbn [restart_loop]; [ends_auto|].
  apply ends_within_bind.
  eapply ends_within_weaken;
    [apply (proj1 (RunMainIsolate_ends b h g e script))| |auto].
  cbn beta. intros [|] _; [|ends_auto].
  apply ends_within_bind, ends_within_emit. exact IH.
Qed.

Lemma ProcessMainOptions_never_exits b a st c :
  ProcessMainOptions b a st <> Exited c.
Proof.
  unfold ProcessMainOptions.
  assert (H : Forall (fun e => forall arg st c, e.2 arg st <> Exited c)
                (main_options b)).
  { unfold main_options.
    repeat (constructor;
            [cbn [snd]; unfold_processors; intros arg st' c';
             split_processor; cbn; discriminate|]).
    constructor. }
  revert st. induction H as [|[name process] table Hp _ IH]; intros st;
    cbn [ProcessMainOptions_from]; [discriminate|].
  destruct (_ && _); [|apply IH].
  destruct (process _ st) as [r|code| |] eqn:H1; cbn [obind]; try discriminate.
  - destruct r.1; [discriminate|apply IH].
  - now destruct (Hp _ _ _ H1).
Qed.

Lemma parse_vm_options_never_exits b n :
  forall args st pf vd c,
    (List.length args <= n)%nat ->
    parse_vm_options b args st pf vd <> Exited c.
Proof.
  induction n as [|n IH]; intros args st pf vd c Hn;
    destruct args as [|a args]; cbn [List.length] in Hn; try lia;
    cbn [parse_vm_options]; try discriminate.
  pose proof (ProcessMainOptions_never_exits b a st c) as Hm.
  destruct (ProcessMainOptions b a st) as [r| | |]; cbn [obind];
    try discriminate; [|congruence].
  assert (Hrec : forall st0 pf0 vd0,
            parse_vm_options b args st0 pf0 vd0 <> Exited c)
    by (intros; apply IH; lia).
  destruct r.1; [apply Hrec|].
  destruct (has_prefix "-p" a).
  { unfold ProcessPackageRootOption at 1.
    destruct (_ || _); cbn [obind fst snd]; [|apply Hrec].
    destruct args as [|a' args']; [discriminate|].
    unfold ProcessPackageRootOption at 1. cbn [List.length] in Hn.
    destruct (_ || _); cbn [obind fst snd]; [discriminate|].
    apply IH. lia. }
  destruct (has_prefix "-c" a); [apply Hrec|].
  destruct (negb _); [discriminate|apply Hrec].
Qed.

Lemma ParseArguments_never_exits b argv c : ParseArguments b argv <> Exited c.
Proof.
  unfold ParseArguments, ParseArguments_from.
  pose proof (parse_vm_options_never_exits b _ (tail argv)
                (initial_globals, ["--no_write_protect_code"]) false false c
                (le_n _)) as H.
  destruct (parse_vm_options b _ _ false false)
    as [[[[rest st'] pf] vd]| | |]; cbn [obind]; try discriminate;
    [now destruct rest|congruence].
Qed.

(** X13.  Whatever the command line, the host and the engine do, a process
    that [main] ends exits with 0, 253, 254, 255 or the global exit code
    the script left: the restart code 1000 is never an exit code of the
    launcher's own. *)
Theorem main_exit_codes (b : Build) (h : Host) (engines : list Engine)
    (argv : list string) (c : Z) :
  (main b h engines argv).2 = Exited c ->
  c = 0 \/ c = 253 \/ c = 254 \/ c = 255 \/ c = GlobalExitCode h.
Proof.
  assert (H : ends_within (main b h engines argv) (fun _ => True)
                (fun c => c = 0 \/ c = 253 \/ c = 254 \/ c = 255
                          \/ c = GlobalExitCode h)).
  { unfold main, ASSERT, deref.
    pose proof (ParseArguments_never_exits b argv) as Hne.
    destruct (ParseArguments b argv) as [r|code| |];
      [|now destruct (Hne code)|split; cbn; discriminate..].
    apply ends_within_bind, ends_within_returned. cbv zeta.
    repeat first
      [ cbn beta; eapply ends_within_weaken;
        [apply read_snapshots_ends | cbn beta; intros ? _
        | cbn beta; intros ? ->; unfold kErrorExitCode; lia]
      | cbn beta; eapply ends_within_weaken;
        [apply restart_loop_ends | cbn beta; intros ? _
        | cbn beta; unfold error_exit_code, kApiErrorExitCode,
            kCompilationErrorExitCode, kErrorExitCode; intros ? ?; lia]
      | ends_step
      | exact I
      | unfold kErrorExitCode; lia ]. }
  intros Hc. exact (proj2 H c Hc).
Qed.

Lemma main_exit_codes_witness :
  255 = 0 \/ 255 = 253 \/ 255 = 254 \/ 255 = 255
  \/ 255 = GlobalExitCode host_ok.
Proof.
  exact (main_exit_codes dart_binary host_ok [] ["dart"] 255 eq_refl).
Defined.

(** ** The restart loop stops *)

(** X14.  The restart loop bootstraps again only after a bootstrap that
    asked for a restart: after one that completed, exited or aborted, what
    the engine would have answered to further bootstraps has no effect. *)
Theorem restart_loop_stops (b : Build) (h : Host) (g : Globals)
    (script : string) (restarts : list Engine) (final : Engine)
    (more : list Engine) :
  (RunMainIsolate b h g final script).2 <> Ret true ->
  restart_loop b h g (restarts ++ final :: more) script
  = restart_loop b h g (restarts ++ [final]) script.
Proof.
  intros Hf. induction restarts as [|e restarts IH]; cbn [app restart_loop].
  - destruct (RunMainIsolate b h g final script) as [t [[|]| | |]];
      cbn [snd] in Hf; try reflexivity. congruence.
  - now rewrite IH.
Qed.

Lemma restart_loop_stops_witness :
  restart_loop dart_binary host_ok initial_globals
    [engine_restart; engine_ok; engine_restart; engine_restart] "script.dart"
  = restart_loop dart_binary host_ok initial_globals
      [engine_restart; engine_ok] "script.dart".
Proof.
  refine (restart_loop_stops dart_binary host_ok initial_globals "script.dart"
            [engine_restart] engine_ok [engine_restart; engine_restart] _).
  intros H. vm_compute in H. discriminate H.
Defined.

(** ** A failed setup leaves no isolate behind *)

(** X15.  For an isolate that is not the service isolate,
    [CreateIsolateAndSetupHelper] either hands back the one isolate it
    created, not shut down, or returns NULL having shut down the isolate if
    it had created one.  For the service isolate there is an exception:
    when [VmService::Setup] fails, NULL is returned and the isolate just
    created is not shut down. *)
Theorem CreateIsolateAndSetupHelper_cleans_up (b : Build) (h : Host)
    (g : Globals) (e : Engine) (script_uri : string)
    (root config : option string) :
  (Dart_IsServiceIsolate e = false ->
   forall t r,
     CreateIsolateAndSetupHelper b h g e script_uri root config = (t, Ret r) ->
     match r with
     | IsolateReady =>
         count_events is_created t = 1%nat /\ count_events is_shutdown t = 0%nat
     | NoIsolate _ _ => count_events is_created t = count_events is_shutdown t
     end)
  /\ (forall msg,
        DART_PRODUCT_BINARY b = false ->
        run_full_snapshot g
        && CStr.strcmp_eq script_uri (DART_VM_SERVICE_ISOLATE_NAME h) = false ->
        Dart_CreateIsolate e = None ->
        Dart_SetLibraryTagHandler e = Value ->
        Dart_IsServiceIsolate e = true ->
        VmService_Setup e = Some msg ->
        CreateIsolateAndSetupHelper b h g e script_uri root config
        = ([EvIsolateCreated script_uri], Ret (NoIsolate 0 (Some msg)))).
Proof.
  split.
  - intros Hs t r Hh.
    assert (H : lifecycle
                  (CreateIsolateAndSetupHelper b h g e script_uri root config)
                  (fun r c s =>
                     match r with
                     | IsolateReady => c = 1%nat /\ s = 0%nat
                     | NoIsolate _ _ => c = s
                     end)).
    { unfold CreateIsolateAndSetupHelper, ASSERT. cbv zeta. rewrite Hs.
      lifecycle_auto. }
    destruct H as [H _]. rewrite Hh in H. exact (H r eq_refl).
  - intros msg Hb Hr Hc Ht Hs Hv. unfold CreateIsolateAndSetupHelper.
    rewrite Hb, Hr, Hc, Ht, Hs, Hv. reflexivity.
Qed.

Lemma CreateIsolateAndSetupHelper_cleans_up_witness :
  count_events is_created
    [EvIsolateCreated "script.dart"; EvLoadScript "script.dart";
     EvShutdownIsolate]
  = count_events is_shutdown
      [EvIsolateCreated "script.dart"; EvLoadScript "script.dart";
       EvShutdownIsolate].
Proof.
  exact (proj1 (CreateIsolateAndSetupHelper_cleans_up dart_binary host_ok
                  initial_globals engine_api_error_in_setup "script.dart"
                  None None) eq_refl _ (NoIsolate 253 (Some "bad state"))
           eq_refl).
Defined.

(** ** What a run mode never does *)

Lemma silent_bind {A B} p (m : M A) (k : A -> M B) :
  silent p m -> (forall a, silent p (k a)) -> silent p (mbind_ m k).
Proof.
  unfold silent, mbind_. destruct m as [t [a| | |]]; cbn [fst snd]; auto.
  intros Hm Hk. now rewrite List.filter_app, Hm, (Hk a).
Qed.

Ltac silent_step :=
  match goal with
  | |- silent _ (mbind_ _ _) => apply silent_bind; [|intros ?]
  | |- silent _ (CHECK_RESULT_setup ?r _) =>
      unfold CHECK_RESULT_setup at 1; destruct r as [|[] ?];
      cbn [Dart_IsError Dart_IsCompilationError Dart_IsApiError
           Dart_IsVMRestartRequest]
  | |- silent _ (CHECK_RESULT_run _ ?r _) =>
      unfold CHECK_RESULT_run at 1; destruct r as [|[] ?];
      cbn [Dart_IsError Dart_IsCompilationError Dart_IsApiError
           Dart_IsVMRestartRequest]
  | |- silent _ (ErrorExit _ _ _) => unfold ErrorExit
  | |- silent _ (if ?c then _ else _) => destruct c
  | |- silent _ ((if ?c then _ else _) _) => destruct c
  | |- silent _ (match ?c with _ => _ end) => destruct c
  | |- silent _ (let '(_, _) := ?c in _) => destruct c
  | |- silent _ _ => reflexivity
  end.

Lemma CreateIsolateAndSetupHelper_starts_nothing b h g e script_uri root config :
  silent is_start_main
    (CreateIsolateAndSetupHelper b h g e script_uri root config).
Proof.
  unfold CreateIsolateAndSetupHelper, ASSERT. cbv zeta. repeat silent_step.
Qed.

(** X16.  The two modes that only generate a snapshot never start the
    script: with script-snapshot generation or precompiled-snapshot
    generation requested, [RunMainIsolate] never invokes the main entry
    point, whatever the engine answers. *)
Theorem RunMainIsolate_generation_skips_main (b : Build) (h : Host)
    (g : Globals) (e : Engine) (script : string) :
  generate_script_snapshot g = true \/ gen_precompiled_snapshot g = true ->
  silent is_start_main (RunMainIsolate b h g e script).
Proof.
  intros Hg. unfold RunMainIsolate. apply silent_bind;
    [apply CreateIsolateAndSetupHelper_starts_nothing|].
  intros [|code error]; [|repeat silent_step].
  cbv zeta. unfold GenerateScriptSnapshot, WriteSnapshotFile, deref, ASSERT.
  destruct (Dart_CreatePrecompiledSnapshot e) as [pre [[vm iso] ins]].
  destruct (generate_script_snapshot g) eqn:Hs.
  - cbv zeta. repeat silent_step.
  - destruct Hg as [Hg|Hg]; [discriminate|]. rewrite Hg.
    cbv zeta. repeat silent_step.
Qed.

Lemma RunMainIsolate_generation_skips_main_witness :
  silent is_start_main
    (RunMainIsolate dart_binary host_ok
       (Set_.generate_script_snapshot true
          (Set_.snapshot_filename (Some "out.snapshot") initial_globals))
       engine_ok "script.dart").
Proof.
  exact (RunMainIsolate_generation_skips_main dart_binary host_ok
           (Set_.generate_script_snapshot true
              (Set_.snapshot_filename (Some "out.snapshot") initial_globals))
           engine_ok "script.dart" (or_introl eq_refl)).
Defined.

(** X17.  Running from a snapshot never loads the script source: with
    run-full-snapshot or run-precompiled-snapshot recorded, a bootstrap has
    no script load, whatever the engine answers. *)
Theorem RunMainIsolate_snapshot_loads_no_source (b : Build) (h : Host)
    (g : Globals) (e : Engine) (script : string) :
  run_full_snapshot g = true \/ run_precompiled_snapshot g = true ->
  silent is_load_script (RunMainIsolate b h g e script).
Proof.
  intros Hg.
  assert (Hc : negb (run_precompiled_snapshot g) && negb (run_full_snapshot g)
               = false)
    by (destruct Hg as [-> | ->]; [apply andb_false_r|reflexivity]).
  unfold RunMainIsolate. apply silent_bind.
  - unfold CreateIsolateAndSetupHelper, ASSERT. cbv zeta. rewrite Hc.
    repeat silent_step.
  - intros [|code error]; [|repeat silent_step].
    cbv zeta. unfold GenerateScriptSnapshot, GenerateFullSnapshot,
      WriteSnapshotFile, deref, ASSERT.
    destruct (Dart_CreatePrecompiledSnapshot e) as [pre [[vm iso] ins]].
    cbv zeta. cbn [ComputeSnapshotFilenames]. repeat silent_step.
Qed.

Lemma RunMainIsolate_snapshot_loads_no_source_witness :
  silent is_load_script
    (RunMainIsolate dart_binary host_ok
       (Set_.run_precompiled_snapshot true initial_globals)
       engine_ok "script.dart").
Proof.
  exact (RunMainIsolate_snapshot_loads_no_source dart_binary host_ok
           (Set_.run_precompiled_snapshot true initial_globals)
           engine_ok "script.dart" (or_intror eq_refl)).
Defined.

(** ** Nothing runs before start-up has succeeded *)

Lemma read_snapshots_creates_nothing h g :
  silent is_created (read_snapshots h g).
Proof.
  unfold read_snapshots, LoadLibrarySymbol, ReadSnapshotFile, deref.
  cbv zeta. cbn [ComputeSnapshotFilenames]. repeat silent_step.
Qed.

Lemma silent_count {A} p (m : M A) : silent p m -> count_events p m.1 = 0%nat.
Proof. unfold silent, count_events. now intros ->. Qed.

(** X18.  [main] creates an isolate only after start-up has succeeded: if
    any isolate is created, the command line parsed with result 0, the
    working directory was found, every snapshot to run from was loaded and
    the engine initialized. *)
Theorem main_creates_isolates_after_startup (b : Build) (h : Host)
    (engines : list Engine) (argv : list string) :
  (0 < count_events is_created (main b h engines argv).1)%nat ->
  exists r,
    ParseArguments b argv = Ret r
    /\ result r = 0
    /\ SetOriginalWorkingDirectory h = true
    /\ (read_snapshots h (globals r)).2 = Ret tt
    /\ Dart_Initialize h = None.
Proof.
  unfold main.
  destruct (ParseArguments b argv) as [r| | |] eqn:Hp;
    try (cbn; unfold count_events; cbn; lia).
  cbn [stop mbind_ fst snd app].
  destruct (ParseArguments_from_result b _ _ r Hp) as [Hr|[Hr _]]; rewrite Hr.
  { cbn [Z.ltb Z.compare].
    destruct (help_option (globals r)), (version_option (globals r)),
      (print_flags_seen r); cbn; unfold count_events; cbn; lia. }
  cbn [Z.ltb Z.compare].
  destruct (SetOriginalWorkingDirectory h);
    [|cbn; unfold count_events; cbn; lia].
  cbn [negb]. destruct (_ || _);
    [|cbn; unfold count_events; cbn; lia].
  cbn [ASSERT stop mbind_ fst snd app].
  pose proof (silent_count _ _ (read_snapshots_creates_nothing h (globals r)))
    as Hs.
  destruct (read_snapshots h (globals r)) as [tr [[]| | |]] eqn:Hrs;
    cbn [fst] in Hs; cbn [mbind_ fst snd]; try lia.
  destruct (Dart_Initialize h) as [error|].
  { destruct (do_vm_shutdown (globals r)); cbn [mbind_ emit mret stop fst snd];
      rewrite !count_events_app, Hs; unfold count_events; cbn; lia. }
  intros _. exists r. rewrite Hrs. repeat split; auto.
Qed.

Lemma main_creates_isolates_after_startup_witness :
  exists r,
    ParseArguments dart_binary ["dart"; "script.dart"] = Ret r
    /\ result r = 0
    /\ SetOriginalWorkingDirectory host_ok = true
    /\ (read_snapshots host_ok (globals r)).2 = Ret tt
    /\ Dart_Initialize host_ok = None.
Proof.
  refine (main_creates_isolates_after_startup dart_binary host_ok [engine_ok]
            ["dart"; "script.dart"] _).
  vm_compute. lia.
Defined.

(** ** The files of a full snapshot *)

Lemma ReadSnapshotFile_ok h dir filename :
  OpenFile h (qualified dir filename) = true ->
  (ReadFile h (qualified dir filename)).1 <> None ->
  (ReadFile h (qualified dir filename)).2 <> -1 ->
  exists buffer,
    ReadSnapshotFile h dir filename
    = ([EvFileRead (qualified dir filename)], Ret buffer).
Proof.
  intros Ho Hb Hl. unfold ReadSnapshotFile. rewrite Ho. cbn [negb].
  destruct (ReadFile h (qualified dir filename)) as [[buffer|] len];
    cbn [fst snd] in *; [|congruence].
  destruct (Z.eqb_spec len (-1)); [congruence|]. now exists buffer.
Qed.

Lemma append_inj_l (s t u : string) : s ++ t = s ++ u -> t = u.
Proof.
  induction s as [|a s IH]; norm_append; [auto|]. intros [= H]. auto.
Qed.

(** X19.  Run-full-snapshot reads back exactly the files that
    full-snapshot-after-run wrote for the same file name, in the same order,
    and the two files are different files. *)
Theorem full_snapshot_files_round_trip (h h' : Host) (g g' : Globals)
    (e : Engine) (base : string) :
  snapshot_filename g = Some base ->
  Dart_IsError (Dart_CreateSnapshot e).1 = false ->
  (forall n, File_Open h n = true) -> (forall n, WriteFully h n = true) ->
  run_precompiled_snapshot g' = false ->
  run_full_snapshot g' = true ->
  snapshot_filename g' = Some base ->
  (forall n, OpenFile h' n = true) ->
  (forall n, (ReadFile h' n).1 <> None /\ (ReadFile h' n).2 <> -1) ->
  (read_snapshots h' g').2 = Ret tt
  /\ files_read (read_snapshots h' g').1
     = map fst (files_written (GenerateFullSnapshot h g e).1)
  /\ files_read (read_snapshots h' g').1
     = [base ++ ".vmisolate"; base ++ ".isolate"]
  /\ base ++ ".vmisolate" <> base ++ ".isolate".
Proof.
  intros Hf He Ho Hw Hp Hr Hf' Ho' Hr'.
  assert (Hread : read_snapshots h' g'
                  = ([EvFileRead (base ++ ".vmisolate");
                      EvFileRead (base ++ ".isolate")], Ret tt)).
  { unfold read_snapshots. rewrite Hp, Hr, Hf'.
    cbn [deref mret mbind_ fst snd app ComputeSnapshotFilenames].
    destruct (ReadSnapshotFile_ok h' None (base ++ "." ++ kVMIsolateSuffix)
                (Ho' _) (proj1 (Hr' _)) (proj2 (Hr' _))) as [b1 ->].
    destruct (ReadSnapshotFile_ok h' None (base ++ "." ++ kIsolateSuffix)
                (Ho' _) (proj1 (Hr' _)) (proj2 (Hr' _))) as [b2 ->].
    reflexivity. }
  assert (Hwrite : files_written (GenerateFullSnapshot h g e).1
                   = [(base ++ ".vmisolate", (Dart_CreateSnapshot e).2.1);
                      (base ++ ".isolate", (Dart_CreateSnapshot e).2.2)]).
  { unfold GenerateFullSnapshot.
    destruct (Dart_CreateSnapshot e) as [result [vm iso]]. cbn [fst snd] in *.
    rewrite He, Hf.
    cbn [mret deref mbind_ fst snd app ComputeSnapshotFilenames].
    rewrite !WriteSnapshotFile_ok by auto. reflexivity. }
  rewrite Hread, Hwrite. repeat split.
  intros H. apply append_inj_l in H. discriminate.
Qed.

Lemma full_snapshot_files_round_trip_witness :
  files_read
    (read_snapshots host_ok
       (Set_.run_full_snapshot true
          (Set_.snapshot_filename (Some "app") initial_globals))).1
  = map fst
      (files_written
         (GenerateFullSnapshot host_ok
            (Set_.snapshot_filename (Some "app") initial_globals)
            engine_ok).1).
Proof.
  refine (proj1 (proj2 (full_snapshot_files_round_trip host_ok host_ok
            (Set_.snapshot_filename (Some "app") initial_globals)
            (Set_.run_full_snapshot true
               (Set_.snapshot_filename (Some "app") initial_globals))
            engine_ok "app" eq_refl eq_refl (fun _ => eq_refl)
            (fun _ => eq_refl) eq_refl eq_refl eq_refl (fun _ => eq_refl) _))).
  intros n. split; discriminate.
Defined.

(** ** Isolate names *)

Lemma after_last_app c dir base :
  after_last c base = None ->
  after_last c (dir ++ String c base) = Some base.
Proof.
  intros Hb. induction dir as [|a dir IH]; norm_append; cbn [after_last].
  - now rewrite Hb, Ascii.eqb_refl.
  - now rewrite IH.
Qed.

Lemma truncate_length s : truncate (String.length s) s = s.
Proof. induction s; cbn; congruence. Qed.

Lemma BuildIsolateName_plain base func :
  snprintf_slash (String.length base + String.length func + 2) base func
  = base ++ "/" ++ func.
Proof.
  unfold snprintf_slash.
  replace (String.length base + String.length func + 2 - 1)%nat
    with (String.length (base ++ "/" ++ func));
    [apply truncate_length|].
  rewrite length_app_string. norm_append. cbn [String.length]. lia.
Qed.

(** X20.  [BuildIsolateName] names an isolate after the last component of
    the script path and the entry function: whatever directories lead to
    the script, the name is [<file>/<function>], and the buffer it sizes
    holds the whole name, nothing being cut off. *)
Theorem BuildIsolateName_last_component (dir base func : string) :
  after_last "/" base = None ->
  BuildIsolateName (dir ++ "/" ++ base) func = base ++ "/" ++ func
  /\ BuildIsolateName base func = base ++ "/" ++ func.
Proof.
  intros Hb. unfold BuildIsolateName. cbv zeta.
  change ("/" ++ base) with (String "/" base).
  rewrite after_last_app by exact Hb. rewrite Hb.
  split; apply BuildIsolateName_plain.
Qed.

Lemma BuildIsolateName_last_component_witness :
  BuildIsolateName "/home/user/bin/script.dart" "main" = "script.dart/main"
  /\ BuildIsolateName "script.dart" "main" = "script.dart/main".
Proof.
  exact (BuildIsolateName_last_component "/home/user/bin" "script.dart" "main"
           eq_refl).
Defined.

(** ** Service streams *)

(** X21.  The service can listen to the two streams [Stdout] and [Stderr]
    and to no other: listening switches the capture of that stream on and
    leaves the other alone, cancelling switches it off again, so that
    cancel after listen is the same as cancel alone; for any other stream
    id listen returns false and neither call changes anything. *)
Theorem ServiceStream_listen_cancel (stream_id : string) (c : Capture) :
  let '(ok, c1) := ServiceStreamListenCallback stream_id c in
  (ok = true <-> stream_id = "Stdout" \/ stream_id = "Stderr")
  /\ ServiceStreamCancelCallback stream_id c1
     = ServiceStreamCancelCallback stream_id c
  /\ (stream_id = "Stdout" ->
      capture_stdout c1 = true /\ capture_stderr c1 = capture_stderr c
      /\ capture_stdout (ServiceStreamCancelCallback stream_id c1) = false)
  /\ (stream_id = "Stderr" ->
      capture_stderr c1 = true /\ capture_stdout c1 = capture_stdout c
      /\ capture_stderr (ServiceStreamCancelCallback stream_id c1) = false)
  /\ (ok = false -> c1 = c /\ ServiceStreamCancelCallback stream_id c = c).
Proof.
  unfold ServiceStreamListenCallback, ServiceStreamCancelCallback,
    CStr.strcmp_eq, kStdoutStreamId, kStderrStreamId.
  destruct (String.eqb_spec stream_id "Stdout") as [->|H1];
    [|destruct (String.eqb_spec stream_id "Stderr") as [->|H2]];
    cbn; repeat split; auto; try discriminate; try congruence;
    intros [H|H]; congruence.
Qed.

Lemma ServiceStream_listen_cancel_witness :
  let '(ok, c1) :=
    ServiceStreamListenCallback "Stderr"
      {| capture_stdout := true; capture_stderr := false |} in
  (ok = true <-> "Stderr" = "Stdout" \/ "Stderr" = "Stderr")
  /\ ServiceStreamCancelCallback "Stderr" c1
     = ServiceStreamCancelCallback "Stderr"
         {| capture_stdout := true; capture_stderr := false |}
  /\ ("Stderr" = "Stdout" ->
      capture_stdout c1 = true /\ capture_stderr c1 = false
      /\ capture_stdout (ServiceStreamCancelCallback "Stderr" c1) = false)
  /\ ("Stderr" = "Stderr" ->
      capture_stderr c1 = true /\ capture_stdout c1 = true
      /\ capture_stderr (ServiceStreamCancelCallback "Stderr" c1) = false)
  /\ (ok = false ->
      c1 = {| capture_stdout := true; capture_stderr := false |}
      /\ ServiceStreamCancelCallback "Stderr"
           {| capture_stdout := true; capture_stderr := false |}
         = {| capture_stdout := true; capture_stderr := false |}).
Proof.
  exact (ServiceStream_listen_cancel "Stderr"
           {| capture_stdout := true; capture_stderr := false |}).
Defined.

(** ** The checked-mode flag *)

(** X22.  Every argument that starts with [-c] switches checked mode on:
    whatever follows the two characters, the argument adds [--checked] to
    the engine flags, changes no global, is not itself handed on, and
    parsing goes on with the next argument. *)
Theorem ParseArguments_checked_prefix (b : Build) (st : PState)
    (suffix : string) (rest : list string) :
  ParseArguments_from b st (("-c" ++ suffix) :: rest)
  = ParseArguments_from b (st.1, AddArgument "--checked" st.2) rest.
Proof.
  unfold ParseArguments_from. cbn [parse_vm_options].
  assert (Hm : ProcessMainOptions b ("-c" ++ suffix) st = Ret (false, st)).
  { unfold ProcessMainOptions, main_options. norm_append.
    apply ProcessMainOptions_from_nomatch. no_entry_matches. }
  rewrite Hm. cbn [obind fst snd]. norm_append. reflexivity.
Qed.
